(** * BitNet installer for Windows: the installation engine and the server
      supervisor, embedded from the Python sources

    The development follows the layout of the repository:
    - [Py]            the fragment of Python the sources rely on (strings,
                      [int] parsing, true division, exceptions, the
                      state-and-exception monad);
    - [Host]          the machine the installer runs on (files, registry,
                      external programs, the network);
    - [Installer]     installer.py (configuration persistence);
    - [Core]          installer_core.py (locator, downloader, prerequisite
                      installers, repository provisioner, environment
                      configurator, launch script generator);
    - [InstallerTab]  installer_gui_tabs.py (the orchestration controller);
    - [ControlPanelTab] control_panel_tab.py (the server supervisor);
    - [Prerequisites] installer_gui_tabs.py (the prerequisite panel).

    Definitions come first; every statement about them is proved in the
    second half of the file. *)

From Stdlib Require Import ZArith String Ascii List Bool Lia DecimalString.
From Stdlib Require Import Floats.SpecFloat Sorting.Sorted.
From stdpp Require Import gmap strings list sorting.

Open Scope Z_scope.

(* ===================================================================== *)
(** * Python fragment                                                     *)
(* ===================================================================== *)

Module Py.

(** ** Strings (ASCII; [str] methods act character-wise) *)

(** [needle in hay] *)
Fixpoint str_in (needle hay : string) : bool :=
  String.prefix needle hay ||
  match hay with
  | EmptyString => false
  | String _ t => str_in needle t
  end.

Definition lower_char (c : ascii) : ascii :=
  let n := nat_of_ascii c in
  if ((65 <=? n) && (n <=? 90))%nat then ascii_of_nat (n + 32) else c.

(** [s.lower()] *)
Fixpoint lower (s : string) : string :=
  match s with
  | EmptyString => EmptyString
  | String c t => String (lower_char c) (lower t)
  end.

(** Whitespace as [str.split()], [str.strip()] and [int()] see it:
    tab, line feed, vertical tab, form feed, carriage return, the four
    separators 0x1c-0x1f and the space. *)
Definition is_space (c : ascii) : bool :=
  let n := nat_of_ascii c in
  (((9 <=? n) && (n <=? 13)) || ((28 <=? n) && (n <=? 32)))%nat.

(** [s.split(sep)] for a one-character separator: never empty. *)
Fixpoint split_char (sep : ascii) (s : string) : list string :=
  match s with
  | EmptyString => [EmptyString]
  | String c t =>
      if Ascii.eqb c sep then EmptyString :: split_char sep t
      else match split_char sep t with
           | h :: r => String c h :: r
           | [] => [String c EmptyString]
           end
  end.

(** [s.split()]: maximal runs of non-whitespace characters. *)
Fixpoint split_ws (s : string) : list string :=
  match s with
  | EmptyString => []
  | String c t =>
      if is_space c then split_ws t
      else match t with
           | EmptyString => [String c EmptyString]
           | String c' _ =>
               if is_space c' then String c EmptyString :: split_ws t
               else match split_ws t with
                    | h :: r => String c h :: r
                    | [] => [String c EmptyString]
                    end
           end
  end.

Fixpoint lstrip (s : string) : string :=
  match s with
  | EmptyString => EmptyString
  | String c t => if is_space c then lstrip t else s
  end.

Fixpoint rstrip (s : string) : string :=
  match s with
  | EmptyString => EmptyString
  | String c t =>
      match rstrip t with
      | EmptyString => if is_space c then EmptyString else String c EmptyString
      | t' => String c t'
      end
  end.

(** [s.strip()] *)
Definition strip (s : string) : string := rstrip (lstrip s).

(** [s.endswith(suffix)] *)
Definition endswith (s suffix : string) : bool :=
  String.prefix (String.rev suffix) (String.rev s).

(** [sep.join(parts)] *)
Fixpoint join (sep : string) (parts : list string) : string :=
  match parts with
  | [] => EmptyString
  | [p] => p
  | p :: rest => p +:+ sep +:+ join sep rest
  end.

(** Iterating over a text stream: the lines, each keeping its line feed. *)
Fixpoint readlines_aux (cur : string) (s : string) : list string :=
  match s with
  | EmptyString => match cur with EmptyString => [] | _ => [String.rev cur] end
  | String c t =>
      if Ascii.eqb c "010"%char
      then String.rev (String c cur) :: readlines_aux EmptyString t
      else readlines_aux (String c cur) t
  end.

Definition readlines (s : string) : list string := readlines_aux EmptyString s.

(** [s.replace(old, empty)]: the occurrences of [old] are dropped, left to
    right and without overlap ([skip] counts the characters of the
    occurrence being dropped). *)
Fixpoint remove_all_aux (old s : string) (skip : nat) : string :=
  match s with
  | EmptyString => EmptyString
  | String c t =>
      match skip with
      | S k => remove_all_aux old t k
      | O =>
          if String.prefix old s
          then remove_all_aux old t (String.length old - 1)
          else String c (remove_all_aux old t 0)
      end
  end.

Definition remove_all (old s : string) : string :=
  match old with
  | EmptyString => s
  | _ => remove_all_aux old s 0
  end.

(** [s.count(c)] for one character *)
Fixpoint count_char (c : ascii) (s : string) : nat :=
  match s with
  | EmptyString => O
  | String c' t => (if Ascii.eqb c' c then 1 else 0) + count_char c t
  end.

(** The line feed and the double quote, as one-character strings. *)
Definition nl : string := String "010"%char EmptyString.
Definition dq : string := String "034"%char EmptyString.

(** [str(n)] for an integer *)
Definition str_of_Z (z : Z) : string := NilZero.string_of_int (Z.to_int z).
Definition str_of_N (n : N) : string := str_of_Z (Z.of_N n).

(** [str(b)] for a boolean *)
Definition str_of_bool (b : bool) : string := if b then "True" else "False".

(** ** [int(s)] on a string *)

Definition digit_val (c : ascii) : option Z :=
  let n := nat_of_ascii c in
  if ((48 <=? n) && (n <=? 57))%nat then Some (Z.of_nat n - 48) else None.

(** Decimal digits, single underscores allowed between two digits. *)
Fixpoint parse_digits (s : string) (acc : Z) (prev_digit : bool) : option Z :=
  match s with
  | EmptyString => if prev_digit then Some acc else None
  | String c t =>
      match digit_val c with
      | Some d => parse_digits t (10 * acc + d) true
      | None =>
          if Ascii.eqb c "_"%char && prev_digit
          then parse_digits t acc false
          else None
      end
  end.

(** [int(s)]: surrounding whitespace is dropped, then an optional sign and
    the digits; [None] stands for [ValueError]. *)
Definition int_of_str (s : string) : option Z :=
  match strip s with
  | String "+" t => parse_digits t 0 false
  | String "-" t => Z.opp <$> parse_digits t 0 false
  | t => parse_digits t 0 false
  end.

(** ** Exceptions *)

Inductive Exn : Type :=
  | InstallationError (msg : string)
  | CalledProcessError (returncode : N) (cmd : list string)
  | OSError (msg : string)
  | ValueError (msg : string)
  | TypeError (msg : string)
  | KeyError (key : string)
  | AttributeError (msg : string)
  | ZeroDivisionError (msg : string)
  | OverflowError (msg : string)
  | IndexError (msg : string)
  | PyException (msg : string).

(** The double quote character. *)
Definition dquote : ascii := "034"%char.

(** [repr(s)] of a string, as it shows inside [str(list)]: single quotes
    unless the string has a single quote and no double quote. *)
Definition hex_digit (n : nat) : ascii :=
  if (n <? 10)%nat then ascii_of_nat (48 + n) else ascii_of_nat (87 + n).

Definition repr_char (q : ascii) (c : ascii) : string :=
  let n := nat_of_ascii c in
  if Ascii.eqb c q then String "\" (String c EmptyString)
  else if Ascii.eqb c "\" then "\\"
  else if Ascii.eqb c "009" then "\t"
  else if Ascii.eqb c "010" then "\n"
  else if Ascii.eqb c "013" then "\r"
  else if ((n <? 32) || (n =? 127))%nat
       then String "\" (String "x" (String (hex_digit (n / 16))
                                      (String (hex_digit (n mod 16)) EmptyString)))
  else String c EmptyString.

Fixpoint repr_body (q : ascii) (s : string) : string :=
  match s with
  | EmptyString => EmptyString
  | String c t => repr_char q c +:+ repr_body q t
  end.

Definition repr_str (s : string) : string :=
  let q := if str_in "'" s && negb (str_in (String dquote EmptyString) s)
           then dquote else "'"%char in
  String q (repr_body q s +:+ String q EmptyString).

(** [str(argv)] for a list of strings *)
Definition str_of_list (l : list string) : string :=
  "[" +:+ join ", " (map repr_str l) +:+ "]".

(** [str(e)] *)
Definition str_of_exn (e : Exn) : string :=
  match e with
  | InstallationError m | OSError m | ValueError m | TypeError m
  | AttributeError m | ZeroDivisionError m | OverflowError m
  | IndexError m | PyException m => m
  | KeyError k => repr_str k
  | CalledProcessError rc cmd =>
      "Command '" +:+ str_of_list cmd +:+
      "' returned non-zero exit status " +:+ str_of_N rc +:+ "."
  end.

Definition is_InstallationError (e : Exn) : bool :=
  match e with InstallationError _ => true | _ => false end.

(** ** Numbers: [a / b] on integers, [x * k] on floats, [int(x)] *)

Definition float := spec_float.

Definition float_of_Z (z : Z) : float :=
  match z with
  | Z0 => S754_zero false
  | Zpos p => S754_finite false p 0
  | Zneg p => S754_finite true p 0
  end.

Inductive Result (A : Type) : Type :=
  | Ok (a : A)
  | Raise (e : Exn).
Arguments Ok {A} a.
Arguments Raise {A} e.

(** True division of two integers: the correctly rounded binary64
    quotient. *)
Definition truediv (a b : Z) : Result float :=
  if b =? 0 then Raise (ZeroDivisionError "division by zero")
  else match SFdiv 53 1024 (float_of_Z a) (float_of_Z b) with
       | S754_infinity _ =>
           Raise (OverflowError "integer division result too large for a float")
       | q => Ok q
       end.

(** [x * k] for a float [x] and a small integer constant [k] *)
Definition float_mul_int (x : float) (k : Z) : float :=
  SFmul 53 1024 x (float_of_Z k).

(** [int(x)] on a float: truncation towards zero. *)
Definition int_of_float (x : float) : Result Z :=
  match x with
  | S754_zero _ => Ok 0
  | S754_finite s m e =>
      let a := match e with
               | Zneg k => Z.shiftr (Zpos m) (Zpos k)
               | _ => Z.shiftl (Zpos m) e
               end in
      Ok (if s then - a else a)
  | S754_infinity _ => Raise (OverflowError "cannot convert float infinity to integer")
  | S754_nan => Raise (ValueError "cannot convert float NaN to integer")
  end.

(** ** The state-and-exception monad *)

Definition St (S A : Type) : Type := S -> Result A * S.

Definition ret {S A} (a : A) : St S A := fun s => (Ok a, s).

Definition bind {S A B} (m : St S A) (k : A -> St S B) : St S B :=
  fun s => match m s with
           | (Ok a, s') => k a s'
           | (Raise e, s') => (Raise e, s')
           end.

Definition raise {S A} (e : Exn) : St S A := fun s => (Raise e, s).

Definition get {S} : St S S := fun s => (Ok s, s).
Definition gets {S A} (f : S -> A) : St S A := fun s => (Ok (f s), s).
Definition modify {S} (f : S -> S) : St S unit := fun s => (Ok tt, f s).

(** A pure computation that may raise. *)
Definition of_result {S A} (r : Result A) : St S A := fun s => (r, s).

(** [try: body  except <classes selected by handles> as e: handler e]:
    an exception outside the selected classes passes through. *)
Definition try_except {S A} (body : St S A) (handles : Exn -> bool)
    (handler : Exn -> St S A) : St S A :=
  fun s => match body s with
           | (Ok a, s') => (Ok a, s')
           | (Raise e, s') => if handles e then handler e s' else (Raise e, s')
           end.

(** [except Exception] and the bare [except:] take every exception here. *)
Definition any_exn (e : Exn) : bool := true.

Definition when {S} (b : bool) (m : St S unit) : St S unit :=
  if b then m else ret tt.

Fixpoint for_each {S A} (l : list A) (body : A -> St S unit) : St S unit :=
  match l with
  | [] => ret tt
  | x :: r => bind (body x) (fun _ => for_each r body)
  end.

(** Running an action of a component on its part of a product state. *)
Definition lift_fst {S U A} (m : St S A) : St (S * U) A :=
  fun su => let '(r, s') := m (fst su) in (r, (s', snd su)).

Definition lift_snd {S U A} (m : St U A) : St (S * U) A :=
  fun su => let '(r, u') := m (snd su) in (r, (fst su, u')).

End Py.

Export Py.

Declare Scope py_scope.
Delimit Scope py_scope with py.
Notation "x <- m ;; k" := (bind m (fun x => k))
  (at level 100, m at next level, k at level 200, right associativity) : py_scope.
Notation "m ;; k" := (bind m (fun _ => k))
  (at level 100, k at level 200, right associativity) : py_scope.
Open Scope py_scope.


(* ===================================================================== *)
(** * The host machine                                                    *)
(* ===================================================================== *)

Module Host.

(** JSON values, which are also the values a configuration dictionary
    holds.  A Python [dict] with string keys is a [gmap string JVal]. *)
#[warnings="-register-all"]
Inductive JVal : Type :=
  | JNull
  | JBool (b : bool)
  | JInt (z : Z)
  | JStr (s : string)
  | JArr (l : list JVal)
  | JObj (d : gmap string JVal).

(** A file holds text (or bytes), or a JSON document.  [Json v] stands for
    any text that [json.load] reads as [v], which is what [json.dump v]
    writes; [Text] in a place where JSON is expected does not parse. *)
Inductive Content : Type :=
  | Text (s : string)
  | Json (v : JVal).

Inductive Node : Type :=
  | Dir
  | File (c : Content).

(** What [os.walk] sees below a directory: sub-directories with their own
    trees, and file names. *)
#[warnings="-register-all"]
Inductive DirTree : Type :=
  | DirT (dirs : list (string * DirTree)) (files : list string).

(** The mutable part of the machine: the files by path, the paths that
    cannot be created or opened for writing, the open file descriptors, and
    the values of the registry key SOFTWARE\Microsoft\VisualStudio\SxS\VS7
    ([None]: the key cannot be opened). *)
Record Machine : Type := mkMachine {
  fs : gmap string Node;
  fs_denied : gset string;
  open_fds : gset Z;
  vs7 : option (list (string * string))
}.

Record Cmd : Type := mkCmd {
  argv : list string;
  cwd : option string;
  shell : bool
}.

(** An external program either cannot be launched, or runs to its exit
    code, having written to its two streams and changed the machine. *)
Inductive ProcOutcome : Type :=
  | LaunchFailed (msg : string)
  | Exited (returncode : N) (stdout stderr : string) (after : Machine).

(** One [response.read(chunk_size)]: the bytes it returns (none at the end
    of the body) or a failure of the connection. *)
Inductive ReadEv : Type :=
  | Chunk (data : string)
  | ReadFailed (msg : string).

Inductive UrlOutcome : Type :=
  | UrlFailed (msg : string)
  | Response (content_length : option string) (reads : list ReadEv).

(** What the program cannot decide: how external programs and servers
    answer (they may answer differently at each tick of the clock), the
    path algebra of the platform, and the process environment. *)
Record Env : Type := mkEnv {
  proc : nat -> Cmd -> Machine -> ProcOutcome;
  urlopen : nat -> string -> UrlOutcome;
  tree : Machine -> string -> option DirTree;
  path_join : string -> string -> string;      (* os.path.join *)
  path_dirname : string -> string;             (* os.path.dirname *)
  expandvars : string -> string;               (* os.path.expandvars *)
  home : string;                               (* os.path.expanduser("~") *)
  localappdata : string                        (* os.environ["LOCALAPPDATA"] *)
}.

Inductive LogLevel : Type := DEBUG | INFO | WARNING | ERROR.

(** What the program does that an observer outside it can see. *)
Inductive Event : Type :=
  | EvLog (level : LogLevel) (msg : string)
  | EvSpawn (c : Cmd)
  | EvUrl (url : string)
  | EvCallback (current total : Z).

Record World : Type := mkWorld {
  machine : Machine;
  clock : nat;
  trace : list Event
}.

Definition W (A : Type) : Type := St World A.

(** Observations on a trace: the callback invocations and the programs
    launched, in order; what was added between two states of the world;
    the world after one more log line. *)
Definition callbacks (tr : list Event) : list (Z * Z) :=
  omap (fun ev => match ev with EvCallback c t => Some (c, t) | _ => None end) tr.

Definition spawned (tr : list Event) : list Cmd :=
  omap (fun ev => match ev with EvSpawn c => Some c | _ => None end) tr.

Definition trace_since (w w' : World) : list Event :=
  drop (length (trace w)) (trace w').

Definition with_trace (w : World) (evs : list Event) : World :=
  mkWorld (machine w) (clock w) (trace w ++ evs).

Definition logged (w : World) (level : LogLevel) (msg : string) : World :=
  with_trace w [EvLog level msg].

Definition emit (ev : Event) : W unit :=
  modify (fun w => mkWorld (machine w) (clock w) (trace w ++ [ev])).

Definition logger_debug (msg : string) : W unit := emit (EvLog DEBUG msg).
Definition logger_info (msg : string) : W unit := emit (EvLog INFO msg).
Definition logger_warning (msg : string) : W unit := emit (EvLog WARNING msg).
Definition logger_error (msg : string) : W unit := emit (EvLog ERROR msg).

Definition set_machine (m : Machine) : W unit :=
  modify (fun w => mkWorld m (clock w) (trace w)).

Definition set_fs (f : gmap string Node) : W unit :=
  modify (fun w =>
    let m := machine w in
    mkWorld (mkMachine f (fs_denied m) (open_fds m) (vs7 m)) (clock w) (trace w)).

Definition tick : W nat :=
  fun w => (Ok (clock w), mkWorld (machine w) (S (clock w)) (trace w)).

(** [os.path.exists(path)] *)
Definition os_path_exists (path : string) : W bool :=
  gets (fun w => bool_decide (is_Some (fs (machine w) !! path))).

(** [os.makedirs(path, exist_ok=True)] *)
Definition os_makedirs (path : string) : W unit :=
  w <- get;;
  match fs (machine w) !! path with
  | Some Dir => ret tt
  | Some (File _) =>
      raise (OSError ("Cannot create a file when that file already exists: " +:+ repr_str path))
  | None =>
      if bool_decide (path ∈ fs_denied (machine w))
      then raise (OSError ("Access is denied: " +:+ repr_str path))
      else set_fs (<[path := Dir]> (fs (machine w)))
  end.

(** [open(path, 'w')] or [open(path, 'wb')]: the file is created or
    emptied. *)
Definition open_w (path : string) : W unit :=
  w <- get;;
  if bool_decide (path ∈ fs_denied (machine w))
  then raise (OSError ("Permission denied: " +:+ repr_str path))
  else match fs (machine w) !! path with
       | Some Dir => raise (OSError ("Permission denied: " +:+ repr_str path))
       | _ => set_fs (<[path := File (Text EmptyString)]> (fs (machine w)))
       end.

(** [f.write(data)] on a file opened for writing *)
Definition write (path : string) (data : string) : W unit :=
  w <- get;;
  match fs (machine w) !! path with
  | Some (File (Text old)) => set_fs (<[path := File (Text (old +:+ data))]> (fs (machine w)))
  | _ => set_fs (<[path := File (Text data)]> (fs (machine w)))
  end.

(** [json.dump(v, f, indent=4)] on a file opened for writing *)
Definition json_dump (path : string) (v : JVal) : W unit :=
  w <- get;;
  set_fs (<[path := File (Json v)]> (fs (machine w))).

(** [with open(path, 'r') as f: json.load(f)] *)
Definition json_load (path : string) : W JVal :=
  w <- get;;
  match fs (machine w) !! path with
  | Some (File (Json v)) => ret v
  | Some (File (Text _)) => raise (ValueError "Expecting value: line 1 column 1 (char 0)")
  | Some Dir => raise (OSError ("Permission denied: " +:+ repr_str path))
  | None => raise (OSError ("No such file or directory: " +:+ repr_str path))
  end.

Section WithEnv.
Context (E : Env).

(** Launching a program and waiting for it: [subprocess.run] without
    [check], and [subprocess.Popen] read to the end and waited for. *)
Definition spawn (c : Cmd) : W (N * string * string) :=
  emit (EvSpawn c);;
  t <- tick;;
  w <- get;;
  match proc E t c (machine w) with
  | LaunchFailed msg => raise (OSError msg)
  | Exited rc out err after => set_machine after;; ret (rc, out, err)
  end.

(** [subprocess.run(argv, check=True, ...)] *)
Definition run_checked (c : Cmd) : W (N * string * string) :=
  r <- spawn c;;
  if (fst (fst r) =? 0)%N then ret r
  else raise (CalledProcessError (fst (fst r)) (argv c)).

(** [os.path.join(a, b, c)] *)
Definition path_join3 (a b c : string) : string :=
  path_join E (path_join E a b) c.

End WithEnv.

End Host.

Export Host.

(* ===================================================================== *)
(** * installer.py: configuration persistence                             *)
(* ===================================================================== *)

Module Installer.

Definition BITNET_REPO : string := "https://github.com/microsoft/BitNet.git".

(** The name Python gives the type of a JSON value in its messages. *)
Definition type_name (v : JVal) : string :=
  match v with
  | JNull => "NoneType"
  | JBool _ => "bool"
  | JInt _ => "int"
  | JStr _ => "str"
  | JArr _ => "list"
  | JObj _ => "dict"
  end.

(** [key in config], for whatever [json.load] returned *)
Definition contains_key (config : JVal) (key : string) : Result bool :=
  match config with
  | JObj d => Ok (bool_decide (is_Some (d !! key)))
  | JArr l =>
      Ok (existsb (fun v => match v with JStr s => String.eqb s key | _ => false end) l)
  | JStr s => Ok (str_in key s)
  | v => Raise (TypeError ("argument of type '" +:+ type_name v +:+ "' is not iterable"))
  end.

(** [config[key] = value] *)
Definition setitem (config : JVal) (key : string) (value : JVal) : Result JVal :=
  match config with
  | JObj d => Ok (JObj (<[key := value]> d))
  | JArr _ => Raise (TypeError "list indices must be integers or slices, not str")
  | v => Raise (TypeError ("'" +:+ type_name v +:+ "' object does not support item assignment"))
  end.

(** [for key, value in DEFAULT_CONFIG.items():
       if key not in config: config[key] = value] *)
Fixpoint backfill (items : list (string * JVal)) (config : JVal) : Result JVal :=
  match items with
  | [] => Ok config
  | (key, value) :: rest =>
      match contains_key config key with
      | Raise e => Raise e
      | Ok true => backfill rest config
      | Ok false =>
          match setitem config key value with
          | Raise e => Raise e
          | Ok config' => backfill rest config'
          end
      end
  end.

Section WithEnv.
Context (E : Env).

Definition APP_DATA : string := path_join E (localappdata E) "BitNet".
Definition CONFIG_FILE : string := path_join E APP_DATA "config.json".

(** The entries of [DEFAULT_CONFIG], in the order the dictionary lists
    them. *)
Definition DEFAULT_CONFIG_items : list (string * JVal) :=
  [ ("install_dir", JStr (path_join E (home E) "BitNet"));
    ("conda_path", JStr EmptyString);
    ("git_path", JStr EmptyString);
    ("vs_path", JStr EmptyString);
    ("enable_gpu", JBool true);
    ("create_shortcut", JBool true);
    ("first_run", JBool true) ].

Definition DEFAULT_CONFIG : gmap string JVal := list_to_map DEFAULT_CONFIG_items.

Definition save_config (config : JVal) : W bool :=
  try_except
    (open_w CONFIG_FILE;;
     json_dump CONFIG_FILE config;;
     ret true)
    any_exn
    (fun e =>
       logger_error ("Failed to save config: " +:+ str_of_exn e);;
       ret false).

Definition load_config : W JVal :=
  present <- os_path_exists CONFIG_FILE;;
  loaded <-
    (if present then
       try_except
         (config <- json_load CONFIG_FILE;;
          config' <- of_result (backfill DEFAULT_CONFIG_items config);;
          ret (Some config'))
         any_exn
         (fun e =>
            logger_error ("Failed to load config: " +:+ str_of_exn e);;
            ret None)
     else ret None);;
  match loaded with
  | Some config => ret config
  | None =>
      save_config (JObj DEFAULT_CONFIG);;
      ret (JObj DEFAULT_CONFIG)
  end.

End WithEnv.

End Installer.

(* ===================================================================== *)
(** * installer_core.py                                                   *)
(* ===================================================================== *)

Module Core.

Import Installer.

(** Truth value of what a locator returned: [None] and the empty string
    are false. *)
Definition found (r : option string) : bool :=
  match r with
  | Some (String _ _) => true
  | _ => false
  end.

Definition is_CalledProcessError (e : Exn) : bool :=
  match e with CalledProcessError _ _ => true | _ => false end.

Definition returncode_of (e : Exn) : N :=
  match e with CalledProcessError rc _ => rc | _ => 0%N end.

(** [str(vs_paths)]: a list of pairs of strings *)
Definition str_of_pairs (l : list (string * string)) : string :=
  "[" +:+ join ", " (map (fun p => "(" +:+ repr_str (fst p) +:+ ", " +:+
                                   repr_str (snd p) +:+ ")") l) +:+ "]".

(** [int(response.info().get('Content-Length', 0))] *)
Definition content_length (header : option string) : Result Z :=
  match header with
  | None => Ok 0
  | Some s =>
      match int_of_str s with
      | Some n => Ok n
      | None => Raise (ValueError ("invalid literal for int() with base 10: " +:+ repr_str s))
      end
  end.

Definition git_common_paths : list string :=
  [ "%ProgramFiles%\Git\cmd\git.exe";
    "%ProgramFiles(x86)%\Git\cmd\git.exe";
    "%LocalAppData%\Programs\Git\cmd\git.exe" ].

Definition conda_common_paths : list string :=
  [ "%USERPROFILE%\miniconda3\Scripts\conda.exe";
    "%USERPROFILE%\Anaconda3\Scripts\conda.exe";
    "%ProgramData%\miniconda3\Scripts\conda.exe";
    "%ProgramData%\Anaconda3\Scripts\conda.exe";
    "%USERPROFILE%\miniconda3_bitnet\Scripts\conda.exe" ].

Definition vs_common_paths : list string :=
  [ "C:\Program Files\Microsoft Visual Studio\2022";
    "C:\Program Files (x86)\Microsoft Visual Studio\2022" ].

Section WithEnv.
Context (E : Env).

(** The first of the candidate paths that exists, once its environment
    variables are expanded. *)
Fixpoint first_existing (paths : list string) : W (option string) :=
  match paths with
  | [] => ret None
  | path :: rest =>
      let expanded_path := expandvars E path in
      present <- os_path_exists expanded_path;;
      if present then ret (Some expanded_path) else first_existing rest
  end.

Definition find_program (program_name : string) (common_paths : list string)
  : W (option string) :=
  which_cmd <- spawn E (mkCmd ["where"; program_name] None true);;
  let '(returncode, stdout, _) := which_cmd in
  if (returncode =? 0)%N
  then ret (Some (hd EmptyString (split_char "010" (strip stdout))))
  else first_existing common_paths.

Definition check_git : W (option string) :=
  logger_info "Checking for Git installation";;
  git_path <- find_program "git.exe" git_common_paths;;
  if found git_path
  then logger_info ("Git found at: " +:+ default EmptyString git_path);;
       ret git_path
  else logger_warning "Git not found";;
       ret None.

Definition check_conda : W (option string) :=
  logger_info "Checking for Conda installation";;
  conda_path <- find_program "conda.exe" conda_common_paths;;
  if found conda_path
  then logger_info ("Conda found at: " +:+ default EmptyString conda_path);;
       ret conda_path
  else logger_warning "Conda not found";;
       ret None.

(** The two fixed locations of Visual Studio 2022, in order. *)
Fixpoint first_vs_path (paths : list string) : W (option string) :=
  match paths with
  | [] => ret None
  | path :: rest =>
      present <- os_path_exists path;;
      if present
      then logger_info ("Visual Studio found at: " +:+ path);;
           ret (Some path)
      else first_vs_path rest
  end.

Definition check_visual_studio : W (option string) :=
  logger_info "Checking for Visual Studio installation";;
  w <- get;;
  let vs_paths := default [] (vs7 (machine w)) in
  at_path <- first_vs_path vs_common_paths;;
  match at_path with
  | Some path => ret (Some path)
  | None =>
      match vs_paths with
      | entry :: _ =>
          logger_info ("Visual Studio found in registry: " +:+ str_of_pairs vs_paths);;
          ret (Some (snd entry))
      | [] =>
          logger_warning "Visual Studio not found";;
          ret None
      end
  end.

(** [urllib.request.urlopen(url)] *)
Definition url_open (url : string) : W (option string * list ReadEv) :=
  emit (EvUrl url);;
  t <- tick;;
  match urlopen E t url with
  | UrlFailed msg => raise (OSError msg)
  | Response header reads => ret (header, reads)
  end.

Section WithCallback.
Context {U : Type}.

(** A progress callback changes the state of its owner and may raise. *)
Definition Callback : Type := Z -> Z -> St U unit.

Definition G (A : Type) : Type := St (World * U) A.

Definition liftW {A} (m : W A) : G A := lift_fst m.

(** [progress_callback(current, total)] *)
Definition call (cb : Callback) (current total : Z) : G unit :=
  liftW (emit (EvCallback current total));;
  lift_snd (cb current total).

(** [if progress_callback: progress_callback(current, total)] *)
Definition call_if (cb : option Callback) (current total : Z) : G unit :=
  match cb with
  | Some f => call f current total
  | None => ret tt
  end.

(** The [while True] loop of [download_file]: one round per read. *)
Fixpoint download_loop (destination : string) (progress_callback : option Callback)
    (file_size : Z) (reads : list ReadEv) (downloaded : Z) : G unit :=
  match reads with
  | [] => ret tt
  | ReadFailed msg :: _ => raise (OSError msg)
  | Chunk EmptyString :: _ => ret tt
  | Chunk chunk :: rest =>
      liftW (write destination chunk);;
      let downloaded := downloaded + Z.of_nat (String.length chunk) in
      call_if progress_callback downloaded file_size;;
      download_loop destination progress_callback file_size rest downloaded
  end.

Definition download_file (url destination : string)
    (progress_callback : option Callback) : G bool :=
  liftW (logger_info ("Downloading " +:+ url +:+ " to " +:+ destination));;
  liftW (os_makedirs (path_dirname E destination));;
  try_except
    (response <- liftW (url_open url);;
     file_size <- of_result (content_length (fst response));;
     call_if progress_callback 0 file_size;;
     liftW (open_w destination);;
     download_loop destination progress_callback file_size (snd response) 0;;
     liftW (logger_info ("Successfully downloaded " +:+ url));;
     ret true)
    any_exn
    (fun e =>
       liftW (logger_error ("Download failed: " +:+ str_of_exn e));;
       ret false).

Definition install_git (temp_dir : string) (progress_callback : option Callback)
  : G bool :=
  liftW (logger_info "Installing Git for Windows");;
  let git_url := "https://github.com/git-for-windows/git/releases/download/v2.40.0.windows.1/Git-2.40.0-64-bit.exe" in
  let installer_path := path_join E temp_dir "git_installer.exe" in
  success <- download_file git_url installer_path progress_callback;;
  if negb success then raise (InstallationError "Failed to download Git installer")
  else
    liftW (logger_info "Running Git installer");;
    try_except
      (liftW (run_checked E (mkCmd [installer_path; "/VERYSILENT"; "/NORESTART"] None false));;
       git_path <- liftW check_git;;
       if found git_path
       then liftW (logger_info "Git installed successfully");;
            ret true
       else raise (InstallationError "Git installation could not be verified"))
      is_CalledProcessError
      (fun e =>
         liftW (logger_error ("Git installation failed: " +:+ str_of_exn e));;
         raise (InstallationError ("Git installation failed with exit code " +:+
                                   str_of_N (returncode_of e)))).

Definition install_miniconda (temp_dir : string) (progress_callback : option Callback)
  : G string :=
  liftW (logger_info "Installing Miniconda");;
  let conda_url := "https://repo.anaconda.com/miniconda/Miniconda3-latest-Windows-x86_64.exe" in
  let installer_path := path_join E temp_dir "miniconda_installer.exe" in
  let install_path := path_join E (home E) "miniconda3_bitnet" in
  success <- download_file conda_url installer_path progress_callback;;
  if negb success then raise (InstallationError "Failed to download Miniconda installer")
  else
    liftW (logger_info ("Running Miniconda installer to " +:+ install_path));;
    try_except
      (liftW (run_checked E (mkCmd [installer_path; "/S"; "/RegisterPython=0";
                                    "/AddToPath=0"; "/D=" +:+ install_path] None false));;
       let conda_exe := path_join3 E install_path "Scripts" "conda.exe" in
       present <- liftW (os_path_exists conda_exe);;
       if present
       then liftW (logger_info "Miniconda installed successfully");;
            liftW (logger_info "Initializing conda");;
            liftW (run_checked E (mkCmd [conda_exe; "init"; "cmd.exe"] None false));;
            ret conda_exe
       else raise (InstallationError "Miniconda installation could not be verified"))
      is_CalledProcessError
      (fun e =>
         liftW (logger_error ("Miniconda installation failed: " +:+ str_of_exn e));;
         raise (InstallationError ("Miniconda installation failed with exit code " +:+
                                   str_of_N (returncode_of e)))).

Definition install_vs_build_tools (temp_dir : string)
    (progress_callback : option Callback) : G bool :=
  liftW (logger_info "Installing Visual Studio Build Tools");;
  let vs_url := "https://aka.ms/vs/17/release/vs_BuildTools.exe" in
  let installer_path := path_join E temp_dir "vs_buildtools.exe" in
  success <- download_file vs_url installer_path progress_callback;;
  if negb success
  then raise (InstallationError "Failed to download Visual Studio Build Tools installer")
  else
    liftW (logger_info "Running Visual Studio Build Tools installer");;
    try_except
      (liftW (run_checked E (mkCmd [installer_path; "--quiet"; "--norestart"; "--wait";
                                    "--add"; "Microsoft.VisualStudio.Workload.VCTools";
                                    "--includeRecommended"] None false));;
       vs_path <- liftW check_visual_studio;;
       if found vs_path
       then liftW (logger_info "Visual Studio Build Tools installed successfully");;
            ret true
       else raise (InstallationError
                     "Visual Studio Build Tools installation could not be verified"))
      is_CalledProcessError
      (fun e =>
         liftW (logger_error ("Visual Studio Build Tools installation failed: " +:+
                              str_of_exn e));;
         raise (InstallationError
                  ("Visual Studio Build Tools installation failed with exit code " +:+
                   str_of_N (returncode_of e)))).

(** [int(line.split("%")[0].split()[-1])] *)
Definition parse_percent (line : string) : Result Z :=
  match last (split_ws (hd EmptyString (split_char "%" line))) with
  | None => Raise (IndexError "list index out of range")
  | Some tok =>
      match int_of_str tok with
      | Some n => Ok n
      | None => Raise (ValueError ("invalid literal for int() with base 10: " +:+ repr_str tok))
      end
  end.

(** The body of the loop over the lines of the clone's error stream. *)
Definition clone_line (cb : Callback) (line : string) : G unit :=
  liftW (logger_debug ("Git output: " +:+ strip line));;
  when (str_in "Receiving objects" line && str_in "%" line)
    (try_except
       (percent <- of_result (parse_percent line);;
        call cb percent 100)
       any_exn
       (fun _ => ret tt)).

(** The failure raised for a clone that exits with [returncode], from the
    text of its error stream. *)
Definition clone_failure (returncode : N) (error_msg : string) : Exn :=
  if str_in "could not create work tree" (lower error_msg)
  then InstallationError
         "Git clone failed: Could not create work tree. Check folder permissions."
  else if str_in "authentication failed" (lower error_msg)
  then InstallationError
         "Git clone failed: Authentication failed. Check network connection."
  else InstallationError
         ("Git clone failed with exit code " +:+ str_of_N returncode +:+
          ". Details: " +:+ error_msg).

Definition clone_bitnet (install_dir : string) (progress_callback : option Callback)
  : G bool :=
  liftW (logger_info ("Cloning BitNet repository to " +:+ install_dir));;
  try_except
    (liftW (os_makedirs install_dir);;
     has_git <- liftW (os_path_exists (path_join E install_dir ".git"));;
     if has_git then
       liftW (logger_info "BitNet repository already exists, pulling latest changes");;
       try_except
         (result <- liftW (spawn E (mkCmd ["git"; "pull"] (Some install_dir) false));;
          let '(returncode, _, stderr) := result in
          if negb (returncode =? 0)%N
          then liftW (logger_error ("Git pull failed: " +:+ stderr));;
               raise (InstallationError ("Git pull failed: " +:+ stderr))
          else ret true)
         any_exn
         (fun e =>
            liftW (logger_error ("Error pulling repository: " +:+ str_of_exn e));;
            raise (InstallationError ("Error pulling repository: " +:+ str_of_exn e)))
     else
       liftW (logger_info ("Cloning from " +:+ BITNET_REPO +:+ " to " +:+ install_dir));;
       match progress_callback with
       | Some cb =>
           call cb 0 100;;
           result <- liftW (spawn E (mkCmd ["git"; "clone"; "--recursive"; "--progress";
                                            BITNET_REPO; install_dir] None false));;
           let '(returncode, _, stderr) := result in
           let all_output := readlines stderr in
           for_each all_output (clone_line cb);;
           (if negb (returncode =? 0)%N
            then let error_msg := join nl all_output in
                 liftW (logger_error ("Git clone failed with exit code " +:+
                                      str_of_N returncode +:+ ". Details: " +:+ error_msg));;
                 raise (clone_failure returncode error_msg)
            else ret tt);;
           call cb 100 100
       | None =>
           try_except
             (result <- liftW (spawn E (mkCmd ["git"; "clone"; "--recursive";
                                               BITNET_REPO; install_dir] None false));;
              let '(returncode, _, stderr) := result in
              if negb (returncode =? 0)%N
              then liftW (logger_error ("Git clone failed: " +:+ stderr));;
                   raise (InstallationError ("Git clone failed: " +:+ stderr))
              else ret tt)
             any_exn
             (fun e =>
                liftW (logger_error ("Error during Git clone: " +:+ str_of_exn e));;
                raise (InstallationError ("Error during Git clone: " +:+ str_of_exn e)))
       end;;
       liftW (logger_info "BitNet repository cloned successfully");;
       ret true)
    any_exn
    (fun e =>
       liftW (logger_error ("Failed to clone BitNet repository: " +:+ str_of_exn e));;
       raise (InstallationError ("Failed to clone BitNet repository: " +:+ str_of_exn e))).

End WithCallback.

(** The walk over [install_dir] in [setup_conda_env]: at each directory
    [root], the sub-directories holding an [__init__.py], then [root]
    itself if it holds a Python file; no descent from a directory whose
    path, once [install_dir] is dropped from it, has two separators or
    more. *)
Fixpoint walk_packages (install_dir root : string) (t : DirTree) : W (list string) :=
  match t with
  | DirT dirs files =>
      packages <-
        (fix scan (ds : list (string * DirTree)) : W (list string) :=
           match ds with
           | [] => ret []
           | (d, _) :: r =>
               present <- os_path_exists (path_join3 E root d "__init__.py");;
               rest <- scan r;;
               ret (if present then path_join E root d :: rest else rest)
           end) dirs;;
      let python_files := List.filter (fun f => endswith f ".py") files in
      let here := packages ++ match python_files with [] => [] | _ => [root] end in
      if (2 <=? count_char "\" (remove_all install_dir root))%nat
      then ret here
      else
        below <-
          (fix descend (ds : list (string * DirTree)) : W (list string) :=
             match ds with
             | [] => ret []
             | (d, sub) :: r =>
                 a <- walk_packages install_dir (path_join E root d) sub;;
                 b <- descend r;;
                 ret (a ++ b)
             end) dirs;;
        ret (here ++ below)
  end.

Definition env_name : string := "bitnet-cpp".

Definition default_requirements : list string :=
  [ "numpy>=1.20.0"; "torch>=1.10.0"; "tqdm>=4.62.0"; "scipy>=1.7.0";
    "matplotlib>=3.4.0" ].

Definition verify_script : string :=
  "try:" +:+ nl +:+ "    import bitnet" +:+ nl +:+
  "    print('Import successful')" +:+ nl +:+
  "except ImportError as e:" +:+ nl +:+
  "    print(f'Import failed: {e}')".

(** [progress_callback] is accepted and never called. *)
Definition setup_conda_env {CB : Type} (conda_path install_dir : string)
    (enable_gpu : bool) (progress_callback : option CB) : W bool :=
  logger_info "Setting up conda environment";;
  try_except
    (result <- run_checked E (mkCmd [conda_path; "env"; "list"] None false);;
     let '(_, stdout, _) := result in
     (if str_in env_name stdout
      then logger_info ("Conda environment '" +:+ env_name +:+ "' already exists")
      else logger_info ("Creating conda environment '" +:+ env_name +:+ "'");;
           run_checked E (mkCmd [conda_path; "create"; "-n"; env_name; "python=3.9"; "-y"]
                                None false);;
           ret tt);;
     let requirements_path := path_join E install_dir "requirements.txt" in
     has_requirements <- os_path_exists requirements_path;;
     when (negb has_requirements)
       (logger_info "Creating requirements.txt";;
        open_w requirements_path;;
        for_each default_requirements (fun l => write requirements_path (l +:+ nl)));;
     logger_info "Installing Python requirements";;
     run_checked E (mkCmd [conda_path; "run"; "-n"; env_name; "pip"; "install"; "-r";
                           requirements_path] (Some install_dir) false);;
     logger_info "Installing BitNet package";;
     logger_info "Using .pth file approach for BitNet package installation";;
     w <- get;;
     potential_dirs <-
       match tree E (machine w) install_dir with
       | Some t => walk_packages install_dir install_dir t
       | None => ret []
       end;;
     match potential_dirs with
     | _ :: _ =>
         logger_info ("Found potential package directories: " +:+ str_of_list potential_dirs);;
         site_packages_result <-
           run_checked E (mkCmd [conda_path; "run"; "-n"; env_name; "python"; "-c";
                                 "import site; print(site.getsitepackages()[0])"]
                                None false);;
         let site_packages_dir := strip (snd (fst site_packages_result)) in
         let pth_file_path := path_join E site_packages_dir "bitnet.pth" in
         open_w pth_file_path;;
         for_each potential_dirs (fun dir_path => write pth_file_path (dir_path +:+ nl));;
         logger_info ("Created path file at " +:+ pth_file_path +:+ " with paths: " +:+
                      join ", " potential_dirs);;
         verify_result <-
           spawn E (mkCmd [conda_path; "run"; "-n"; env_name; "python"; "-c"; verify_script]
                          None false);;
         let '(_, verify_stdout, verify_stderr) := verify_result in
         if str_in "Import successful" verify_stdout
         then logger_info "BitNet package successfully installed using path file"
         else logger_warning ("BitNet package import verification failed: " +:+
                              verify_stdout +:+ " " +:+ verify_stderr)
     | [] => logger_warning "Could not find any potential Python package directories"
     end;;
     logger_info "Conda environment setup completed successfully";;
     ret true)
    any_exn
    (fun e =>
       logger_error ("Conda environment setup failed: " +:+ str_of_exn e);;
       match e with
       | CalledProcessError rc _ =>
           raise (InstallationError ("Conda environment setup failed with exit code " +:+
                                     str_of_N rc))
       | _ =>
           raise (InstallationError ("Conda environment setup failed: " +:+ str_of_exn e))
       end).

(** The lines of the launch script, in order. *)
Definition startup_script_lines (install_dir conda_path : string) : list string :=
  [ "@echo off";
    "echo Starting BitNet...";
    "echo.";
    "set " +:+ dq +:+ "PATH=%PATH%;" +:+ path_dirname E conda_path +:+ ";" +:+
      path_dirname E (path_dirname E conda_path) +:+ dq;
    "cd /d " +:+ dq +:+ install_dir +:+ dq;
    "echo Running BitNet. If this fails, please check the README.md for proper launch instructions.";
    "echo.";
    "if exist build.bat (";
    "  echo Building BitNet with Visual Studio...";
    "  call build.bat";
    ") else if exist CMakeLists.txt (";
    "  echo Running CMake build process...";
    "  " +:+ dq +:+ conda_path +:+ dq +:+ " run -n bitnet-cpp cmd /c " +:+ dq +:+
      "mkdir build 2>nul & cd build & cmake .. & cmake --build . --config Release" +:+ dq;
    ") else if exist setup.py (";
    "  echo Installing BitNet from setup.py...";
    "  " +:+ dq +:+ conda_path +:+ dq +:+ " run -n bitnet-cpp pip install -e .";
    "  echo.";
    "  echo BitNet installed. Please refer to the README.md for usage instructions.";
    ") else (";
    "  echo.";
    "  echo NOTE: Unable to determine how to build or run BitNet.";
    "  echo Please refer to the README.md in the BitNet directory for instructions.";
    "  echo Project directory: " +:+ install_dir;
    ")";
    "pause" ].

Definition create_startup_script (install_dir conda_path : string) : W string :=
  logger_info "Creating BitNet startup script";;
  let startup_path := path_join E (path_dirname E install_dir) "start_bitnet.bat" in
  try_except
    (open_w startup_path;;
     for_each (startup_script_lines install_dir conda_path)
       (fun l => write startup_path (l +:+ nl));;
     logger_info ("Startup script created at " +:+ startup_path);;
     ret startup_path)
    any_exn
    (fun e =>
       logger_error ("Failed to create startup script: " +:+ str_of_exn e);;
       raise (InstallationError ("Failed to create startup script: " +:+ str_of_exn e))).

End WithEnv.
End Core.

(* ===================================================================== *)
(** * The window: what the tabs of the application share                  *)
(* ===================================================================== *)

Module Gui.

Inductive DialogKind : Type := ShowInfo | ShowError.

(** What the user can see happen, in order. *)
Inductive UiEvent : Type :=
  | UiProgress (value : Z)                    (* self.progress.config(value=...) *)
  | UiStatusLabel (text : string)             (* self.status_label.config(text=...) *)
  | UiButton (name : string) (enabled : bool) (* <button>.config(state=...) *)
  | UiUpdate                                  (* self.update() *)
  | UiSleep                                   (* time.sleep(0.05) *)
  | UiDialog (kind : DialogKind) (title message : string)
  | UiThread (target : string)                (* threading.Thread(...).start() *)
  | UiOutput (text : string)                  (* self.update_output(text) *)
  | UiServerStatus (text : string).           (* self.bitnet_status.set(text) *)

(** A launched server: the lines of its output not read yet, and the exit
    code [wait()] returns. *)
Record Popen : Type := mkPopen {
  p_stdout : list string;
  p_returncode : N
}.

(** [config_data] is the one dictionary [app.config_data] that every tab
    holds a reference to. *)
Record Window : Type := mkWindow {
  config_data : gmap string JVal;
  install_dir : string;            (* InstallerTab.install_dir, a StringVar *)
  gpu_enabled : bool;              (* InstallerTab.gpu_enabled, a BooleanVar *)
  bitnet_status : string;          (* ControlPanelTab.bitnet_status *)
  current_model : string;          (* ControlPanelTab.current_model *)
  use_gpu : bool;                  (* ControlPanelTab.model_config["use_gpu"] *)
  bitnet_process : option Popen;   (* ControlPanelTab.bitnet_process *)
  ui : list UiEvent
}.

Definition UI (A : Type) : Type := St Window A.

Definition show (ev : UiEvent) : UI unit :=
  modify (fun g => mkWindow (config_data g) (install_dir g) (gpu_enabled g)
                     (bitnet_status g) (current_model g) (use_gpu g)
                     (bitnet_process g) (ui g ++ [ev])).

Definition set_config (key : string) (value : JVal) : UI unit :=
  modify (fun g => mkWindow (<[key := value]> (config_data g)) (install_dir g)
                     (gpu_enabled g) (bitnet_status g) (current_model g) (use_gpu g)
                     (bitnet_process g) (ui g)).

Definition set_bitnet_status (text : string) : UI unit :=
  modify (fun g => mkWindow (config_data g) (install_dir g) (gpu_enabled g)
                     text (current_model g) (use_gpu g)
                     (bitnet_process g) (ui g ++ [UiServerStatus text])).

Definition set_bitnet_process (p : option Popen) : UI unit :=
  modify (fun g => mkWindow (config_data g) (install_dir g) (gpu_enabled g)
                     (bitnet_status g) (current_model g) (use_gpu g) p (ui g)).

Definition progress_config (value : Z) : UI unit := show (UiProgress value).
Definition status_label_config (text : string) : UI unit := show (UiStatusLabel text).
Definition button_config (name : string) (enabled : bool) : UI unit :=
  show (UiButton name enabled).
Definition update_output (text : string) : UI unit := show (UiOutput text).
Definition messagebox_showinfo (title message : string) : UI unit :=
  show (UiDialog ShowInfo title message).
Definition messagebox_showerror (title message : string) : UI unit :=
  show (UiDialog ShowError title message).

(** The values the progress bar was set to, in order. *)
Definition progress_values (evs : list UiEvent) : list Z :=
  omap (fun ev => match ev with UiProgress v => Some v | _ => None end) evs.

(** The window after more events were shown. *)
Definition with_ui (g : Window) (evs : list UiEvent) : Window :=
  mkWindow (config_data g) (install_dir g) (gpu_enabled g) (bitnet_status g)
           (current_model g) (use_gpu g) (bitnet_process g) (ui g ++ evs).

(** What was shown between two states of the window. *)
Definition ui_since (g g' : Window) : list UiEvent :=
  drop (length (ui g)) (ui g').

(** The installation reported its success to the user. *)
Definition completed (evs : list UiEvent) : bool :=
  existsb (fun ev => match ev with
                     | UiDialog ShowInfo title _ => String.eqb title "Installation Complete"
                     | _ => false
                     end) evs.

(** Truth value of a configuration value. *)
Definition truthy (v : JVal) : bool :=
  match v with
  | JNull => false
  | JBool b => b
  | JInt z => negb (z =? 0)
  | JStr s => negb (String.eqb s EmptyString)
  | JArr l => match l with [] => false | _ => true end
  | JObj d => negb (Nat.eqb (size d) 0)
  end.

(** [os.path.exists(v)]: a string is a path, an integer a file descriptor,
    anything else is refused. *)
Definition os_path_exists_val (v : JVal) : W bool :=
  match v with
  | JStr s => os_path_exists s
  | JInt z => gets (fun w => bool_decide (z ∈ open_fds (machine w)))
  | JBool b => gets (fun w => bool_decide ((if b then 1 else 0) ∈ open_fds (machine w)))
  | v => raise (TypeError ("stat: path should be string, bytes, os.PathLike or integer, not "
                           +:+ Installer.type_name v))
  end.

(** A configuration value used where a path is needed. *)
Definition as_path (v : JVal) : Result string :=
  match v with
  | JStr s => Ok s
  | v => Raise (TypeError ("expected str, bytes or os.PathLike object, not "
                           +:+ Installer.type_name v))
  end.

Definition App (A : Type) : Type := St (World * Window) A.

Definition inW {A} (m : W A) : App A := lift_fst m.
Definition inUI {A} (m : UI A) : App A := lift_snd m.

End Gui.

Export Gui.

(* ===================================================================== *)
(** * installer_gui_tabs.py: the orchestration controller                 *)
(* ===================================================================== *)

Module InstallerTab.

Import Installer Core.

(** [clone_progress(current, total)], the callback handed to
    [clone_bitnet] *)
Definition clone_progress (current total : Z) : UI unit :=
  q <- of_result (truediv current total);;
  n <- of_result (int_of_float (float_mul_int q 30));;
  let progress := 10 + n in
  progress_config progress;;
  status_label_config ("Cloning BitNet repository... " +:+ str_of_Z current +:+ "/" +:+
                       str_of_Z total +:+ " objects").

(** The value [clone_progress(percent, 100)] sets the progress bar to;
    [None] when the call raises instead. *)
Definition clone_slice (percent : Z) : option Z :=
  match truediv percent 100 with
  | Ok q =>
      match int_of_float (float_mul_int q 30) with
      | Ok n => Some (10 + n)
      | Raise _ => None
      end
  | Raise _ => None
  end.

(** [range(41, 80)] *)
Definition range_41_80 : list Z := map (fun i => 41 + Z.of_nat i) (seq 0 39).

Section WithEnv.
Context (E : Env).

(** [core.setup_conda_env(conda_path, install_dir, gpu_enabled)] on the
    value found in the configuration: a value that is not a string is
    refused by the first subprocess call, inside the function's [try]. *)
Definition call_setup_conda_env (conda_path : JVal) (install_dir : string)
    (gpu_enabled : bool) : W bool :=
  match as_path conda_path with
  | Ok path => setup_conda_env E path install_dir gpu_enabled (@None unit)
  | Raise e =>
      logger_info "Setting up conda environment";;
      logger_error ("Conda environment setup failed: " +:+ str_of_exn e);;
      raise (InstallationError ("Conda environment setup failed: " +:+ str_of_exn e))
  end.

(** The guarded block of [_install_bitnet_thread] is three steps in a
    row, marked by the comments of the source.  First: "Clone BitNet
    repository". *)
Definition clone_step (install_dir : string) : App unit :=
  inUI (status_label_config "Cloning BitNet repository...");;
  inUI (progress_config 10);;
  clone_bitnet E install_dir (Some clone_progress);;
  ret tt.

(** Second: "Set up conda environment"; the path read from the
    configuration is used again by the third step. *)
Definition environment_step (install_dir : string) : App JVal :=
  inUI (status_label_config "Setting up conda environment...");;
  inUI (progress_config 40);;
  g <- inUI get;;
  conda_path <- match config_data g !! "conda_path" with
                | Some v => ret v
                | None => raise (KeyError "conda_path")
                end;;
  let gpu_enabled := Gui.gpu_enabled g in
  inUI (for_each range_41_80
          (fun i => progress_config i;; show UiUpdate;; show UiSleep));;
  inW (call_setup_conda_env conda_path install_dir gpu_enabled);;
  ret conda_path.

(** Third: "Create startup script and shortcut", then "Installation
    complete". *)
Definition script_step (install_dir : string) (conda_path : JVal) : App unit :=
  inUI (status_label_config "Creating startup script...");;
  inUI (progress_config 80);;
  path <- of_result (as_path conda_path);;
  startup_path <- inW (create_startup_script E install_dir path);;
  inUI (progress_config 100);;
  inUI (status_label_config "Installation completed successfully!");;
  inUI (button_config "refresh_btn" true);;
  inUI (messagebox_showinfo "Installation Complete"
          ("BitNet has been successfully installed to " +:+ install_dir +:+ nl +:+ nl +:+
           "You can start BitNet using the created shortcut or by running:" +:+ nl +:+
           startup_path)).

Definition install_bitnet_steps : App unit :=
  g <- inUI get;;
  let install_dir := Gui.install_dir g in
  inW (os_makedirs install_dir);;
  clone_step install_dir;;
  conda_path <- environment_step install_dir;;
  script_step install_dir conda_path.

(** What the [except] clause of [_install_bitnet_thread] does. *)
Definition report_failure (e : Exn) : App unit :=
  inW (logger_error ("Error installing BitNet: " +:+ str_of_exn e));;
  inUI (status_label_config ("Error installing BitNet: " +:+ str_of_exn e));;
  inUI (button_config "install_btn" true);;
  inUI (button_config "refresh_btn" true);;
  inUI (messagebox_showerror "Installation Error"
          ("An error occurred during installation:" +:+ nl +:+ nl +:+ str_of_exn e +:+
           nl +:+ nl +:+ "Please check the log for details.")).

Definition _install_bitnet_thread : App unit :=
  try_except install_bitnet_steps any_exn report_failure.

Definition install_bitnet : App unit :=
  g <- inUI get;;
  inUI (set_config "install_dir" (JStr (Gui.install_dir g)));;
  inUI (set_config "use_gpu" (JBool (Gui.gpu_enabled g)));;
  g <- inUI get;;
  inW (save_config E (JObj (config_data g)));;
  inUI (button_config "install_btn" false);;
  inUI (button_config "refresh_btn" false);;
  inUI (status_label_config "Installing BitNet...");;
  inUI (progress_config 0);;
  inUI (show (UiThread "_install_bitnet_thread")).

(** One installation as the user starts it: the button handler, then the
    thread it started, run to its end. *)
Definition install_bitnet_run : App unit :=
  install_bitnet;;
  _install_bitnet_thread.

End WithEnv.
End InstallerTab.

(* ===================================================================== *)
(** * control_panel_tab.py: the server supervisor                         *)
(* ===================================================================== *)

Module ControlPanelTab.

Import Installer Core.

(** The text of setup_wrapper.py, line by line. *)
Definition setup_wrapper_lines : list string :=
  [ EmptyString;
    "import sys";
    "import os";
    "import subprocess";
    "import re";
    EmptyString;
    "# Get the original setup_env.py path";
    "original_script = os.path.join(os.path.dirname(__file__), " +:+ dq +:+ "setup_env.py" +:+ dq +:+ ")";
    EmptyString;
    "# Import the main function from setup_env.py";
    "sys.path.append(os.path.dirname(__file__))";
    "try:";
    "    from setup_env import main as original_main";
    "    ";
    "    # Monkey patch the compile function to use MSVC instead of ClangCL";
    "    import inspect";
    "    import types";
    "    ";
    "    # Get the setup_env module";
    "    import setup_env";
    "    ";
    "    # Find the compile function";
    "    original_compile = setup_env.compile";
    "    ";
    "    # Create a wrapper function that modifies the CMake arguments";
    "    def compile_wrapper(*args, **kwargs):";
    "        print(" +:+ dq +:+ "Using Windows-compatible CMake configuration" +:+ dq +:+ ")";
    "        ";
    "        # Get the source code of the original compile function";
    "        source = inspect.getsource(original_compile)";
    "        ";
    "        # Replace ClangCL with the default toolchain (MSVC on Windows)";
    "        modified_source = source.replace(" +:+ dq +:+ "'-T', 'ClangCL'" +:+ dq +:+ ", " +:+ dq +:+ dq +:+ ")";
    "        ";
    "        # Add DCMAKE_CXX_COMPILER to use MSVC";
    "        if " +:+ dq +:+ "-DBITNET_X86_TL2=ON" +:+ dq +:+ " in modified_source:";
    "            modified_source = modified_source.replace(" +:+ dq +:+ "-DBITNET_X86_TL2=ON" +:+ dq +:+ ", " +:+ dq +:+ "-DBITNET_X86_TL2=ON -DCMAKE_CXX_COMPILER=cl.exe" +:+ dq +:+ ")";
    "        ";
    "        # Create a new function with modified source";
    "        compile_code = compile(modified_source, " +:+ dq +:+ "<string>" +:+ dq +:+ ", " +:+ dq +:+ "exec" +:+ dq +:+ ")";
    "        modified_locals = {}";
    "        exec(compile_code, setup_env.__dict__, modified_locals)";
    "        ";
    "        # Get the modified compile function and call it";
    "        modified_compile = list(modified_locals.values())[0]";
    "        return modified_compile(*args, **kwargs)";
    "    ";
    "    # Replace the original compile function with our wrapper";
    "    setup_env.compile = compile_wrapper";
    "    ";
    "    # Now call the original main function with the passed arguments";
    "    original_main()";
    "    ";
    "except ImportError as e:";
    "    print(f" +:+ dq +:+ "Error importing setup_env.py: {e}" +:+ dq +:+ ")";
    "    sys.exit(1)";
    EmptyString ].

Definition setup_wrapper_source : string := join nl setup_wrapper_lines.

Definition model_mapping : list (string * string) :=
  [ ("BitNet-7B-base", "tiiuae/Falcon3-7B-1.58bit");
    ("Falcon-7B-1.58bit", "tiiuae/Falcon3-7B-1.58bit");
    ("Falcon-7B-3bit", "tiiuae/Falcon3-7B-3bit");
    ("Falcon-40B-1.58bit", "tiiuae/Falcon3-40B-1.58bit") ].

(** [model_mapping.get(name, "tiiuae/Falcon3-7B-1.58bit")] *)
Definition model_mapping_get (name : string) : string :=
  match List.find (fun kv => String.eqb (fst kv) name) model_mapping with
  | Some kv => snd kv
  | None => "tiiuae/Falcon3-7B-1.58bit"
  end.

(** Truth value of what [dict.get] returned. *)
Definition truthy_opt (v : option JVal) : bool :=
  match v with
  | Some v => truthy v
  | None => false
  end.

(** An element of a command line that [' '.join(cmd)] accepts. *)
Definition as_item (v : JVal) : Result string :=
  match v with
  | JStr s => Ok s
  | v => Raise (TypeError ("sequence item 0: expected str instance, " +:+
                           type_name v +:+ " found"))
  end.

(** The loop over the lines a server prints. *)
Definition read_server_output (lines : list string) : UI unit :=
  for_each lines
    (fun line =>
       update_output line;;
       when (str_in "Server started at" line) (set_bitnet_status "Ready")).

(** The status once the process has ended. *)
Definition report_exit (returncode : N) : UI unit :=
  if (returncode =? 0)%N
  then set_bitnet_status "Stopped";;
       update_output ("BitNet server stopped gracefully." +:+ nl)
  else set_bitnet_status "Error";;
       update_output ("BitNet server exited with error code " +:+ str_of_N returncode +:+
                      "." +:+ nl).

Section WithEnv.
Context (E : Env).

(** [subprocess.Popen(cmd, stdout=PIPE, stderr=STDOUT, text=True, cwd=...)]:
    the program's whole output is its [stdout]. *)
Definition popen (c : Cmd) : W Popen :=
  r <- spawn E c;;
  ret (mkPopen (readlines (snd (fst r))) (fst (fst r))).

(** The first path of a list that exists. *)
Fixpoint first_present (paths : list string) : W (option string) :=
  match paths with
  | [] => ret None
  | path :: rest =>
      present <- os_path_exists path;;
      if present then ret (Some path) else first_present rest
  end.

(** The files with the extension .gguf below [root], as [os.walk] meets
    them. *)
Fixpoint walk_gguf (root : string) (t : DirTree) : list string :=
  match t with
  | DirT dirs files =>
      map (path_join E root) (List.filter (fun f => endswith f ".gguf") files) ++
      (fix descend (ds : list (string * DirTree)) : list string :=
         match ds with
         | [] => []
         | (d, sub) :: r => walk_gguf (path_join E root d) sub ++ descend r
         end) dirs
  end.

Definition server_executables (install_dir : string) : list string :=
  [ path_join E (path_join3 E install_dir "build" "bin") "server";
    path_join3 E install_dir "build" "server";
    path_join E (path_join3 E install_dir "build" "bin") "server.exe";
    path_join3 E install_dir "build" "server.exe";
    path_join3 E install_dir "server" "server";
    path_join3 E install_dir "server" "server.exe" ].

Definition server_scripts (install_dir : string) : list string :=
  [ path_join E install_dir "server.py";
    path_join3 E install_dir "server" "server.py";
    path_join3 E install_dir "scripts" "server.py";
    path_join E install_dir "run_server.py" ].

Definition start_bitnet_server : App unit :=
  g <- inUI get;;
  let install_dir := default (JStr EmptyString) (config_data g !! "install_dir") in
  installed <- (if truthy install_dir then inW (os_path_exists_val install_dir)
                else ret false);;
  if negb installed
  then inUI (messagebox_showerror "Error" "BitNet is not installed. Please install it first.")
  else
    inUI (set_bitnet_status "Starting...");;
    inUI (show (UiThread "_start_server_thread")).

(** The part of [_start_server_thread] that runs setup_env.py through the
    wrapper. *)
Definition run_setup_env (conda_path : JVal) (install_dir setup_env_path : string)
  : App unit :=
  inUI (update_output ("Found setup_env.py at " +:+ setup_env_path +:+ nl));;
  g <- inUI get;;
  let hf_model := model_mapping_get (current_model g) in
  inUI (update_output ("Using HuggingFace model: " +:+ hf_model +:+ nl));;
  let setup_wrapper_path := path_join E install_dir "setup_wrapper.py" in
  inW (open_w setup_wrapper_path;; write setup_wrapper_path setup_wrapper_source);;
  conda <- of_result (as_item conda_path);;
  let cmd := [conda; "run"; "-n"; "bitnet-cpp"; "python"; setup_wrapper_path;
              "--hf-repo"; hf_model; "--quant-type"; "i2_s"] ++
             (if use_gpu g then ["--gpu"] else []) in
  inUI (update_output ("Setting up BitNet environment with command: " +:+ join " " cmd +:+ nl));;
  process <- inW (popen (mkCmd cmd (Some install_dir) false));;
  inUI (read_server_output (p_stdout process));;
  inUI (report_exit (p_returncode process)).

(** The part that launches a server: the executable with a model, else a
    server script, else main.py. *)
Definition launch_server (conda_path : JVal) (install_dir server_executable : string)
  : App unit :=
  let models_dir := path_join E install_dir "models" in
  has_models <- inW (os_path_exists models_dir);;
  w <- inW get;;
  let gguf_model_files :=
    if has_models
    then match tree E (machine w) models_dir with
         | Some t => walk_gguf models_dir t
         | None => []
         end
    else [] in
  match gguf_model_files with
  | model_path :: _ =>
      inUI (update_output ("Using model: " +:+ model_path +:+ nl));;
      g <- inUI get;;
      let cmd := [server_executable; "--model"; model_path; "--host"; "127.0.0.1";
                  "--port"; "8080"] ++
                 (if use_gpu g then ["--n-gpu-layers"; "35"] else []) in
      inUI (update_output ("Starting BitNet server with command: " +:+ join " " cmd +:+ nl));;
      p <- inW (popen (mkCmd cmd (Some (path_dirname E server_executable)) false));;
      inUI (set_bitnet_process (Some p))
  | [] =>
      inUI (update_output ("No .gguf model files found. Attempting to run BitNet server script directly..." +:+ nl));;
      server_script <- inW (first_present (server_scripts install_dir));;
      match server_script with
      | Some script =>
          inUI (update_output ("Found server script: " +:+ script +:+ nl));;
          conda <- of_result (as_item conda_path);;
          let cmd := [conda; "run"; "-n"; "bitnet-cpp"; "python"; script] in
          inUI (update_output ("Starting BitNet with Python script: " +:+ join " " cmd +:+ nl));;
          p <- inW (popen (mkCmd cmd (Some (path_dirname E script)) false));;
          inUI (set_bitnet_process (Some p))
      | None =>
          let main_script := path_join E install_dir "main.py" in
          has_main <- inW (os_path_exists main_script);;
          if has_main
          then
            conda <- of_result (as_item conda_path);;
            let cmd := [conda; "run"; "-n"; "bitnet-cpp"; "python"; main_script; "--server"] in
            inUI (update_output ("Starting BitNet with main script: " +:+ join " " cmd +:+ nl));;
            p <- inW (popen (mkCmd cmd (Some install_dir) false));;
            inUI (set_bitnet_process (Some p))
          else
            inUI (update_output ("Error: Could not find any server script to run BitNet." +:+ nl));;
            inUI (update_output ("Please build BitNet manually using the instructions at https://github.com/microsoft/BitNet" +:+ nl))
      end
  end.

Definition _start_server_thread : App unit :=
  try_except
    (g <- inUI get;;
     let conda_path := config_data g !! "conda_path" in
     let install_dir := config_data g !! "install_dir" in
     match conda_path, install_dir with
     | Some conda_path, Some install_dir =>
         if negb (truthy conda_path) || negb (truthy install_dir)
         then raise (PyException "Missing conda path or installation directory.")
         else
           present <- inW (os_path_exists_val conda_path);;
           (* installer_core defines no find_conda: looking it up fails *)
           when (negb present)
             (raise (AttributeError "module 'installer_core' has no attribute 'find_conda'"));;
           inUI (update_output ("Starting BitNet server..." +:+ nl));;
           install_dir <- of_result (as_path install_dir);;
           let setup_env_path := path_join E install_dir "setup_env.py" in
           has_setup <- inW (os_path_exists setup_env_path);;
           when has_setup (run_setup_env conda_path install_dir setup_env_path);;
           server_executable <- inW (first_present (server_executables install_dir));;
           match server_executable with
           | Some exe =>
               inUI (update_output ("Found BitNet server executable: " +:+ exe +:+ nl));;
               launch_server conda_path install_dir exe
           | None =>
               has_setup <- inW (os_path_exists setup_env_path);;
               if has_setup
               then
                 inUI (update_output ("No BitNet executable found. You may need to run setup_env.py first to build BitNet." +:+ nl));;
                 inUI (update_output ("Try running: python setup_env.py --hf-repo tiiuae/Falcon3-7B-1.58bit --quant-type i2_s" +:+ nl))
               else
                 inUI (update_output ("Error: BitNet server executable not found and setup_env.py is missing." +:+ nl));;
                 inUI (update_output ("Make sure you've cloned the BitNet repository correctly." +:+ nl))
           end;;
           g <- inUI get;;
           match bitnet_process g with
           | Some p =>
               inUI (read_server_output (p_stdout p));;
               inUI (set_bitnet_process (Some (mkPopen [] (p_returncode p))));;
               inUI (report_exit (p_returncode p))
           | None => raise (AttributeError "'NoneType' object has no attribute 'stdout'")
           end
     | _, _ => raise (PyException "Missing conda path or installation directory.")
     end)
    any_exn
    (fun e =>
       inW (logger_error ("Error starting BitNet server: " +:+ str_of_exn e));;
       inUI (update_output ("Error: " +:+ str_of_exn e +:+ nl));;
       inUI (set_bitnet_status "Error")).

End WithEnv.
End ControlPanelTab.

(* ===================================================================== *)
(** * installer_gui_tabs.py: the prerequisite panel                       *)
(* ===================================================================== *)

Module Prerequisites.

Import Installer Core.

(** What the installer tab keeps about the prerequisites: the three
    flags, and what the three status labels were set to, in order (the
    label, its text and its colour). *)
Record Panel : Type := mkPanel {
  git_installed : bool;
  conda_installed : bool;
  vs_installed : bool;
  labels : list (string * string * string)
}.

(** The installer tab: the host, the window and the panel. *)
Definition Tab (A : Type) : Type := St (World * (Window * Panel)) A.

Definition inHost {A} (m : W A) : Tab A := lift_fst m.
Definition inWindow {A} (m : UI A) : Tab A := lift_snd (lift_fst m).
Definition inPanel {A} (m : St Panel A) : Tab A := lift_snd (lift_snd m).

(** [<label>.config(text=..., foreground=...)] *)
Definition label_config (label text foreground : string) : St Panel unit :=
  modify (fun p => mkPanel (git_installed p) (conda_installed p) (vs_installed p)
                     (labels p ++ [(label, text, foreground)])).

Definition set_git_installed (b : bool) : St Panel unit :=
  modify (fun p => mkPanel b (conda_installed p) (vs_installed p) (labels p)).

Definition set_conda_installed (b : bool) : St Panel unit :=
  modify (fun p => mkPanel (git_installed p) b (vs_installed p) (labels p)).

Definition set_vs_installed (b : bool) : St Panel unit :=
  modify (fun p => mkPanel (git_installed p) (conda_installed p) b (labels p)).

(** [x is not None] *)
Definition is_not_None (x : option string) : bool :=
  match x with Some _ => true | None => false end.

(** The value stored in the configuration for what a locator returned. *)
Definition path_value (x : option string) : JVal :=
  match x with Some s => JStr s | None => JNull end.

(** [str(b)] *)
Definition str_of_bool (b : bool) : string := if b then "True" else "False".

Definition _update_status (status_label button : string) (is_found : bool)
    (text : string) : Tab unit :=
  if is_found
  then inPanel (label_config status_label text "green");;
       inWindow (button_config button false)
  else inPanel (label_config status_label text "red");;
       inWindow (button_config button true).

Definition _update_install_button : Tab unit :=
  p <- inPanel get;;
  if git_installed p && conda_installed p && vs_installed p
  then inWindow (button_config "install_btn" true);;
       inHost (logger_debug "Install button enabled - all prerequisites met")
  else inWindow (button_config "install_btn" false);;
       inHost (logger_debug
                 ("Install button disabled - prerequisites missing: Git=" +:+
                  str_of_bool (git_installed p) +:+ ", Conda=" +:+
                  str_of_bool (conda_installed p) +:+ ", VS=" +:+
                  str_of_bool (vs_installed p))).

(** [progress_callback(current, total)] of the three installation
    threads; [name] is what the status line calls the download. *)
Definition progress_callback (name : string) (current total : Z) : UI unit :=
  q <- of_result (truediv current total);;
  progress <- of_result (int_of_float (float_mul_int q 100));;
  progress_config progress;;
  status_label_config ("Downloading " +:+ name +:+ "... " +:+ str_of_Z progress +:+ "%").

(** The callback as the functions of installer_core.py receive it. *)
Definition as_callback (f : Z -> Z -> UI unit) : @Callback (Window * Panel) :=
  fun current total => lift_fst (f current total).

Section WithEnv.
Context (E : Env).

Definition check_prerequisites : Tab unit :=
  inWindow (status_label_config "Checking prerequisites...");;
  inPanel (set_git_installed false);;
  inPanel (set_conda_installed false);;
  inPanel (set_vs_installed false);;
  _update_install_button;;
  inWindow (show (UiThread "_check_prerequisites_thread")).

Definition _check_prerequisites_thread : Tab unit :=
  try_except
    (git_path <- inHost (check_git E);;
     inPanel (set_git_installed (is_not_None git_path));;
     p <- inPanel get;;
     _update_status "git_status" "git_btn" (git_installed p)
       (if git_installed p then "Found" else "Not Found");;
     p <- inPanel get;;
     when (git_installed p) (inWindow (set_config "git_path" (path_value git_path)));;
     conda_path <- inHost (check_conda E);;
     inPanel (set_conda_installed (is_not_None conda_path));;
     p <- inPanel get;;
     _update_status "conda_status" "conda_btn" (conda_installed p)
       (if conda_installed p then "Found" else "Not Found");;
     p <- inPanel get;;
     when (conda_installed p) (inWindow (set_config "conda_path" (path_value conda_path)));;
     vs_path <- inHost check_visual_studio;;
     inPanel (set_vs_installed (is_not_None vs_path));;
     p <- inPanel get;;
     _update_status "vs_status" "vs_btn" (vs_installed p)
       (if vs_installed p then "Found" else "Not Found");;
     p <- inPanel get;;
     when (vs_installed p) (inWindow (set_config "vs_path" (path_value vs_path)));;
     inWindow (status_label_config "Prerequisites check completed");;
     _update_install_button)
    any_exn
    (fun e =>
       inHost (logger_error ("Error checking prerequisites: " +:+ str_of_exn e));;
       inWindow (status_label_config ("Error checking prerequisites: " +:+ str_of_exn e))).

Definition install_git : Tab unit :=
  inWindow (button_config "git_btn" false);;
  inWindow (status_label_config "Installing Git...");;
  inWindow (progress_config 0);;
  inWindow (show (UiThread "_install_git_thread")).

Definition _install_git_thread : Tab unit :=
  try_except
    (let temp_dir := path_join E (APP_DATA E) "temp" in
     Core.install_git E temp_dir (Some (as_callback (progress_callback "Git")));;
     git_path <- inHost (check_git E);;
     inPanel (set_git_installed (is_not_None git_path));;
     p <- inPanel get;;
     _update_status "git_status" "git_btn" (git_installed p)
       (if git_installed p then "Found" else "Not Found");;
     p <- inPanel get;;
     when (git_installed p) (inWindow (set_config "git_path" (path_value git_path)));;
     _update_install_button)
    any_exn
    (fun e =>
       inHost (logger_error ("Error installing Git: " +:+ str_of_exn e));;
       inWindow (status_label_config ("Error installing Git: " +:+ str_of_exn e));;
       inWindow (button_config "git_btn" true)).

Definition install_conda : Tab unit :=
  inWindow (button_config "conda_btn" false);;
  inWindow (status_label_config "Installing Miniconda...");;
  inWindow (progress_config 0);;
  inWindow (show (UiThread "_install_conda_thread")).

Definition _install_conda_thread : Tab unit :=
  try_except
    (let temp_dir := path_join E (APP_DATA E) "temp" in
     Core.install_miniconda E temp_dir (Some (as_callback (progress_callback "Miniconda")));;
     conda_path <- inHost (check_conda E);;
     inPanel (set_conda_installed (is_not_None conda_path));;
     p <- inPanel get;;
     _update_status "conda_status" "conda_btn" (conda_installed p)
       (if conda_installed p then "Found" else "Not Found");;
     p <- inPanel get;;
     when (conda_installed p) (inWindow (set_config "conda_path" (path_value conda_path)));;
     _update_install_button)
    any_exn
    (fun e =>
       inHost (logger_error ("Error installing Miniconda: " +:+ str_of_exn e));;
       inWindow (status_label_config ("Error installing Miniconda: " +:+ str_of_exn e));;
       inWindow (button_config "conda_btn" true)).

Definition install_vs : Tab unit :=
  inWindow (button_config "vs_btn" false);;
  inWindow (status_label_config "Installing Visual Studio Build Tools...");;
  inWindow (progress_config 0);;
  inWindow (show (UiThread "_install_vs_thread")).

Definition _install_vs_thread : Tab unit :=
  try_except
    (let temp_dir := path_join E (APP_DATA E) "temp" in
     Core.install_vs_build_tools E temp_dir
       (Some (as_callback (progress_callback "Visual Studio Build Tools")));;
     vs_path <- inHost check_visual_studio;;
     inPanel (set_vs_installed (is_not_None vs_path));;
     p <- inPanel get;;
     _update_status "vs_status" "vs_btn" (vs_installed p)
       (if vs_installed p then "Found" else "Not Found");;
     p <- inPanel get;;
     when (vs_installed p) (inWindow (set_config "vs_path" (path_value vs_path)));;
     _update_install_button)
    any_exn
    (fun e =>
       inHost (logger_error ("Error installing Visual Studio Build Tools: " +:+
                             str_of_exn e));;
       inWindow (status_label_config ("Error installing Visual Studio Build Tools: " +:+
                                      str_of_exn e));;
       inWindow (button_config "vs_btn" true)).

End WithEnv.
End Prerequisites.

(* ===================================================================== *)
(** * A small machine to run the program on                               *)
(* ===================================================================== *)

Module Demo.

(** Windows paths, in the simple cases: a backslash between the parts,
    and the directory of a path is what precedes its last backslash. *)
Definition join_path (a b : string) : string := a +:+ "\" +:+ b.

Fixpoint dirname (p : string) : string :=
  match p with
  | EmptyString => EmptyString
  | String c t => if str_in "\" t then String c (dirname t) else EmptyString
  end.

Definition with_node (path : string) (n : Node) (m : Machine) : Machine :=
  mkMachine (<[path := n]> (fs m)) (fs_denied m) (open_fds m) (vs7 m).

(** External programs: [where] finds nothing; a clone exits with
    [clone_rc] having printed [clone_stderr], and leaves the metadata
    directory when it succeeds; the environment manager lists
    [env_list]; everything else succeeds silently. *)
Definition run_program (clone_rc : N) (clone_stderr env_list : string)
    (t : nat) (c : Cmd) (m : Machine) : ProcOutcome :=
  match argv c with
  | "where" :: _ => Exited 1 EmptyString "INFO: Could not find files for the given pattern(s)." m
  | "git" :: "clone" :: rest =>
      Exited clone_rc EmptyString clone_stderr
        (if (clone_rc =? 0)%N
         then with_node (join_path (List.last rest EmptyString) ".git") Dir m
         else m)
  | "git" :: "pull" :: _ => Exited 0 "Already up to date." EmptyString m
  | _ :: "env" :: "list" :: _ => Exited 0 env_list EmptyString m
  | _ => Exited 0 EmptyString EmptyString m
  end.

(** A server that announces four bytes and sends them in two reads. *)
Definition serve (t : nat) (url : string) : UrlOutcome :=
  Response (Some "4") [Chunk "MZ"; Chunk "PE"].

Definition env (clone_rc : N) (clone_stderr env_list : string) : Env :=
  mkEnv (run_program clone_rc clone_stderr env_list) serve
        (fun _ _ => None) join_path dirname (fun p => p)
        "C:\Users\me" "C:\Users\me\AppData\Local".

Definition env0 : Env := env 0 EmptyString EmptyString.

Definition machine0 : Machine :=
  mkMachine {[ "C:\Users\me" := Dir ]} ∅ ∅ None.

Definition world0 : World := mkWorld machine0 O [].

Definition window0 : Window :=
  mkWindow ∅ "C:\Users\me\BitNet" true "Not Running" "BitNet-7B-base" true None [].

(** A configuration with one recognised key and one unknown key. *)
Definition config1 : gmap string JVal :=
  {[ "install_dir" := JStr "D:\bitnetLLM"; "theme" := JStr "dark" ]}.

(** A world in which nothing can be created under C:\locked. *)
Definition world_locked : World :=
  mkWorld (mkMachine {[ "C:\Users\me" := Dir ]} {[ "C:\locked" ]} ∅ None) O [].

(** A callback that only returns. *)
Definition quiet : Z -> Z -> St unit unit := fun _ _ => ret tt.

(** A world in which the installation directory is there, and empty. *)
Definition world1 : World :=
  mkWorld (with_node "C:\Users\me\BitNet" Dir machine0) O [].

(** The world after a first, successful provisioning of that directory. *)
Definition world2 : World :=
  Eval vm_compute in
    fst (snd (Core.clone_bitnet env0 "C:\Users\me\BitNet" (Some quiet) (world1, tt))).


(** What the clone prints in the end-to-end scenario. *)
Definition three_lines : string :=
  "Receiving objects: 10%" +:+ nl +:+
  "Receiving objects: 55%" +:+ nl +:+
  "Receiving objects: 100%" +:+ nl.

(** What the loop of the provisioner adds to the trace and shows for
    these three lines. *)
Definition three_lines_trace : list Event :=
  Eval vm_compute in
    trace (fst (snd (for_each (readlines three_lines)
                       (Core.clone_line InstallerTab.clone_progress) (world0, window0)))).

Definition three_lines_ui : list UiEvent :=
  Eval vm_compute in
    ui (snd (snd (for_each (readlines three_lines)
                    (Core.clone_line InstallerTab.clone_progress) (world0, window0)))).

(** What a recursive clone prints: the objects of the repository, then
    those of its submodule, counted again from the start. *)
Definition two_phases : string :=
  "Cloning into 'C:\Users\me\BitNet'..." +:+ nl +:+
  "Receiving objects: 100% (340/340), 1.20 MiB | 2.00 MiB/s, done." +:+ nl +:+
  "Submodule '3rdparty/llama.cpp' registered for path '3rdparty/llama.cpp'" +:+ nl +:+
  "Receiving objects:  10% (2500/25000)" +:+ nl +:+
  "Receiving objects: 100% (25000/25000), done." +:+ nl.

(** A window whose configuration knows the environment manager. *)
Definition window1 : Window :=
  mkWindow {[ "conda_path" := JStr "C:\conda\Scripts\conda.exe" ]}
           "C:\Users\me\BitNet" true "Not Running" "BitNet-7B-base" true None [].

(** One installation on a machine where every program succeeds and the
    clone prints the three lines: the state after the button was
    pressed, and after the three steps. *)
Definition env3 : Env := env 0 three_lines "base  C:\conda".

Definition pressed3 : World * Window :=
  Eval vm_compute in snd (InstallerTab.install_bitnet env3 (world1, window1)).

Definition done3 : World * Window :=
  Eval vm_compute in snd (InstallerTab.install_bitnet_steps env3 pressed3).

(** A world whose configuration file does not parse. *)
Definition world_corrupted : World :=
  mkWorld (with_node (Installer.CONFIG_FILE env0) (File (Text "{ install_dir: ")) machine0)
          O [].

End Demo.

(* ===================================================================== *)
(** * More machines and states to run the program on                     *)
(* ===================================================================== *)

Module Scenario.
Import Installer Core.

(** The directory the prerequisite installers download to. *)
Definition temp_dir : string := "C:\Users\me\AppData\Local\BitNet\temp".

Definition git_url : string :=
  "https://github.com/git-for-windows/git/releases/download/v2.40.0.windows.1/Git-2.40.0-64-bit.exe".

(** The world once the installer of Git is downloaded, and once it has
    run and the locator has looked for Git again. *)
Definition git_downloaded : World :=
  Eval vm_compute in
    fst (snd (download_file Demo.env0 git_url (Demo.join_path temp_dir "git_installer.exe")
                (@None (@Callback unit))
                (logged Demo.world0 INFO "Installing Git for Windows", tt))).

Definition git_looked_for : World :=
  Eval vm_compute in
    snd (check_git Demo.env0
           (mkWorld (machine git_downloaded) (S (clock git_downloaded))
              (trace git_downloaded ++
               [EvLog INFO "Running Git installer";
                EvSpawn (mkCmd [Demo.join_path temp_dir "git_installer.exe";
                                "/VERYSILENT"; "/NORESTART"] None false)]))).

(** The machine of [Demo.env0] with other external programs. *)
Definition with_proc (p : nat -> Cmd -> Machine -> ProcOutcome) : Env :=
  mkEnv p (urlopen Demo.env0) (tree Demo.env0) (path_join Demo.env0)
        (path_dirname Demo.env0) (expandvars Demo.env0) (home Demo.env0)
        (localappdata Demo.env0).

(** Every program exits with [rc], silently. *)
Definition exit_with (rc : N) (t : nat) (c : Cmd) (m : Machine) : ProcOutcome :=
  Exited rc EmptyString EmptyString m.

(** No program can be launched. *)
Definition cannot_launch (t : nat) (c : Cmd) (m : Machine) : ProcOutcome :=
  LaunchFailed "[WinError 193] %1 is not a valid Win32 application".

(** The installer of Miniconda creates conda.exe; [conda init] exits
    with 1. *)
Definition conda_exe : string := "C:\Users\me\miniconda3_bitnet\Scripts\conda.exe".

Definition init_fails (t : nat) (c : Cmd) (m : Machine) : ProcOutcome :=
  match argv c with
  | _ :: "init" :: _ => Exited 1 EmptyString EmptyString m
  | _ => Exited 0 EmptyString EmptyString (Demo.with_node conda_exe (File (Text "MZ")) m)
  end.

Definition conda_url : string :=
  "https://repo.anaconda.com/miniconda/Miniconda3-latest-Windows-x86_64.exe".

Definition vs_url : string := "https://aka.ms/vs/17/release/vs_BuildTools.exe".

(** The world once the installer of Miniconda is downloaded. *)
Definition conda_downloaded : World :=
  Eval vm_compute in
    fst (snd (download_file Demo.env0 conda_url
                (Demo.join_path temp_dir "miniconda_installer.exe")
                (@None (@Callback unit))
                (logged Demo.world0 INFO "Installing Miniconda", tt))).

(** The world once the installer of the build tools is downloaded, and
    once it has run and Visual Studio was looked for. *)
Definition vs_downloaded : World :=
  Eval vm_compute in
    fst (snd (download_file Demo.env0 vs_url (Demo.join_path temp_dir "vs_buildtools.exe")
                (@None (@Callback unit))
                (logged Demo.world0 INFO "Installing Visual Studio Build Tools", tt))).

Definition vs_run : Cmd :=
  mkCmd [Demo.join_path temp_dir "vs_buildtools.exe"; "--quiet"; "--norestart"; "--wait";
         "--add"; "Microsoft.VisualStudio.Workload.VCTools"; "--includeRecommended"]
        None false.

Definition vs_looked_for : World :=
  Eval vm_compute in
    snd (check_visual_studio
           (mkWorld (machine vs_downloaded) (S (clock vs_downloaded))
              (trace vs_downloaded ++
               [EvLog INFO "Running Visual Studio Build Tools installer";
                EvSpawn vs_run]))).

(** Every program exits with [rc], having written [err] to its error
    stream. *)
Definition fails_with (rc : N) (err : string) (t : nat) (c : Cmd) (m : Machine)
  : ProcOutcome :=
  Exited rc EmptyString err m.

(** A window whose configuration names the environment manager and the
    installation directory. *)
Definition window2 : Window :=
  mkWindow {[ "conda_path" := JStr "C:\conda\Scripts\conda.exe";
              "install_dir" := JStr "C:\Users\me\BitNet" ]}
           "C:\Users\me\BitNet" true "Not Running" "BitNet-7B-base" true None [].

(** The state after the first step of an installation started from a
    window without configuration. *)
Definition cloned0 : World * Window :=
  Eval vm_compute in
    snd (InstallerTab.clone_step Demo.env3 "C:\Users\me\BitNet" (Demo.world1, Demo.window0)).

End Scenario.

Module PanelScenario.
Import Installer Core Prerequisites.

(** A machine on which [where] finds every program, and Visual Studio
    is at its first place. *)
Definition all_found (t : nat) (c : Cmd) (m : Machine) : ProcOutcome :=
  Exited 0 ("C:\tools\" +:+ List.last (argv c) EmptyString +:+ nl) EmptyString m.

Definition env_found : Env := Scenario.with_proc all_found.

Definition world_vs : World :=
  mkWorld (Demo.with_node "C:\Program Files\Microsoft Visual Studio\2022" Dir Demo.machine0)
          O [].

Definition panel0 : Panel := mkPanel false false false [].

Definition git_checked : World :=
  Eval vm_compute in snd (check_git env_found world_vs).

Definition conda_checked : World :=
  Eval vm_compute in snd (check_conda env_found git_checked).

Definition vs_checked : World :=
  Eval vm_compute in snd (check_visual_studio conda_checked).

(** A server that announces no length. *)
Definition env_no_length : Env :=
  mkEnv (proc Demo.env0) (fun _ _ => Response None [Chunk "MZ"; Chunk "PE"])
        (tree Demo.env0) (path_join Demo.env0) (path_dirname Demo.env0)
        (expandvars Demo.env0) (home Demo.env0) (localappdata Demo.env0).

(** A world in which the directory of the downloads is there. *)
Definition world_temp : World :=
  mkWorld (Demo.with_node Scenario.temp_dir Dir Demo.machine0) O [].

End PanelScenario.

(* ===================================================================== *)
(** * Properties                                                          *)
(* ===================================================================== *)

(** ** The monad *)

Lemma bind_ok {S A B} (m : St S A) (k : A -> St S B) s a s' :
  m s = (Ok a, s') -> bind m k s = k a s'.
Proof. unfold bind. intros ->. reflexivity. Qed.

Lemma bind_raise {S A B} (m : St S A) (k : A -> St S B) s e s' :
  m s = (Raise e, s') -> bind m k s = (Raise e, s').
Proof. unfold bind. intros ->. reflexivity. Qed.

Lemma try_except_ok {S A} (body : St S A) handles handler s a s' :
  body s = (Ok a, s') -> try_except body handles handler s = (Ok a, s').
Proof. unfold try_except. intros ->. reflexivity. Qed.

Lemma try_except_raise {S A} (body : St S A) handles handler s e s' :
  body s = (Raise e, s') ->
  try_except body handles handler s =
  if handles e then handler e s' else (Raise e, s').
Proof. unfold try_except. intros ->. reflexivity. Qed.

Lemma bind_inv_ok {S A B} (m : St S A) (k : A -> St S B) s b s' :
  bind m k s = (Ok b, s') ->
  exists a s1, m s = (Ok a, s1) /\ k a s1 = (Ok b, s').
Proof.
  unfold bind. destruct (m s) as [[a|e] s1]; [eauto|discriminate].
Qed.

Lemma bind_inv {S A B} (m : St S A) (k : A -> St S B) s r s' :
  bind m k s = (r, s') ->
  (exists a s1, m s = (Ok a, s1) /\ k a s1 = (r, s')) \/
  (exists e, m s = (Raise e, s') /\ r = Raise e).
Proof.
  unfold bind. destruct (m s) as [[a|e] s1]; [eauto|].
  intros [= <- <-]. eauto.
Qed.

Lemma try_except_inv {S A} (body : St S A) handles handler s r s' :
  try_except body handles handler s = (r, s') ->
  (exists a, body s = (Ok a, s') /\ r = Ok a) \/
  (exists e s1, body s = (Raise e, s1) /\
     (if handles e then handler e s1 else (Raise e, s1)) = (r, s')).
Proof.
  unfold try_except. destruct (body s) as [[a|e] s1].
  - intros [= <- <-]. eauto.
  - eauto.
Qed.

Lemma lift_fst_inv {S U A} (m : St S A) (s : S) (u : U) r s' u' :
  lift_fst m (s, u) = (r, (s', u')) -> m s = (r, s') /\ u' = u.
Proof.
  unfold lift_fst. simpl. destruct (m s) as [r0 s0]. by intros [= -> -> ->].
Qed.

Lemma lift_snd_inv {S U A} (m : St U A) (s : S) (u : U) r s' u' :
  lift_snd m (s, u) = (r, (s', u')) -> m u = (r, u') /\ s' = s.
Proof.
  unfold lift_snd. simpl. destruct (m u) as [r0 u0]. by intros [= -> -> ->].
Qed.

Lemma lift_fst_eq {S U A} (m : St S A) (s : S) (u : U) :
  lift_fst m (s, u) = (fst (m s), (snd (m s), u)).
Proof. unfold lift_fst. simpl. by destruct (m s). Qed.

Lemma lift_snd_eq {S U A} (m : St U A) (s : S) (u : U) :
  lift_snd m (s, u) = (fst (m u), (s, snd (m u))).
Proof. unfold lift_snd. simpl. by destruct (m u). Qed.

(** Unfolding the monad and the primitives of the host, but nothing of
    the program itself. *)
Ltac monad :=
  cbv beta iota zeta delta
    [bind ret raise get gets modify of_result try_except any_exn when
     lift_fst lift_snd fst snd negb].

Ltac host :=
  cbv beta iota zeta delta
    [bind ret raise get gets modify of_result try_except any_exn when
     lift_fst lift_snd fst snd negb
     emit logger_debug logger_info logger_warning logger_error
     set_machine set_fs tick os_path_exists os_makedirs open_w write
     json_dump json_load machine clock trace fs fs_denied open_fds vs7].

(** ** installer.py: the configuration *)

Section ConfigProperties.
Import Installer.
Context (E : Env).

(** Backfilling a dictionary adds exactly the entries whose key it
    lacks. *)
Lemma backfill_dict (items : list (string * JVal)) (d : gmap string JVal) :
  backfill items (JObj d) = Ok (JObj (d ∪ list_to_map items)).
Proof.
  revert d. induction items as [|[k v] rest IH]; intros d; simpl.
  - by rewrite (right_id_L ∅ (∪)).
  - case_bool_decide as Hk.
    + rewrite IH. do 2 f_equal. apply map_eq. intros i.
      rewrite !lookup_union. destruct (decide (k = i)) as [->|Hne].
      * rewrite lookup_insert_eq. destruct Hk as [x ->]. simpl.
        by destruct (list_to_map rest !! i).
      * by rewrite lookup_insert_ne.
    + rewrite IH. do 2 f_equal. apply map_eq. intros i.
      rewrite !lookup_union. destruct (decide (k = i)) as [->|Hne].
      * rewrite !lookup_insert_eq.
        assert (d !! i = None) as ->.
        { destruct (d !! i) eqn:Hd; [|done]. exfalso. apply Hk. eauto. }
        simpl. by destruct (list_to_map rest !! i).
      * by rewrite !lookup_insert_ne.
Qed.

(** What a successful save leaves in the configuration file. *)
Lemma save_config_ok (v : JVal) (w w1 : World) :
  save_config E v w = (Ok true, w1) ->
  fs (machine w1) !! CONFIG_FILE E = Some (File (Json v)).
Proof.
  destruct w as [[f dn fd vs] c tr]. unfold save_config. host.
  case_bool_decide; [discriminate|].
  destruct (f !! CONFIG_FILE E) as [[|?]|];
    try discriminate; intros [= <-]; apply lookup_insert_eq.
Qed.

(** Saving never raises. *)
Lemma save_config_total (v : JVal) (w : World) :
  exists b w1, save_config E v w = (Ok b, w1).
Proof.
  destruct w as [[f dn fd vs] c tr]. unfold save_config. host.
  case_bool_decide; [eauto|].
  destruct (f !! CONFIG_FILE E) as [[|?]|]; eauto.
Qed.

(** Loading a file that holds a dictionary returns it, backfilled, and
    leaves the world as it is. *)
Lemma load_config_dict (d : gmap string JVal) (w : World) :
  fs (machine w) !! CONFIG_FILE E = Some (File (Json (JObj d))) ->
  load_config E w = (Ok (JObj (d ∪ DEFAULT_CONFIG E)), w).
Proof.
  destruct w as [[f dn fd vs] c tr]. simpl. intros H.
  unfold load_config. host. rewrite H.
  rewrite bool_decide_true by eauto. host. rewrite H. host.
  by rewrite backfill_dict.
Qed.

(** Loading a file that does not parse logs the failure, saves the
    defaults and returns them. *)
Lemma load_config_corrupted (garbage : string) (w : World) :
  fs (machine w) !! CONFIG_FILE E = Some (File (Text garbage)) ->
  load_config E w =
  (Ok (JObj (DEFAULT_CONFIG E)),
   snd (save_config E (JObj (DEFAULT_CONFIG E))
          (logged w ERROR "Failed to load config: Expecting value: line 1 column 1 (char 0)"))).
Proof.
  destruct w as [[f dn fd vs] c tr]. simpl. intros H.
  set (res := save_config E _ (logged _ _ _)).
  unfold load_config. host. rewrite H.
  rewrite bool_decide_true by eauto. host. rewrite H. host.
  match goal with |- context [save_config E ?v ?w] =>
    change (save_config E v w) with res end.
  destruct (save_config_total (JObj (DEFAULT_CONFIG E))
              (logged (mkWorld (mkMachine f dn fd vs) c tr) ERROR
                 "Failed to load config: Expecting value: line 1 column 1 (char 0)"))
    as (b & w1 & Hs).
  fold res in Hs. by rewrite Hs.
Qed.

(** C9. Saving a configuration and loading it again gives the same
    dictionary, where every recognised key the original lacks has its
    default value and every other key, recognised or not, keeps the value
    it had; loading a configuration file that does not parse raises
    nothing: the failure is logged, the defaults are saved and
    returned. *)
Theorem config_round_trip (config : gmap string JVal) (w w1 wc : World)
    (garbage : string) :
  save_config E (JObj config) w = (Ok true, w1) ->
  fs (machine wc) !! CONFIG_FILE E = Some (File (Text garbage)) ->
  load_config E w1 = (Ok (JObj (config ∪ DEFAULT_CONFIG E)), w1) /\
  (forall k v, config !! k = Some v -> (config ∪ DEFAULT_CONFIG E) !! k = Some v) /\
  (forall k, config !! k = None ->
             (config ∪ DEFAULT_CONFIG E) !! k = DEFAULT_CONFIG E !! k) /\
  exists msg,
    load_config E wc =
    (Ok (JObj (DEFAULT_CONFIG E)),
     snd (save_config E (JObj (DEFAULT_CONFIG E)) (logged wc ERROR msg))).
Proof.
  intros Hsave Hbad. split; [|split; [|split]].
  - apply load_config_dict. by apply save_config_ok in Hsave.
  - intros k v Hk. by rewrite lookup_union, Hk; destruct (DEFAULT_CONFIG E !! k).
  - intros k Hk. by rewrite lookup_union, Hk; destruct (DEFAULT_CONFIG E !! k).
  - eexists. by eapply load_config_corrupted.
Qed.

End ConfigProperties.

Lemma config_round_trip_witness :
  let w1 := snd (Installer.save_config Demo.env0 (JObj Demo.config1) Demo.world0) in
  Installer.load_config Demo.env0 w1 =
  (Ok (JObj (Demo.config1 ∪ Installer.DEFAULT_CONFIG Demo.env0)), w1) /\
  (Demo.config1 ∪ Installer.DEFAULT_CONFIG Demo.env0) !! "theme" = Some (JStr "dark") /\
  (Demo.config1 ∪ Installer.DEFAULT_CONFIG Demo.env0) !! "enable_gpu" = Some (JBool true).
Proof.
  destruct (config_round_trip Demo.env0 Demo.config1 Demo.world0
              (snd (Installer.save_config Demo.env0 (JObj Demo.config1) Demo.world0))
              Demo.world_corrupted "{ install_dir: ")
    as (H1 & H2 & H3 & _).
  - vm_compute. reflexivity.
  - vm_compute. reflexivity.
  - split; [exact H1|]. split.
    + apply H2. vm_compute. reflexivity.
    + rewrite H3; vm_compute; reflexivity.
Defined.

(** ** Strings *)

Lemma str_app_cons (c : ascii) (s t : string) :
  String c s +:+ t = String c (s +:+ t).
Proof. reflexivity. Qed.

Lemma str_app_nil_r (s : string) : s +:+ EmptyString = s.
Proof. induction s as [|c s IH]; [done|]. by rewrite str_app_cons, IH. Qed.

Lemma str_app_assoc (s t u : string) : (s +:+ t) +:+ u = s +:+ (t +:+ u).
Proof. induction s as [|c s IH]; [done|]. by rewrite !str_app_cons, IH. Qed.


(** ** Lists *)


(** ** Traces *)

Lemma trace_since_app (w w' : World) (evs : list Event) :
  trace w' = trace w ++ evs -> trace_since w w' = evs.
Proof. unfold trace_since. intros ->. by rewrite drop_app_length. Qed.

Lemma ui_since_app (g g' : Window) (evs : list UiEvent) :
  ui g' = ui g ++ evs -> ui_since g g' = evs.
Proof. unfold ui_since. intros ->. by rewrite drop_app_length. Qed.

Lemma callbacks_app (l1 l2 : list Event) :
  callbacks (l1 ++ l2) = callbacks l1 ++ callbacks l2.
Proof. apply omap_app. Qed.

Lemma spawned_app (l1 l2 : list Event) :
  spawned (l1 ++ l2) = spawned l1 ++ spawned l2.
Proof. apply omap_app. Qed.


(** ** The host *)

Lemma emit_eq (ev : Event) (w : World) :
  emit ev w = (Ok tt, mkWorld (machine w) (clock w) (trace w ++ [ev])).
Proof. reflexivity. Qed.

Lemma logger_info_eq (msg : string) (w : World) :
  logger_info msg w = (Ok tt, logged w INFO msg).
Proof. reflexivity. Qed.

Lemma logger_error_eq (msg : string) (w : World) :
  logger_error msg w = (Ok tt, logged w ERROR msg).
Proof. reflexivity. Qed.

Lemma logger_warning_eq (msg : string) (w : World) :
  logger_warning msg w = (Ok tt, logged w WARNING msg).
Proof. reflexivity. Qed.

Lemma logger_debug_eq (msg : string) (w : World) :
  logger_debug msg w = (Ok tt, logged w DEBUG msg).
Proof. reflexivity. Qed.

Lemma os_path_exists_eq (path : string) (w : World) :
  os_path_exists path w = (Ok (bool_decide (is_Some (fs (machine w) !! path))), w).
Proof. reflexivity. Qed.

(** Creating a directory touches neither the clock nor the trace; when it
    fails nothing has changed, when it succeeds the directory is there
    and every other path is as before. *)
Lemma os_makedirs_inv (path : string) (w : World) r (w1 : World) :
  os_makedirs path w = (r, w1) ->
  clock w1 = clock w /\ trace w1 = trace w /\
  match r with
  | Ok _ => fs (machine w1) !! path = Some Dir /\
            (forall q, q <> path -> fs (machine w1) !! q = fs (machine w) !! q)
  | Raise _ => w1 = w
  end.
Proof.
  destruct w as [[f dn fd vs] c tr]. host.
  destruct (f !! path) as [[|?]|] eqn:Hp.
  - by intros [= <- <-].
  - by intros [= <- <-].
  - case_bool_decide; intros [= <- <-]; [done|]. simpl.
    repeat split; [apply lookup_insert_eq|]. intros q Hq. by apply lookup_insert_ne.
Qed.

Lemma os_makedirs_dir (path : string) (w : World) :
  fs (machine w) !! path = Some Dir -> os_makedirs path w = (Ok tt, w).
Proof. destruct w as [[f dn fd vs] c tr]. simpl. intros H. host. by rewrite H. Qed.


(** ** installer_core.py: the downloader *)


Ltac core :=
  cbv beta iota zeta delta
    [bind ret raise get gets modify of_result try_except any_exn when
     lift_fst lift_snd fst snd negb
     emit logger_debug logger_info logger_warning logger_error
     set_machine set_fs tick os_path_exists os_makedirs open_w write
     json_dump json_load machine clock trace fs fs_denied open_fds vs7
     Core.liftW Core.call Core.call_if Core.url_open spawn run_checked
     inW inUI show progress_config status_label_config button_config
     update_output messagebox_showinfo messagebox_showerror
     set_config set_bitnet_status set_bitnet_process].

Section DownloadProperties.
Import Core.
Context (E : Env) {U : Type}.




(** Once the parent directory is there, the download raises nothing:
    every failure inside the guarded block is logged and answered with
    [False]. *)
Lemma download_file_guarded (url destination : string) (cb : option (@Callback U))
    (w : World) (g : U) (w1 : World) :
  os_makedirs (path_dirname E destination)
    (logged w INFO ("Downloading " +:+ url +:+ " to " +:+ destination)) = (Ok tt, w1) ->
  exists b s', download_file E url destination cb (w, g) = (Ok b, s').
Proof.
  intros Hmk. unfold download_file.
  rewrite (bind_ok _ _ _ tt (logged w INFO ("Downloading " +:+ url +:+ " to " +:+ destination), g));
    [|reflexivity].
  rewrite (bind_ok _ _ _ tt (w1, g)); [|unfold liftW; by rewrite lift_fst_eq, Hmk].
  unfold try_except.
  match goal with |- context [match ?body with _ => _ end] =>
    destruct body as [[b|e] [w2 g2]] end; [eauto|].
  simpl. erewrite bind_ok; [|reflexivity]. eauto.
Qed.

(** C5. The directory of the destination is created before the guarded
    block is entered: when that fails, the failure leaves [download_file]
    as an exception, and no [False] is returned. *)
Theorem download_file_raises (url destination : string) (cb : option (@Callback U))
    (w : World) (g : U) (e : Exn) (w1 : World) :
  os_makedirs (path_dirname E destination)
    (logged w INFO ("Downloading " +:+ url +:+ " to " +:+ destination)) = (Raise e, w1) ->
  download_file E url destination cb (w, g) = (Raise e, (w1, g)).
Proof.
  intros Hmk. unfold download_file.
  rewrite (bind_ok _ _ _ tt (logged w INFO ("Downloading " +:+ url +:+ " to " +:+ destination), g));
    [|reflexivity].
  apply bind_raise. unfold liftW. by rewrite lift_fst_eq, Hmk.
Qed.


End DownloadProperties.

Lemma download_file_raises_witness :
  Core.download_file Demo.env0 "https://aka.ms/vs/17/release/vs_BuildTools.exe"
    "C:\locked\vs_buildtools.exe" (Some Demo.quiet) (Demo.world_locked, tt) =
  (Raise (OSError "Access is denied: 'C:\\locked'"),
   (logged Demo.world_locked INFO
      "Downloading https://aka.ms/vs/17/release/vs_BuildTools.exe to C:\locked\vs_buildtools.exe",
    tt)).
Proof.
  apply (download_file_raises Demo.env0). vm_compute. reflexivity.
Defined.


(** ** installer_core.py: the repository provisioner *)

Section CloneProperties.
Import Installer Core.
Context (E : Env) {U : Type}.





(** With the metadata directory in place, the provisioner runs one
    command, the pull, whatever its outcome, and leaves the caller's
    state alone; a pull that exits with zero makes it return [True]. *)
Lemma clone_bitnet_update (install_dir : string) (cb : option (@Callback U))
    (w : World) (g : U) :
  fs (machine w) !! install_dir = Some Dir ->
  is_Some (fs (machine w) !! path_join E install_dir ".git") ->
  let pull := mkCmd ["git"; "pull"] (Some install_dir) false in
  let res := clone_bitnet E install_dir cb (w, g) in
  spawned (trace_since w (fst (snd res))) = [pull] /\
  snd (snd res) = g /\
  (forall out err after,
     proc E (clock w) pull (machine w) = Exited 0 out err after ->
     fst res = Ok true /\ machine (fst (snd res)) = after).
Proof.
  destruct w as [[f0 dn fd vs] c tr]. simpl. intros Hdir Hgit.
  unfold clone_bitnet, trace_since. core. rewrite Hdir. core.
  rewrite bool_decide_true by done. core.
  destruct (proc E c _ _) as [msg|rc out err after]; core.
  - rewrite <- !app_assoc, drop_app_length. by repeat split.
  - destruct (rc =? 0)%N eqn:Hz; core.
    + rewrite <- !app_assoc, drop_app_length. repeat split; congruence.
    + rewrite <- !app_assoc, drop_app_length. repeat split; try done;
        match goal with H : Exited _ _ _ _ = Exited _ _ _ _ |- _ =>
          injection H as -> _ _ _; discriminate end.
Qed.

(** C6. On a target directory that holds the metadata directory .git,
    the provisioner does not clone: the one program it runs is the pull,
    and when the pull exits with zero the call succeeds.  So it is for
    the second of two calls in a row, the first having left .git
    behind. *)
Theorem provision_again_updates (install_dir : string) (cb : option (@Callback U))
    (w : World) (g : U) (out err : string) (after : Machine) :
  fs (machine w) !! install_dir = Some Dir ->
  is_Some (fs (machine w) !! path_join E install_dir ".git") ->
  proc E (clock w) (mkCmd ["git"; "pull"] (Some install_dir) false) (machine w)
    = Exited 0 out err after ->
  exists w',
    clone_bitnet E install_dir cb (w, g) = (Ok true, (w', g)) /\
    spawned (trace_since w w') = [mkCmd ["git"; "pull"] (Some install_dir) false] /\
    machine w' = after.
Proof.
  intros Hdir Hgit Hpull.
  destruct (clone_bitnet_update install_dir cb w g Hdir Hgit) as (Hsp & Hg & Hok).
  destruct (Hok _ _ _ Hpull) as [Hres Hm].
  destruct (clone_bitnet E install_dir cb (w, g)) as [r [w' g']]. simpl in *.
  exists w'. by subst.
Qed.

End CloneProperties.



Lemma provision_again_updates_witness :
  Core.clone_bitnet Demo.env0 "C:\Users\me\BitNet" (Some Demo.quiet) (Demo.world1, tt)
    = (Ok true, (Demo.world2, tt)) /\
  spawned (trace_since Demo.world1 Demo.world2) =
    [mkCmd ["git"; "clone"; "--recursive"; "--progress"; Installer.BITNET_REPO;
            "C:\Users\me\BitNet"] None false] /\
  exists w',
    Core.clone_bitnet Demo.env0 "C:\Users\me\BitNet" (Some Demo.quiet) (Demo.world2, tt)
      = (Ok true, (w', tt)) /\
    spawned (trace_since Demo.world2 w') =
      [mkCmd ["git"; "pull"] (Some "C:\Users\me\BitNet") false] /\
    machine w' = machine Demo.world2.
Proof.
  split; [vm_compute; reflexivity|]. split; [vm_compute; reflexivity|].
  apply (provision_again_updates Demo.env0 "C:\Users\me\BitNet" (Some Demo.quiet)
           Demo.world2 tt "Already up to date." EmptyString (machine Demo.world2)).
  - vm_compute. reflexivity.
  - vm_compute. eauto.
  - vm_compute. reflexivity.
Defined.

(** ** A program logic for what an action adds

    [steps R m]: every run of [m], whether it returns or raises, takes a
    state to one related to it by [R].  For a reflexive and transitive
    [R] the property passes through sequencing, exception handling and
    loops, so it is proved for a function by following its text. *)

Section Steps.
Context {S : Type} (R : S -> S -> Prop).
Hypothesis R_refl : forall s, R s s.
Hypothesis R_trans : forall s1 s2 s3, R s1 s2 -> R s2 s3 -> R s1 s3.

Definition steps {A} (m : St S A) : Prop :=
  forall s r s', m s = (r, s') -> R s s'.

Lemma steps_ret {A} (a : A) : steps (ret a).
Proof. intros s r s' [= <- <-]. apply R_refl. Qed.

Lemma steps_raise {A} (e : Exn) : steps (@raise S A e).
Proof. intros s r s' [= <- <-]. apply R_refl. Qed.

Lemma steps_of_result {A} (x : Result A) : steps (@of_result S A x).
Proof. intros s r s' [= <- <-]. apply R_refl. Qed.

Lemma steps_get : steps (@get S).
Proof. intros s r s' [= <- <-]. apply R_refl. Qed.

Lemma steps_gets {A} (f : S -> A) : steps (gets f).
Proof. intros s r s' [= <- <-]. apply R_refl. Qed.

Lemma steps_bind {A B} (m : St S A) (k : A -> St S B) :
  steps m -> (forall a, steps (k a)) -> steps (bind m k).
Proof.
  intros Hm Hk s r s' H. apply bind_inv in H as [(a & s1 & H1 & H2)|(e & H1 & _)].
  - eapply R_trans; [eapply Hm, H1|eapply Hk, H2].
  - eapply Hm, H1.
Qed.

Lemma steps_try_except {A} (body : St S A) handles (handler : Exn -> St S A) :
  steps body -> (forall e, steps (handler e)) -> steps (try_except body handles handler).
Proof.
  intros Hb Hh s r s' H.
  apply try_except_inv in H as [(a & H1 & _)|(e & s1 & H1 & H2)].
  - eapply Hb, H1.
  - destruct (handles e).
    + eapply R_trans; [eapply Hb, H1|eapply Hh, H2].
    + injection H2 as <- <-. eapply Hb, H1.
Qed.

Lemma steps_when (b : bool) (m : St S unit) : steps m -> steps (when b m).
Proof. intros Hm. destruct b; [exact Hm|apply steps_ret]. Qed.

Lemma steps_for_each {A} (l : list A) (body : A -> St S unit) :
  (forall x, steps (body x)) -> steps (for_each l body).
Proof.
  intros Hb. induction l as [|x l IH]; simpl.
  - apply steps_ret.
  - apply steps_bind; [apply Hb|intros _; exact IH].
Qed.

End Steps.

(** Following the text of an action: [refl] and [trans] are the two
    facts about the relation, [prim] proves the primitive steps. *)
Ltac steps_with refl trans prim :=
  repeat first
    [ prim
    | apply (steps_ret _ refl)
    | apply (steps_raise _ refl)
    | apply (steps_of_result _ refl)
    | apply (steps_get _ refl)
    | apply (steps_gets _ refl)
    | apply (steps_bind _ trans); [ | intros ?]
    | apply (steps_try_except _ trans); [ | intros ?]
    | apply (steps_when _ refl)
    | apply (steps_for_each _ refl trans); intros ?
    | match goal with
      | |- steps _ (if ?b then _ else _) => destruct b
      | |- steps _ (match ?x with _ => _ end) => destruct x
      | |- steps _ (let '(_, _) := ?x in _) => destruct x
      end ].

(** *** What an action of the host adds to the trace *)

Section Adds.
Context (P : list Event -> Prop).
Hypothesis P_nil : P [].
Hypothesis P_app : forall a b, P a -> P b -> P (a ++ b).

Definition adds (w w' : World) : Prop :=
  exists evs, trace w' = trace w ++ evs /\ P evs.

Lemma adds_refl (w : World) : adds w w.
Proof. exists []. by rewrite (right_id_L [] (++)). Qed.

Lemma adds_trans (w1 w2 w3 : World) : adds w1 w2 -> adds w2 w3 -> adds w1 w3.
Proof.
  intros (a & Ha & HPa) (b & Hb & HPb). exists (a ++ b).
  rewrite Hb, Ha, <- app_assoc. auto.
Qed.

Lemma steps_emit (ev : Event) : P [ev] -> steps adds (emit ev).
Proof. intros HP w r w' [= <- <-]. exists [ev]. auto. Qed.

Lemma steps_os_path_exists (path : string) : steps adds (os_path_exists path).
Proof. intros w r w' [= <- <-]. apply adds_refl. Qed.

Lemma steps_os_makedirs (path : string) : steps adds (os_makedirs path).
Proof.
  intros w r w' H. apply os_makedirs_inv in H as (_ & Ht & _).
  exists []. by rewrite Ht, (right_id_L [] (++)).
Qed.

Lemma steps_open_w (path : string) : steps adds (open_w path).
Proof.
  intros [[f dn fd vs] c tr] r w'. host. exists []. rewrite (right_id_L [] (++)).
  revert H. case_bool_decide; [by intros [= <- <-]|].
  destruct (f !! path) as [[|?]|]; by intros [= <- <-].
Qed.

Lemma steps_write (path data : string) : steps adds (write path data).
Proof.
  intros [[f dn fd vs] c tr] r w'. host. exists []. rewrite (right_id_L [] (++)).
  revert H. destruct (f !! path) as [[|[?|?]]|]; by intros [= <- <-].
Qed.

Lemma steps_json_dump (path : string) (v : JVal) : steps adds (json_dump path v).
Proof.
  intros [[f dn fd vs] c tr] r w' [= <- <-]. exists [].
  by rewrite (right_id_L [] (++)).
Qed.

Lemma steps_json_load (path : string) : steps adds (json_load path).
Proof.
  intros [[f dn fd vs] c tr] r w'. host. exists []. rewrite (right_id_L [] (++)).
  revert H. destruct (f !! path) as [[|[?|?]]|]; by intros [= <- <-].
Qed.

Lemma steps_spawn (E : Env) (c : Cmd) : P [EvSpawn c] -> steps adds (spawn E c).
Proof.
  intros HP [m k tr] r w'. unfold spawn. host.
  destruct (proc E k c m); intros [= <- <-]; exists [EvSpawn c]; auto.
Qed.

Lemma steps_run_checked (E : Env) (c : Cmd) :
  P [EvSpawn c] -> steps adds (run_checked E c).
Proof.
  intros HP. unfold run_checked.
  steps_with adds_refl adds_trans ltac:(apply steps_spawn; assumption).
Qed.

End Adds.

(** Following the text of an action of the host: [nil] and [app] are the
    two facts about the property of the added events, [side] proves it of
    a single event. *)
Ltac host_steps_ex nil app side extra :=
  steps_with (adds_refl _ nil) (adds_trans _ app)
    ltac:(first
      [ extra
      | apply steps_emit; side
      | apply (steps_os_path_exists _ nil)
      | apply (steps_os_makedirs _ nil)
      | apply (steps_open_w _ nil)
      | apply (steps_write _ nil)
      | apply (steps_json_dump _ nil)
      | apply (steps_json_load _ nil)
      | apply (steps_run_checked _ nil app); side
      | apply steps_spawn; side ]).

Ltac host_steps nil app side := host_steps_ex nil app side fail.

(** *** The functions of the host that only log, and those that also run
    programs *)

Section HostFacts.
Import Installer Core.
Context (E : Env) (P : list Event -> Prop).
Hypothesis P_nil : P [].
Hypothesis P_app : forall a b, P a -> P b -> P (a ++ b).
Hypothesis P_log : forall level msg, P [EvLog level msg].

Lemma steps_save_config (config : JVal) : steps (adds P) (save_config E config).
Proof. unfold save_config. host_steps P_nil P_app ltac:(apply P_log). Qed.

Lemma steps_create_startup_script (install_dir conda_path : string) :
  steps (adds P) (create_startup_script E install_dir conda_path).
Proof. unfold create_startup_script. host_steps P_nil P_app ltac:(apply P_log). Qed.

Lemma steps_walk_packages (install_dir : string) :
  forall (t : DirTree) (root : string),
    steps (adds P) (walk_packages E install_dir root t).
Proof.
  fix IH 1. intros [dirs files] root. simpl.
  apply (steps_bind _ (adds_trans _ P_app)).
  { induction dirs as [|[d sub] r IHr].
    - apply (steps_ret _ (adds_refl _ P_nil)).
    - host_steps P_nil P_app ltac:(apply P_log). exact IHr. }
  intros packages.
  match goal with |- steps _ (if ?b then _ else _) => destruct b end.
  { apply (steps_ret _ (adds_refl _ P_nil)). }
  apply (steps_bind _ (adds_trans _ P_app)); [|intros; apply (steps_ret _ (adds_refl _ P_nil))].
  induction dirs as [|[d sub] r IHr].
  - apply (steps_ret _ (adds_refl _ P_nil)).
  - apply (steps_bind _ (adds_trans _ P_app)); [apply IH|]. intros a.
    apply (steps_bind _ (adds_trans _ P_app)); [exact IHr|].
    intros; apply (steps_ret _ (adds_refl _ P_nil)).
Qed.

(** The environment configurator, when every program it may run is
    allowed by [P]. *)
Hypothesis P_spawn : forall c, P [EvSpawn c].

Lemma steps_setup_conda_env {CB : Type} (conda_path install_dir : string)
    (enable_gpu : bool) (cb : option CB) :
  steps (adds P) (setup_conda_env E conda_path install_dir enable_gpu cb).
Proof.
  unfold setup_conda_env.
  host_steps_ex P_nil P_app ltac:(first [apply P_log | apply P_spawn])
    ltac:(apply steps_walk_packages).
Qed.

Lemma steps_call_setup_conda_env (conda_path : JVal) (install_dir : string)
    (gpu_enabled : bool) :
  steps (adds P) (InstallerTab.call_setup_conda_env E conda_path install_dir gpu_enabled).
Proof.
  unfold InstallerTab.call_setup_conda_env.
  host_steps_ex P_nil P_app ltac:(first [apply P_log | apply P_spawn])
    ltac:(apply steps_setup_conda_env).
Qed.

End HostFacts.

(** *** What an action of the application adds to the trace and shows *)

Lemma with_ui_nil (g : Window) : with_ui g [] = g.
Proof. destruct g. unfold with_ui. simpl. by rewrite (right_id_L [] (++)). Qed.

Lemma with_ui_app (g : Window) (a b : list UiEvent) :
  with_ui (with_ui g a) b = with_ui g (a ++ b).
Proof. unfold with_ui. simpl. by rewrite <- app_assoc. Qed.

Lemma show_eq (ev : UiEvent) (g : Window) : show ev g = (Ok tt, with_ui g [ev]).
Proof. reflexivity. Qed.

Lemma progress_values_app (a b : list UiEvent) :
  progress_values (a ++ b) = progress_values a ++ progress_values b.
Proof. apply omap_app. Qed.

Section Shows.
Context (P : list Event -> list UiEvent -> Prop).
Hypothesis P_nil : P [] [].
Hypothesis P_app : forall a b c d, P a b -> P c d -> P (a ++ c) (b ++ d).

Definition shows (s s' : World * Window) : Prop :=
  exists evs uievs,
    trace (fst s') = trace (fst s) ++ evs /\
    snd s' = with_ui (snd s) uievs /\
    P evs uievs.

Lemma shows_refl (s : World * Window) : shows s s.
Proof.
  exists [], []. by rewrite (right_id_L [] (++)), with_ui_nil.
Qed.

Lemma shows_trans (s1 s2 s3 : World * Window) : shows s1 s2 -> shows s2 s3 -> shows s1 s3.
Proof.
  intros (a & b & Ha & Hb & HP1) (c & d & Hc & Hd & HP2). exists (a ++ c), (b ++ d).
  rewrite Hc, Ha, Hd, Hb, <- app_assoc, with_ui_app. auto.
Qed.

(** An action of the host shows nothing. *)
Lemma steps_in_host {A} (Pw : list Event -> Prop) (m : W A) :
  (forall evs, Pw evs -> P evs []) ->
  steps (adds Pw) m -> steps shows (lift_fst m).
Proof.
  intros HP Hm [w g] r [w' g'] H. apply lift_fst_inv in H as [H ->].
  apply Hm in H as (evs & Ht & Hevs). exists evs, []. simpl.
  rewrite with_ui_nil. auto.
Qed.

(** Showing one more event adds nothing to the trace. *)
Lemma steps_show (ev : UiEvent) : P [] [ev] -> steps shows (lift_snd (show ev)).
Proof.
  intros HP [w g] r [w' g'] H. apply lift_snd_inv in H as [H ->].
  rewrite show_eq in H. injection H as <- <-. exists [], [ev]. simpl.
  by rewrite (right_id_L [] (++)).
Qed.

End Shows.

(** ** The clone, seen from the progress bar *)

Section CloneProgress.
Import Installer Core InstallerTab.
Context (E : Env).

(** No callback was invoked. *)
Definition no_callback (evs : list Event) : Prop := callbacks evs = [].

Lemma no_callback_nil : no_callback [].
Proof. reflexivity. Qed.

Lemma no_callback_app (a b : list Event) :
  no_callback a -> no_callback b -> no_callback (a ++ b).
Proof. unfold no_callback. intros Ha Hb. by rewrite callbacks_app, Ha, Hb. Qed.

(** The callback was invoked on percentages [ps], each out of 100, and
    the progress bar was set to what [clone_progress] makes of them. *)
Definition forwarded (evs : list Event) (uievs : list UiEvent) : Prop :=
  exists ps : list Z,
    callbacks evs = map (fun p => (p, 100)) ps /\
    progress_values uievs = omap clone_slice ps.

Lemma forwarded_nil : forwarded [] [].
Proof. by exists []. Qed.

Lemma forwarded_app (a : list Event) (b : list UiEvent) (c : list Event)
    (d : list UiEvent) :
  forwarded a b -> forwarded c d -> forwarded (a ++ c) (b ++ d).
Proof.
  intros (p1 & H1 & H2) (p2 & H3 & H4). exists (p1 ++ p2).
  by rewrite callbacks_app, progress_values_app, H1, H2, H3, H4, map_app, omap_app.
Qed.

Lemma forwarded_quiet (evs : list Event) : no_callback evs -> forwarded evs [].
Proof. intros H. exists []. by rewrite H. Qed.

(** What one call of [clone_progress] shows. *)
Lemma clone_progress_shows (percent : Z) (g : Window) :
  exists r uievs,
    clone_progress percent 100 g = (r, with_ui g uievs) /\
    progress_values uievs = omap clone_slice [percent].
Proof.
  unfold clone_progress, clone_slice. core. simpl.
  destruct (truediv percent 100) as [q|e].
  - destruct (int_of_float (float_mul_int q 30)) as [n|e].
    + eexists _, [UiProgress (10 + n); UiStatusLabel _]. split; [|reflexivity].
      unfold with_ui. simpl. by rewrite <- app_assoc.
    + eexists _, []. by rewrite with_ui_nil.
  - eexists _, []. by rewrite with_ui_nil.
Qed.

(** One call of the callback. *)
Lemma steps_call_clone_progress (percent : Z) :
  steps (shows forwarded) (call clone_progress percent 100).
Proof.
  intros [w g] r [w' g'] H. unfold call in H.
  apply bind_inv in H as [([] & [w1 g1] & H1 & H)|(e & H1 & _)]; cycle 1.
  { apply lift_fst_inv in H1 as [H1 _]. discriminate. }
  apply lift_fst_inv in H1 as [H1 ->]. rewrite emit_eq in H1. injection H1 as <-.
  apply lift_snd_inv in H as [H ->].
  destruct (clone_progress_shows percent g) as (r' & uievs & Hcp & Hv).
  rewrite Hcp in H. injection H as <- <-.
  exists [EvCallback percent 100], uievs. repeat split.
  exists [percent]. by split.
Qed.

(** The provisioner called with [clone_progress]: whatever its outcome,
    the progress bar was set to what the callback makes of the
    percentages it was invoked on, and to nothing else. *)
Lemma clone_bitnet_forwards (install_dir : string) :
  steps (shows forwarded) (clone_bitnet E install_dir (Some clone_progress)).
Proof.
  unfold clone_bitnet, clone_line.
  steps_with (shows_refl _ forwarded_nil) (shows_trans _ forwarded_app)
    ltac:(first
      [ apply steps_call_clone_progress
      | apply (steps_in_host forwarded no_callback); [exact forwarded_quiet|];
        host_steps no_callback_nil no_callback_app ltac:(reflexivity) ]).
Qed.

End CloneProgress.

(** ** installer_gui_tabs.py: one installation, seen from the progress bar *)

Lemma inUI_inv {A} (m : UI A) (w : World) (g : Window) r (w' : World) (g' : Window) :
  inUI m (w, g) = (r, (w', g')) -> m g = (r, g') /\ w' = w.
Proof. apply lift_snd_inv. Qed.

Lemma inW_inv {A} (m : W A) (w : World) (g : Window) r (w' : World) (g' : Window) :
  inW m (w, g) = (r, (w', g')) -> m w = (r, w') /\ g' = g.
Proof. apply lift_fst_inv. Qed.

(** One more thing shown, in a run that returned. *)
Ltac ui_step H :=
  let Hx := fresh "Hx" in
  apply bind_inv_ok in H as ([] & [? ?] & Hx & H);
  apply inUI_inv in Hx as [Hx ->];
  cbv [status_label_config progress_config button_config update_output
       messagebox_showinfo messagebox_showerror] in Hx;
  rewrite show_eq in Hx; injection Hx as <-.

(** One more thing shown, in a run of any outcome: showing never raises. *)
Ltac ui_total H :=
  let Hx := fresh "Hx" in
  apply bind_inv in H as [([] & [? ?] & Hx & H)|(? & Hx & _)];
  [ apply inUI_inv in Hx as [Hx ->];
    cbv [status_label_config progress_config button_config update_output
         messagebox_showinfo messagebox_showerror] in Hx;
    rewrite show_eq in Hx; injection Hx as <-
  | apply inUI_inv in Hx as [Hx _]; discriminate Hx ].

(** The last thing shown by an action. *)
Ltac ui_last H :=
  apply inUI_inv in H as [H ->];
  cbv [status_label_config progress_config button_config update_output
       messagebox_showinfo messagebox_showerror] in H;
  rewrite show_eq in H; injection H as <- <-.

Section InstallProgress.
Import Installer Core InstallerTab.
Context (E : Env).

Lemma no_callback_log (level : LogLevel) (msg : string) : no_callback [EvLog level msg].
Proof. reflexivity. Qed.

Lemma no_callback_spawn (c : Cmd) : no_callback [EvSpawn c].
Proof. reflexivity. Qed.

(** The loop that walks the bar from 41 to 79. *)
Lemma progress_loop (l : list Z) (g : Window) :
  for_each l (fun i => progress_config i;; show UiUpdate;; show UiSleep) g =
  (Ok tt, with_ui g (concat (map (fun i => [UiProgress i; UiUpdate; UiSleep]) l))).
Proof.
  revert g. induction l as [|i l IH]; intros g; simpl.
  - by rewrite with_ui_nil.
  - rewrite (bind_ok _ _ _ tt (with_ui g [UiProgress i; UiUpdate; UiSleep])).
    + by rewrite IH, with_ui_app.
    + unfold progress_config.
      rewrite (bind_ok _ _ _ tt (with_ui g [UiProgress i])) by apply show_eq.
      rewrite (bind_ok _ _ _ tt (with_ui (with_ui g [UiProgress i]) [UiUpdate]))
        by apply show_eq.
      by rewrite show_eq, !with_ui_app.
Qed.

Lemma progress_loop_values (l : list Z) :
  progress_values (concat (map (fun i => [UiProgress i; UiUpdate; UiSleep]) l)) = l.
Proof. induction l as [|i l IH]; [done|]. simpl. by rewrite <- IH at 2. Qed.

(** The first step, whatever its outcome: the bar is set to 10, then to
    what the callback makes of the percentages it is invoked on. *)
Lemma clone_step_shows (install_dir : string) (w : World) (g : Window) r
    (w' : World) (g' : Window) :
  clone_step E install_dir (w, g) = (r, (w', g')) ->
  exists (evs : list Event) (uievs : list UiEvent) (ps : list Z),
    trace w' = trace w ++ evs /\
    callbacks evs = map (fun p => (p, 100)) ps /\
    g' = with_ui g uievs /\
    progress_values uievs = 10 :: omap clone_slice ps.
Proof.
  intros H. unfold clone_step in H. ui_total H. ui_total H.
  assert (exists b, clone_bitnet E install_dir (Some clone_progress)
            (w, with_ui (with_ui g [UiStatusLabel "Cloning BitNet repository..."])
                  [UiProgress 10]) = (b, (w', g'))) as [b H3].
  { apply bind_inv in H as [(b & [w3 g3] & H3 & H)|(e & H3 & _)]; [|eauto].
    injection H as _ <- <-. eauto. }
  apply clone_bitnet_forwards in H3 as (evs & ui3 & Ht & Hg & ps & Hcb & Hpv).
  simpl in Ht, Hg. subst g'. rewrite !with_ui_app.
  exists evs. eexists. exists ps. repeat split; [done|done|].
  by rewrite !progress_values_app, Hpv.
Qed.

(** The second step: the bar is set to 40, then to 41 up to 79 unless
    the configuration has no path of the environment manager; the
    configurator itself shows nothing. *)
Lemma environment_step_shows (install_dir : string) (w : World) (g : Window) r
    (w' : World) (g' : Window) :
  environment_step E install_dir (w, g) = (r, (w', g')) ->
  exists (evs : list Event) (uievs : list UiEvent),
    trace w' = trace w ++ evs /\ callbacks evs = [] /\
    g' = with_ui g uievs /\
    (progress_values uievs = 40 :: range_41_80 \/
     progress_values uievs = [40] /\ exists e, r = Raise e).
Proof.
  intros H. unfold environment_step in H.
  remember range_41_80 as rg eqn:Hrg in *.
  ui_total H. ui_total H.
  apply bind_inv in H as [(g4 & [w4 g4'] & Hx & H)|(? & Hx & _)];
    [|apply inUI_inv in Hx as [Hx _]; discriminate Hx].
  apply inUI_inv in Hx as [Hx ->]. injection Hx as <- <-.
  apply bind_inv in H as [(conda_path & [w5 g5] & H5 & H)|(e & H5 & ->)]; cycle 1.
  { revert H5. match goal with |- context [match ?x with _ => _ end] => destruct x end;
      intros [= _ <- <-]. rewrite !with_ui_app.
    exists []. eexists. rewrite (right_id_L [] (++)). repeat split. right. eauto. }
  assert ((w5, g5) = (w, with_ui (with_ui g
            [UiStatusLabel "Setting up conda environment..."]) [UiProgress 40])) as Heq.
  { revert H5. match goal with |- context [match ?x with _ => _ end] => destruct x end;
      by intros [= _ <- <-]. }
  injection Heq as -> ->. clear H5.
  apply bind_inv in H as [([] & [w6 g6] & H6 & H)|(e & H6 & _)]; cycle 1.
  { apply inUI_inv in H6 as [H6 _]. rewrite progress_loop in H6. discriminate H6. }
  apply inUI_inv in H6 as [H6 ->]. rewrite progress_loop in H6. injection H6 as <-.
  assert (exists b, inW (call_setup_conda_env E conda_path install_dir
                           (Gui.gpu_enabled (with_ui (with_ui g
                              [UiStatusLabel "Setting up conda environment..."])
                              [UiProgress 40])))
                      (w, with_ui (with_ui (with_ui g
                            [UiStatusLabel "Setting up conda environment..."])
                            [UiProgress 40])
                          (concat (map (fun i => [UiProgress i; UiUpdate; UiSleep]) rg)))
                    = (b, (w', g'))) as [b H7].
  { apply bind_inv in H as [(b & [w7 g7] & H7 & H)|(e & H7 & _)]; [|eauto].
    injection H as _ <- <-. eauto. }
  apply inW_inv in H7 as [H7 ->].
  apply (steps_call_setup_conda_env E no_callback no_callback_nil no_callback_app
           no_callback_log no_callback_spawn) in H7 as (evs7 & Ht7 & Hq7).
  rewrite !with_ui_app. exists evs7. eexists. repeat split; [done|done|]. left.
  by rewrite !progress_values_app, progress_loop_values.
Qed.

(** The last thing the generator of the launch script does, when it
    returns, is to log where the script is. *)
Lemma create_startup_script_logs (install_dir conda_path : string) (w : World)
    (startup_path : string) (w' : World) :
  create_startup_script E install_dir conda_path w = (Ok startup_path, w') ->
  exists pre,
    trace w' = trace w ++ pre ++
               [EvLog INFO ("Startup script created at " +:+ startup_path)].
Proof.
  intros H. unfold create_startup_script in H.
  apply bind_inv_ok in H as ([] & w1 & H1 & H). rewrite logger_info_eq in H1.
  injection H1 as <-.
  apply try_except_inv in H as [(a & H & [= <-])|(e & s1 & _ & H)]; cycle 1.
  { simpl in H. apply bind_inv_ok in H as (? & ? & _ & H). discriminate. }
  apply bind_inv_ok in H as ([] & w2 & H2 & H).
  apply (steps_open_w (fun _ => True) I) in H2 as (evs2 & Ht2 & _).
  apply bind_inv_ok in H as ([] & w3 & H3 & H).
  apply (steps_for_each (adds (fun _ => True)) (adds_refl _ I)
           (adds_trans _ (fun _ _ _ _ => I))) in H3 as (evs3 & Ht3 & _);
    [|intros l; apply (steps_write (fun _ => True) I)].
  apply bind_inv_ok in H as ([] & w4 & H4 & H). rewrite logger_info_eq in H4.
  injection H4 as <-. injection H as <- <-.
  exists ([EvLog INFO "Creating BitNet startup script"] ++ evs2 ++ evs3).
  simpl. rewrite Ht3, Ht2. simpl. by rewrite <- !app_assoc.
Qed.

(** The third step: the bar is set to 80, and to 100 once the launch
    script is written. *)
Lemma script_step_shows (install_dir : string) (conda_path : JVal) (w : World)
    (g : Window) r (w' : World) (g' : Window) :
  script_step E install_dir conda_path (w, g) = (r, (w', g')) ->
  exists (evs : list Event) (uievs : list UiEvent),
    trace w' = trace w ++ evs /\ callbacks evs = [] /\
    g' = with_ui g uievs /\
    (r = Ok tt /\ progress_values uievs = [80; 100] /\
       (exists startup_path,
          In (EvLog INFO ("Startup script created at " +:+ startup_path)) evs) \/
     (exists e, r = Raise e) /\ progress_values uievs = [80]).
Proof.
  intros H. unfold script_step in H. ui_total H. ui_total H.
  apply bind_inv in H as [(path & [w3 g3] & H3 & H)|(e & H3 & ->)]; cycle 1.
  { unfold of_result in H3. injection H3 as _ <- <-. rewrite !with_ui_app.
    exists []. eexists. rewrite (right_id_L [] (++)). repeat split. right. eauto. }
  unfold of_result in H3. injection H3 as _ <- <-.
  apply bind_inv in H as [(startup_path & [w4 g4] & H4 & H)|(e & H4 & ->)]; cycle 1.
  { apply inW_inv in H4 as [H4 ->].
    apply (steps_create_startup_script E no_callback no_callback_nil no_callback_app
             no_callback_log) in H4 as (evs4 & Ht4 & Hq4).
    rewrite !with_ui_app. exists evs4. eexists. repeat split; [done|done|]. right. eauto. }
  apply inW_inv in H4 as [H4 ->].
  pose proof H4 as H4'.
  apply (steps_create_startup_script E no_callback no_callback_nil no_callback_app
           no_callback_log) in H4 as (evs4 & Ht4 & Hq4).
  ui_total H. ui_total H. ui_total H. ui_last H.
  rewrite !with_ui_app. exists evs4. eexists. repeat split; [done|done|]. left.
  repeat split. exists startup_path.
  apply create_startup_script_logs in H4' as (pre & Ht4').
  rewrite Ht4 in Ht4'. apply app_inv_head in Ht4'. subst evs4.
  apply in_or_app. right. by left.
Qed.

(** The [except] clause shows no progress. *)
Lemma report_failure_shows (e : Exn) (w : World) (g : Window) r (w' : World)
    (g' : Window) :
  report_failure e (w, g) = (r, (w', g')) ->
  r = Ok tt /\
  exists (evs : list Event) (uievs : list UiEvent),
    trace w' = trace w ++ evs /\ callbacks evs = [] /\
    g' = with_ui g uievs /\ progress_values uievs = [].
Proof.
  intros H. unfold report_failure in H.
  apply bind_inv in H as [([] & [w1 g1] & Hx & H)|(? & Hx & _)];
    [|apply inW_inv in Hx as [Hx _]; discriminate Hx].
  apply inW_inv in Hx as [Hx ->]. rewrite logger_error_eq in Hx. injection Hx as <-.
  ui_total H. ui_total H. ui_total H. ui_last H.
  split; [done|]. rewrite !with_ui_app. eexists [_], _. by repeat split.
Qed.

(** What the three steps have done when none of them raised: the
    callback was invoked on some percentages, and the bar was set to 10,
    to what the callback makes of them, to 40, to 41 up to 79, to 80 and
    to 100, in this order. *)
Lemma install_bitnet_steps_ok (w : World) (g : Window) (w' : World) (g' : Window) :
  install_bitnet_steps E (w, g) = (Ok tt, (w', g')) ->
  exists (evs : list Event) (uievs : list UiEvent) (ps : list Z),
    trace w' = trace w ++ evs /\
    callbacks evs = map (fun p => (p, 100)) ps /\
    ui g' = ui g ++ uievs /\
    progress_values uievs =
      10 :: omap clone_slice ps ++ 40 :: range_41_80 ++ [80; 100].
Proof.
  intros H. unfold install_bitnet_steps in H.
  apply bind_inv_ok in H as (g0 & [w1 g1] & H1 & H).
  apply inUI_inv in H1 as [H1 ->]. injection H1 as <- <-.
  apply bind_inv_ok in H as ([] & [w2 g2] & H2 & H).
  apply inW_inv in H2 as [H2 ->]. apply os_makedirs_inv in H2 as (_ & Ht2 & _).
  apply bind_inv_ok in H as ([] & [w3 g3] & H3 & H).
  apply clone_step_shows in H3 as (evs3 & ui3 & ps & Ht3 & Hcb3 & -> & Hp3).
  apply bind_inv_ok in H as (conda_path & [w4 g4] & H4 & H).
  apply environment_step_shows in H4 as (evs4 & ui4 & Ht4 & Hcb4 & -> & Hp4).
  destruct Hp4 as [Hp4|[_ [e [=]]]].
  apply script_step_shows in H as (evs5 & ui5 & Ht5 & Hcb5 & -> & Hp5).
  destruct Hp5 as [(_ & Hp5 & _)|[[e [=]] _]].
  rewrite !with_ui_app. exists (evs3 ++ evs4 ++ evs5), (ui3 ++ ui4 ++ ui5), ps.
  split. { rewrite Ht5, Ht4, Ht3, Ht2. by rewrite <- !app_assoc. }
  split. { rewrite !callbacks_app, Hcb3, Hcb4, Hcb5. by rewrite !(right_id_L [] (++)). }
  split; [reflexivity|].
  rewrite !progress_values_app, Hp3, Hp4, Hp5.
  change (10 :: omap clone_slice ps) with ([10] ++ omap clone_slice ps).
  change (40 :: range_41_80) with ([40] ++ range_41_80).
  by rewrite <- !app_assoc.
Qed.

(** Pressing the button: the settings are saved, the bar is set to 0 and
    the thread is started; nothing here raises. *)
Lemma install_bitnet_ok (w : World) (g : Window) r (w1 : World) (g1 : Window) :
  install_bitnet E (w, g) = (r, (w1, g1)) ->
  r = Ok tt /\
  exists (evs : list Event) (uievs : list UiEvent),
    trace w1 = trace w ++ evs /\ callbacks evs = [] /\
    ui g1 = ui g ++ uievs /\ progress_values uievs = [0] /\
    Gui.install_dir g1 = Gui.install_dir g.
Proof.
  intros H. unfold install_bitnet in H.
  apply bind_inv in H as [(g0 & [w2 g2] & Hx & H)|(? & Hx & _)];
    [|apply inUI_inv in Hx as [Hx _]; discriminate Hx].
  apply inUI_inv in Hx as [Hx ->]. injection Hx as <- <-.
  apply bind_inv in H as [([] & [w3 g3] & Hx & H)|(? & Hx & _)];
    [|apply inUI_inv in Hx as [Hx _]; discriminate Hx].
  apply inUI_inv in Hx as [Hx ->]. injection Hx as <-.
  apply bind_inv in H as [([] & [w4 g4] & Hx & H)|(? & Hx & _)];
    [|apply inUI_inv in Hx as [Hx _]; discriminate Hx].
  apply inUI_inv in Hx as [Hx ->]. injection Hx as <-.
  apply bind_inv in H as [(g5 & [w5 g5'] & Hx & H)|(? & Hx & _)];
    [|apply inUI_inv in Hx as [Hx _]; discriminate Hx].
  apply inUI_inv in Hx as [Hx ->]. injection Hx as <- <-.
  apply bind_inv in H as [(b & [w6 g6] & Hx & H)|(? & Hx & _)]; cycle 1.
  { apply inW_inv in Hx as [Hx _].
    match type of Hx with save_config E ?v ?w0 = _ =>
      destruct (save_config_total E v w0) as (b & w1' & Hs) end.
    rewrite Hs in Hx. discriminate Hx. }
  apply inW_inv in Hx as [Hx ->].
  apply (steps_save_config E no_callback no_callback_nil no_callback_app no_callback_log)
    in Hx as (evs & Ht & Hq).
  apply bind_inv in H as [([] & [w7 g7] & Hx & H)|(? & Hx & _)];
    [|apply inUI_inv in Hx as [Hx _]; discriminate Hx].
  apply inUI_inv in Hx as [Hx ->]. injection Hx as <-.
  apply bind_inv in H as [([] & [w8 g8] & Hx & H)|(? & Hx & _)];
    [|apply inUI_inv in Hx as [Hx _]; discriminate Hx].
  apply inUI_inv in Hx as [Hx ->]. injection Hx as <-.
  apply bind_inv in H as [([] & [w9 g9] & Hx & H)|(? & Hx & _)];
    [|apply inUI_inv in Hx as [Hx _]; discriminate Hx].
  apply inUI_inv in Hx as [Hx ->]. injection Hx as <-.
  apply bind_inv in H as [([] & [w10 g10] & Hx & H)|(? & Hx & _)];
    [|apply inUI_inv in Hx as [Hx _]; discriminate Hx].
  apply inUI_inv in Hx as [Hx ->]. injection Hx as <-.
  apply inUI_inv in H as [H ->]. injection H as <- <-.
  split; [done|]. exists evs. eexists. simpl.
  split; [done|]. split; [done|]. rewrite <- !app_assoc. by repeat split.
Qed.

(** The table of the rescaling: for a percentage between 0 and 100 the
    float computation of [clone_progress] agrees with the integer
    quotient. *)
Lemma clone_slice_table :
  forallb (fun n => match clone_slice (Z.of_nat n) with
                    | Some v => v =? 10 + (30 * Z.of_nat n) / 100
                    | None => false
                    end) (seq 0 101) = true.
Proof. vm_compute. reflexivity. Qed.

Lemma clone_slice_exact (p : Z) :
  0 <= p <= 100 -> clone_slice p = Some (10 + (30 * p) / 100).
Proof.
  intros Hp. pose proof clone_slice_table as H.
  rewrite forallb_forall in H. specialize (H (Z.to_nat p)).
  rewrite Z2Nat.id in H by lia.
  destruct (clone_slice p) as [v|].
  - rewrite <- (proj1 (Z.eqb_eq _ _) (H ltac:(apply in_seq; lia))). done.
  - discriminate H. apply in_seq. lia.
Qed.

(** A list that is sorted and lies between two bounds. *)
Definition between (lo hi : Z) (l : list Z) : Prop :=
  StronglySorted Z.le l /\ Forall (fun v => lo <= v <= hi) l.

Lemma between_app (a b b' c : Z) (l1 l2 : list Z) :
  between a b l1 -> between b' c l2 -> a <= b -> b <= b' -> b' <= c ->
  between a c (l1 ++ l2).
Proof.
  intros [Hs1 Hb1] [Hs2 Hb2] Hab Hbb Hbc. split.
  - apply StronglySorted_app_2; [|done|done].
    intros x1 x2 H1 H2. rewrite Forall_forall in Hb1, Hb2.
    apply Hb1 in H1. apply Hb2 in H2. lia.
  - apply Forall_app. split; (eapply Forall_impl; [eassumption|]); simpl; lia.
Qed.

Lemma range_41_80_between : between 41 79 range_41_80.
Proof.
  split.
  - apply (bool_decide_unpack _). by vm_compute.
  - apply (bool_decide_unpack _). by vm_compute.
Qed.

(** Percentages between 0 and 100, in order, are shown as values between
    10 and 40, in order. *)
Lemma cloned_between (ps : list Z) :
  Forall (fun p => 0 <= p <= 100) ps -> Sorted Z.le ps ->
  between 10 40 (omap clone_slice ps).
Proof.
  intros Hb Hs. apply Sorted_StronglySorted in Hs; [|intros ???; lia].
  induction Hs as [|p ps Hs IH Hall].
  - split; constructor.
  - apply Forall_cons in Hb as [Hp Hb]. destruct (IH Hb) as [Hs' Hb'].
    simpl. rewrite (clone_slice_exact p Hp). simpl.
    assert (10 <= 10 + 30 * p / 100 <= 40) as Hv.
    { split; [pose proof (Z.div_pos (30 * p) 100); lia|].
      assert (30 * p / 100 <= 30 * 100 / 100) by (apply Z.div_le_mono; lia).
      change (30 * 100 / 100) with 30 in *. lia. }
    split.
    + constructor; [done|]. clear IH Hs' Hb'.
      induction ps as [|q ps IHps]; [constructor|].
      apply Forall_cons in Hb as [Hq Hb]. apply Forall_cons in Hall as [Hpq Hall].
      apply StronglySorted_inv in Hs as [Hs _].
      simpl. rewrite (clone_slice_exact q Hq). simpl. constructor; [|by apply IHps].
      assert (30 * p / 100 <= 30 * q / 100) by (apply Z.div_le_mono; lia). lia.
    + by constructor.
Qed.

(** C2, as the code has it.  In an installation whose three steps all
    succeed, and in which the percentages the clone reports to the
    callback lie between 0 and 100 and do not decrease, the values the
    progress bar is set to do not decrease and end at 100: 0 and 10,
    then the clone's values between 10 and 40, then 40 and 41 up to 79
    for the environment, then 80 and 100 for the launch script. *)
Theorem install_progress_monotone (w : World) (g : Window) (w1 : World) (g1 : Window)
    (w' : World) (g' : Window) :
  install_bitnet E (w, g) = (Ok tt, (w1, g1)) ->
  install_bitnet_steps E (w1, g1) = (Ok tt, (w', g')) ->
  Forall (fun c => 0 <= fst c <= 100) (callbacks (trace_since w w')) ->
  Sorted Z.le (map fst (callbacks (trace_since w w'))) ->
  let delivered := progress_values (ui_since g g') in
  install_bitnet_run E (w, g) = (Ok tt, (w', g')) /\
  StronglySorted Z.le delivered /\
  last delivered = Some 100 /\
  exists cloned,
    delivered = 0 :: 10 :: cloned ++ 40 :: range_41_80 ++ [80; 100] /\
    Forall (fun v => 10 <= v <= 40) cloned /\
    Forall (fun v => 41 <= v <= 79) range_41_80.
Proof.
  intros Hpress Hsteps Hbound Hsorted delivered.
  destruct (install_bitnet_ok _ _ _ _ _ Hpress)
    as (_ & evs0 & ui0 & Ht0 & Hq0 & Hu0 & Hp0 & _).
  destruct (install_bitnet_steps_ok _ _ _ _ Hsteps)
    as (evs & uievs & ps & Ht & Hcb & Hu & Hpv).
  assert (trace_since w w' = evs0 ++ evs) as Htr.
  { apply trace_since_app. by rewrite Ht, Ht0, <- app_assoc. }
  assert (ui_since g g' = ui0 ++ uievs) as Hui.
  { apply ui_since_app. by rewrite Hu, Hu0, <- app_assoc. }
  rewrite Htr, callbacks_app, Hq0, Hcb in Hbound, Hsorted. simpl in Hbound, Hsorted.
  rewrite map_map in Hsorted. simpl in Hsorted. rewrite map_id in Hsorted.
  apply Forall_map in Hbound. simpl in Hbound.
  destruct (cloned_between ps Hbound Hsorted) as [Hcs Hcb'].
  assert (delivered = 0 :: 10 :: omap clone_slice ps ++ 40 :: range_41_80 ++ [80; 100])
    as Hd.
  { unfold delivered. by rewrite Hui, progress_values_app, Hp0, Hpv. }
  split.
  { unfold install_bitnet_run, _install_bitnet_thread.
    rewrite (bind_ok _ _ _ _ _ Hpress). by rewrite (try_except_ok _ _ _ _ _ _ Hsteps). }
  assert (between 0 100 delivered) as [Hsd _].
  { rewrite Hd.
    change (0 :: 10 :: omap clone_slice ps ++ 40 :: range_41_80 ++ [80; 100])
      with ([0; 10] ++ omap clone_slice ps ++ [40] ++ range_41_80 ++ [80; 100]).
    apply (between_app 0 10 10 100); [| |lia..].
    { split; [repeat constructor; lia|repeat constructor; lia]. }
    apply (between_app 10 40 40 100); [done| |lia..].
    apply (between_app 40 40 41 100); [| |lia..].
    { split; repeat constructor; lia. }
    apply (between_app 41 79 80 100); [apply range_41_80_between| |lia..].
    split; repeat constructor; lia. }
  split; [done|]. split.
  { rewrite Hd. rewrite !last_cons, last_app, last_cons, last_app. done. }
  exists (omap clone_slice ps). split; [done|]. split; [done|].
  apply range_41_80_between.
Qed.

(** *** The end-to-end scenario: three lines of progress *)

(** What [clone_progress] shows for a percentage that it turns into
    [value]. *)
Definition shown_progress (percent value : Z) : list UiEvent :=
  [UiProgress value;
   UiStatusLabel ("Cloning BitNet repository... " +:+ str_of_Z percent +:+
                  "/" +:+ str_of_Z 100 +:+ " objects")].

Lemma clone_progress_at (percent value : Z) (g : Window) :
  clone_slice percent = Some value ->
  clone_progress percent 100 g = (Ok tt, with_ui g (shown_progress percent value)).
Proof.
  unfold clone_slice, clone_progress, shown_progress. core.
  destruct (truediv percent 100) as [q|?]; [|discriminate].
  destruct (int_of_float (float_mul_int q 30)) as [n|?]; [|discriminate].
  intros [= <-]. unfold with_ui. simpl. by rewrite <- app_assoc.
Qed.

(** One call of the callback on a percentage it accepts. *)
Lemma call_clone_progress_at (percent value : Z) (w : World) (g : Window) :
  clone_slice percent = Some value ->
  call clone_progress percent 100 (w, g) =
  (Ok tt, (with_trace w [EvCallback percent 100],
           with_ui g (shown_progress percent value))).
Proof.
  intros Hv. unfold call.
  rewrite (bind_ok _ _ _ tt (with_trace w [EvCallback percent 100], g)) by reflexivity.
  rewrite lift_snd_eq, (clone_progress_at _ _ _ Hv). reflexivity.
Qed.

(** One line of the clone's output that reports a percentage. *)
Lemma clone_line_at (line : string) (percent value : Z) (w : World) (g : Window) :
  str_in "Receiving objects" line && str_in "%" line = true ->
  parse_percent line = Ok percent ->
  clone_slice percent = Some value ->
  clone_line clone_progress line (w, g) =
  (Ok tt, (with_trace w [EvLog DEBUG ("Git output: " +:+ strip line);
                         EvCallback percent 100],
           with_ui g (shown_progress percent value))).
Proof.
  intros Hm Hp Hv. unfold clone_line.
  rewrite (bind_ok _ _ _ tt (logged w DEBUG ("Git output: " +:+ strip line), g))
    by reflexivity.
  rewrite Hm. unfold when, try_except.
  rewrite (bind_ok _ _ _ percent (logged w DEBUG ("Git output: " +:+ strip line), g))
    by (unfold of_result; by rewrite Hp).
  rewrite (call_clone_progress_at _ _ _ _ Hv).
  unfold logged, with_trace. simpl. by rewrite <- app_assoc.
Qed.

(** The loop of the provisioner over the three lines of the scenario. *)
Lemma three_lines_loop (w : World) (g : Window) :
  for_each (readlines Demo.three_lines) (clone_line clone_progress) (w, g) =
  (Ok tt, (with_trace w Demo.three_lines_trace, with_ui g Demo.three_lines_ui)).
Proof.
  change (readlines Demo.three_lines) with
    ["Receiving objects: 10%" +:+ nl; "Receiving objects: 55%" +:+ nl;
     "Receiving objects: 100%" +:+ nl].
  simpl for_each.
  rewrite (bind_ok _ _ _ _ _ (clone_line_at ("Receiving objects: 10%" +:+ nl) 10 13 _ _
                                eq_refl eq_refl eq_refl)).
  rewrite (bind_ok _ _ _ _ _ (clone_line_at ("Receiving objects: 55%" +:+ nl) 55 26 _ _
                                eq_refl eq_refl eq_refl)).
  rewrite (bind_ok _ _ _ _ _ (clone_line_at ("Receiving objects: 100%" +:+ nl) 100 40 _ _
                                eq_refl eq_refl eq_refl)).
  unfold ret, with_trace. simpl. rewrite !with_ui_app, <- !app_assoc. reflexivity.
Qed.

(** A fresh clone that exits with zero, with a callback that accepts 0
    and 100 out of 100 and whose effect over the lines of the error
    stream is known: the provisioner returns [True]; the callback was
    invoked on 0, on what the lines made it, and on 100. *)
Lemma clone_bitnet_success (install_dir : string) (f : @Callback Window) (w : World)
    (g g1 g2 g3 : Window) (out err : string) (after : Machine) (evs : list Event) :
  fs (machine w) !! install_dir = Some Dir ->
  fs (machine w) !! path_join E install_dir ".git" = None ->
  proc E (clock w) (mkCmd ["git"; "clone"; "--recursive"; "--progress"; BITNET_REPO;
                           install_dir] None false) (machine w)
    = Exited 0 out err after ->
  f 0 100 g = (Ok tt, g1) ->
  (forall w1, for_each (readlines err) (clone_line f) (w1, g1) =
              (Ok tt, (with_trace w1 evs, g2))) ->
  f 100 100 g2 = (Ok tt, g3) ->
  exists w' evs',
    clone_bitnet E install_dir (Some f) (w, g) = (Ok true, (w', g3)) /\
    trace w' = trace w ++ evs' /\
    callbacks evs' = (0, 100) :: callbacks evs ++ [(100, 100)] /\
    machine w' = after.
Proof.
  destruct w as [[f0 dn fd vs] c tr]. simpl. intros Hdir Hgit Hproc H0 Hloop H100.
  unfold clone_bitnet, trace_since. core. rewrite Hdir. core. rewrite Hgit.
  rewrite bool_decide_false by (intros [? ?]; discriminate). core.
  rewrite H0. core. rewrite Hproc. core.
  match goal with |- context [for_each ?l ?b ?s] =>
    pose proof (Hloop (fst s)) as Hl end.
  simpl in Hl. rewrite Hl. unfold with_trace. simpl. core. rewrite H100. core.
  eexists _, _. split; [reflexivity|]. simpl.
  rewrite <- !app_assoc. split; [reflexivity|]. split; [|reflexivity].
  simpl. rewrite callbacks_app. reflexivity.
Qed.

Lemma range_41_80_below (v : Z) : In v range_41_80 -> 41 <= v <= 79.
Proof.
  unfold range_41_80. intros H. apply in_map_iff in H as (i & <- & Hi).
  apply in_seq in Hi. lia.
Qed.

(** The first step on an existing directory without .git, when the clone
    exits with zero after printing the three lines. *)
Lemma clone_step_three_lines (install_dir : string) (w : World) (g : Window)
    (out : string) (after : Machine) :
  fs (machine w) !! install_dir = Some Dir ->
  fs (machine w) !! path_join E install_dir ".git" = None ->
  proc E (clock w) (mkCmd ["git"; "clone"; "--recursive"; "--progress"; BITNET_REPO;
                           install_dir] None false) (machine w)
    = Exited 0 out Demo.three_lines after ->
  exists (w' : World) (evs : list Event) (uievs : list UiEvent),
    clone_step E install_dir (w, g) = (Ok tt, (w', with_ui g uievs)) /\
    trace w' = trace w ++ evs /\
    callbacks evs = [(0, 100); (10, 100); (55, 100); (100, 100); (100, 100)] /\
    progress_values uievs = [10; 10] ++ [13; 26; 40] ++ [40].
Proof.
  intros Hdir Hgit Hproc.
  set (g2 := with_ui (with_ui g [UiStatusLabel "Cloning BitNet repository..."])
               [UiProgress 10]).
  destruct (clone_bitnet_success install_dir clone_progress w g2
              (with_ui g2 (shown_progress 0 10))
              (with_ui (with_ui g2 (shown_progress 0 10)) Demo.three_lines_ui)
              (with_ui (with_ui (with_ui g2 (shown_progress 0 10)) Demo.three_lines_ui)
                 (shown_progress 100 40))
              out Demo.three_lines after Demo.three_lines_trace Hdir Hgit Hproc)
    as (w' & evs & Hc & Ht & Hcb & _).
  { by apply clone_progress_at. }
  { intros w1. apply three_lines_loop. }
  { by apply clone_progress_at. }
  exists w', evs. eexists. split; [|split; [exact Ht|split; [exact Hcb|]]].
  - unfold clone_step.
    rewrite (bind_ok _ _ _ tt
               (w, with_ui g [UiStatusLabel "Cloning BitNet repository..."]))
      by reflexivity.
    rewrite (bind_ok _ _ _ tt (w, g2)) by reflexivity.
    rewrite (bind_ok _ _ _ _ _ Hc). unfold ret, g2. rewrite !with_ui_app. reflexivity.
  - reflexivity.
Qed.

(** C3, as the code has it.  On an existing target directory without
    .git, when the clone exits with zero after printing the three lines
    'Receiving objects: 10%', '... 55%' and '... 100%', the callback is
    invoked on 0, 10, 55, 100 and 100 out of 100, and the progress bar
    is set to 10 and 10, then to 13, 26 and 40 for the three lines, then
    to 40; it is set to 100 only in a run whose three steps all
    returned, as the last value, after the launch script was written. *)
Theorem install_three_lines (w : World) (g : Window) (out : string) (after : Machine) :
  fs (machine w) !! Gui.install_dir g = Some Dir ->
  fs (machine w) !! path_join E (Gui.install_dir g) ".git" = None ->
  proc E (clock w) (mkCmd ["git"; "clone"; "--recursive"; "--progress"; BITNET_REPO;
                           Gui.install_dir g] None false) (machine w)
    = Exited 0 out Demo.three_lines after ->
  let res := _install_bitnet_thread E (w, g) in
  let delivered := progress_values (ui_since g (snd (snd res))) in
  fst res = Ok tt /\
  callbacks (trace_since w (fst (snd res))) =
    [(0, 100); (10, 100); (55, 100); (100, 100); (100, 100)] /\
  exists rest,
    delivered = [10; 10] ++ [13; 26; 40] ++ [40] ++ rest /\
    (In 100 delivered ->
     install_bitnet_steps E (w, g) = (Ok tt, snd res) /\
     rest = 40 :: range_41_80 ++ [80; 100] /\
     exists startup_path,
       In (EvLog INFO ("Startup script created at " +:+ startup_path))
          (trace_since w (fst (snd res)))).
Proof.
  intros Hdir Hgit Hproc.
  destruct (clone_step_three_lines _ w g out after Hdir Hgit Hproc)
    as (w3 & evs3 & ui3 & H3 & Ht3 & Hcb3 & Hp3).
  assert (install_bitnet_steps E (w, g) =
          bind (environment_step E (Gui.install_dir g))
               (script_step E (Gui.install_dir g)) (w3, with_ui g ui3)) as Hsteps.
  { unfold install_bitnet_steps.
    rewrite (bind_ok _ _ _ g (w, g)) by reflexivity.
    rewrite (bind_ok _ _ _ tt (w, g))
      by (unfold inW; by rewrite lift_fst_eq, (os_makedirs_dir _ _ Hdir)).
    by rewrite (bind_ok _ _ _ _ _ H3). }
  assert (Forall (fun v => v <> 100) range_41_80) as Hno.
  { apply List.Forall_forall. intros v Hv. apply range_41_80_below in Hv. lia. }
  remember range_41_80 as rg eqn:Hrg in *.
  unfold _install_bitnet_thread.
  destruct (environment_step E (Gui.install_dir g) (w3, with_ui g ui3))
    as [[conda_path|e] [w4 g4]] eqn:H4.
  - destruct (environment_step_shows _ _ _ _ _ _ H4)
      as (evs4 & ui4 & Ht4 & Hcb4 & -> & Hp4).
    rewrite <- Hrg in Hp4. destruct Hp4 as [Hp4|[_ [e [=]]]].
    rewrite (bind_ok _ _ _ _ _ H4) in Hsteps.
    destruct (script_step E (Gui.install_dir g) conda_path
                (w4, with_ui (with_ui g ui3) ui4)) as [[[]|e] [w5 g5]] eqn:H5.
    + destruct (script_step_shows _ _ _ _ _ _ _ H5)
        as (evs5 & ui5 & Ht5 & Hcb5 & -> & Hp5).
      destruct Hp5 as [(_ & Hp5 & sp & Hsp)|[[e [=]] _]].
      rewrite (try_except_ok _ _ _ _ _ _ Hsteps). simpl.
      rewrite (trace_since_app w w5 (evs3 ++ evs4 ++ evs5))
        by (by rewrite Ht5, Ht4, Ht3, <- !app_assoc).
      rewrite !with_ui_app, (ui_since_app g _ (ui3 ++ ui4 ++ ui5)) by reflexivity.
      rewrite !callbacks_app, Hcb3, Hcb4, Hcb5, !progress_values_app, Hp3, Hp4, Hp5.
      split; [done|]. split; [done|].
      exists (40 :: rg ++ [80; 100]). split.
      { rewrite <- !app_assoc. reflexivity. }
      intros _. split; [by rewrite Hsteps, ?H5, !with_ui_app|]. split; [done|].
      exists sp. rewrite !in_app_iff. auto.
    + destruct (script_step_shows _ _ _ _ _ _ _ H5)
        as (evs5 & ui5 & Ht5 & Hcb5 & -> & Hp5).
      destruct Hp5 as [([=] & _)|[_ Hp5]].
      rewrite (try_except_raise _ _ _ _ _ _ Hsteps). unfold any_exn.
      destruct (report_failure e (w5, with_ui (with_ui (with_ui g ui3) ui4) ui5))
        as [r [w6 g6]] eqn:H6.
      destruct (report_failure_shows _ _ _ _ _ _ H6)
        as (-> & evs6 & ui6 & Ht6 & Hcb6 & -> & Hp6).
      simpl.
      rewrite (trace_since_app w w6 (evs3 ++ evs4 ++ evs5 ++ evs6))
        by (by rewrite Ht6, Ht5, Ht4, Ht3, <- !app_assoc).
      rewrite !with_ui_app, (ui_since_app g _ (ui3 ++ ui4 ++ ui5 ++ ui6)) by reflexivity.
      rewrite !callbacks_app, Hcb3, Hcb4, Hcb5, Hcb6, !progress_values_app,
        Hp3, Hp4, Hp5, Hp6.
      split; [done|]. split; [done|].
      exists (40 :: rg ++ [80]). split.
      { rewrite <- !app_assoc. reflexivity. }
      intros Hin. exfalso.
      eapply (proj1 (List.Forall_forall (fun v => v <> 100) _)); [|exact Hin|reflexivity].
      rewrite !Forall_app. repeat split; repeat constructor; try lia; exact Hno.
  - rewrite (bind_raise _ _ _ _ _ H4) in Hsteps.
    destruct (environment_step_shows _ _ _ _ _ _ H4)
      as (evs4 & ui4 & Ht4 & Hcb4 & -> & Hp4).
    rewrite <- Hrg in Hp4.
    rewrite (try_except_raise _ _ _ _ _ _ Hsteps). unfold any_exn.
    destruct (report_failure e (w4, with_ui (with_ui g ui3) ui4))
      as [r [w6 g6]] eqn:H6.
    destruct (report_failure_shows _ _ _ _ _ _ H6)
      as (-> & evs6 & ui6 & Ht6 & Hcb6 & -> & Hp6).
    simpl.
    rewrite (trace_since_app w w6 (evs3 ++ evs4 ++ evs6))
      by (by rewrite Ht6, Ht4, Ht3, <- !app_assoc).
    rewrite !with_ui_app, (ui_since_app g _ (ui3 ++ ui4 ++ ui6)) by reflexivity.
    rewrite !callbacks_app, Hcb3, Hcb4, Hcb6, !progress_values_app, Hp3, Hp6.
    split; [done|]. split; [done|].
    exists (progress_values ui4). split.
    { rewrite (right_id_L [] (++)). rewrite <- !app_assoc. reflexivity. }
    intros Hin. exfalso.
    eapply (proj1 (List.Forall_forall (fun v => v <> 100) _)); [|exact Hin|reflexivity].
    destruct Hp4 as [Hp4|[Hp4 _]]; rewrite Hp4, !Forall_app;
      repeat split; repeat constructor; try lia; exact Hno.
Qed.


End InstallProgress.

Lemma install_progress_monotone_witness :
  InstallerTab.install_bitnet_run Demo.env3 (Demo.world1, Demo.window1)
    = (Ok tt, Demo.done3) /\
  StronglySorted Z.le (progress_values (ui_since Demo.window1 (snd Demo.done3))) /\
  last (progress_values (ui_since Demo.window1 (snd Demo.done3))) = Some 100.
Proof.
  destruct (install_progress_monotone Demo.env3 Demo.world1 Demo.window1
              (fst Demo.pressed3) (snd Demo.pressed3) (fst Demo.done3) (snd Demo.done3))
    as (H1 & H2 & H3 & _).
  - vm_compute. reflexivity.
  - vm_compute. reflexivity.
  - replace (callbacks (trace_since Demo.world1 (fst Demo.done3)))
      with [(0, 100); (10, 100); (55, 100); (100, 100); (100, 100)]
      by (vm_compute; reflexivity).
    repeat constructor; simpl; lia.
  - replace (callbacks (trace_since Demo.world1 (fst Demo.done3)))
      with [(0, 100); (10, 100); (55, 100); (100, 100); (100, 100)]
      by (vm_compute; reflexivity).
    repeat constructor; simpl; lia.
  - exact (conj H1 (conj H2 H3)).
Defined.

(** C2 as stated fails: a recursive clone reports the objects of the
    repository and then those of its submodule, each from its own start;
    every step succeeds and the bar ends at 100, but it goes from 40
    back to 13 on the way. *)
Lemma install_progress_counterexample :
  let res := InstallerTab.install_bitnet_run
               (Demo.env 0 Demo.two_phases "base  C:\conda")
               (Demo.world1, Demo.window1) in
  let delivered := progress_values (ui_since Demo.window1 (snd (snd res))) in
  fst res = Ok tt /\
  completed (ui_since Demo.window1 (snd (snd res))) = true /\
  delivered = [0; 10; 10; 40; 13; 40; 40; 40] ++ InstallerTab.range_41_80 ++ [80; 100] /\
  last delivered = Some 100 /\
  ~ Sorted Z.le delivered.
Proof.
  intros res delivered.
  assert (delivered =
          [0; 10; 10; 40; 13; 40; 40; 40] ++ InstallerTab.range_41_80 ++ [80; 100]) as Hd
    by (vm_compute; reflexivity).
  split; [vm_compute; reflexivity|]. split; [vm_compute; reflexivity|].
  split; [exact Hd|]. split; [vm_compute; reflexivity|].
  rewrite Hd. cbn [app]. intros HS.
  apply Sorted_StronglySorted in HS; [|intros ? ? ?; lia].
  do 3 (apply StronglySorted_inv in HS as [HS _]).
  apply StronglySorted_inv in HS as [_ HF]. apply Forall_inv in HF. lia.
Qed.

Lemma install_three_lines_witness :
  exists rest,
    progress_values
      (ui_since Demo.window1
         (snd (snd (InstallerTab._install_bitnet_thread Demo.env3
                      (Demo.world1, Demo.window1))))) =
    [10; 10] ++ [13; 26; 40] ++ [40] ++ rest.
Proof.
  destruct (install_three_lines Demo.env3 Demo.world1 Demo.window1 EmptyString
              (machine Demo.world2)) as (_ & _ & rest & H & _).
  - vm_compute. reflexivity.
  - vm_compute. reflexivity.
  - vm_compute. reflexivity.
  - exists rest. exact H.
Defined.

(** C3 as stated fails: for the three lines the bar is set to 13, 26 and
    40, the product with 30 being cut to an integer and added to 10; the
    values 11 and 27 are never delivered in the whole run. *)
Lemma install_three_lines_counterexample :
  let res := InstallerTab._install_bitnet_thread Demo.env3 (Demo.world1, Demo.window1) in
  let delivered := progress_values (ui_since Demo.window1 (snd (snd res))) in
  InstallerTab.clone_slice 10 = Some 13 /\
  InstallerTab.clone_slice 55 = Some 26 /\
  InstallerTab.clone_slice 100 = Some 40 /\
  delivered = [10; 10; 13; 26; 40; 40; 40] ++ InstallerTab.range_41_80 ++ [80; 100] /\
  forallb (fun v => negb (v =? 11) && negb (v =? 27)) delivered = true.
Proof.
  repeat split; vm_compute; reflexivity.
Qed.

(** ** installer_core.py: the environment configurator *)

Section EnvironmentProperties.
Import Installer Core.
Context (E : Env).

(** A checked run of a program that exits with zero. *)
Lemma run_checked_zero (c : Cmd) (w : World) (out err : string) (after : Machine) :
  proc E (clock w) c (machine w) = Exited 0 out err after ->
  run_checked E c w =
  (Ok (0%N, out, err), mkWorld after (S (clock w)) (trace w ++ [EvSpawn c])).
Proof.
  destruct w as [m k tr]. simpl. intros H. unfold run_checked, spawn. host.
  rewrite H. reflexivity.
Qed.

(** A checked run adds the program to the trace, whatever comes of it. *)
Lemma run_checked_spawns (c : Cmd) (w : World) r (w' : World) :
  run_checked E c w = (r, w') -> trace w' = trace w ++ [EvSpawn c].
Proof.
  destruct w as [m k tr]. unfold run_checked, spawn. host.
  destruct (proc E k c m) as [msg|rc out err after].
  - by intros [= <- <-].
  - host. destruct (rc =? 0)%N; by intros [= <- <-].
Qed.

Lemma write_total (path data : string) (w : World) :
  exists w', write path data w = (Ok tt, w') /\ trace w' = trace w.
Proof.
  destruct w as [[f dn fd vs] c tr]. unfold write. host.
  destruct (f !! path) as [[|[?|?]]|]; eauto.
Qed.

Lemma write_lines_total (path : string) (lines : list string) (w : World) :
  exists w',
    for_each lines (fun l => write path (l +:+ nl)) w = (Ok tt, w') /\
    trace w' = trace w.
Proof.
  revert w. induction lines as [|l lines IH]; intros w; simpl.
  - by exists w.
  - destruct (write_total path (l +:+ nl) w) as (w1 & H1 & Ht1).
    rewrite (bind_ok _ _ _ _ _ H1).
    destruct (IH w1) as (w2 & H2 & Ht2). exists w2. split; [done|congruence].
Qed.

(** The block that writes requirements.txt when it is missing returns if
    the file may be written, and runs no program. *)
Lemma requirements_written (path : string) (w : World) :
  path ∉ fs_denied (machine w) ->
  exists w' evs,
    when (negb (bool_decide (is_Some (fs (machine w) !! path))))
      (logger_info "Creating requirements.txt";;
       open_w path;;
       for_each default_requirements (fun l => write path (l +:+ nl))) w = (Ok tt, w') /\
    trace w' = trace w ++ evs /\ spawned evs = [].
Proof.
  intros Hden. case_bool_decide as Hex; unfold when; cbn [negb].
  - exists w, []. by rewrite (right_id_L [] (++)).
  - rewrite (bind_ok _ _ _ _ _ (logger_info_eq _ _)).
    assert (open_w path (logged w INFO "Creating requirements.txt") =
            (Ok tt, mkWorld
                      (mkMachine (<[path := File (Text EmptyString)]> (fs (machine w)))
                         (fs_denied (machine w)) (open_fds (machine w)) (vs7 (machine w)))
                      (clock w) (trace w ++ [EvLog INFO "Creating requirements.txt"])))
      as Hopen.
    { destruct w as [[f dn fd vs] c tr]. simpl in *. unfold open_w, logged, with_trace.
      host. rewrite bool_decide_false by done.
      destruct (f !! path) as [[|?]|] eqn:Hf; [|done..].
      exfalso. apply Hex. rewrite ?Hf. eauto. }
    rewrite (bind_ok _ _ _ _ _ Hopen).
    match goal with |- context [for_each _ _ ?w1] =>
      destruct (write_lines_total path default_requirements w1) as (w2 & H2 & Ht2) end.
    exists w2, [EvLog INFO "Creating requirements.txt"]. by rewrite H2, Ht2.
Qed.

(** No program of [evs] is [c]. *)
Definition without (c : Cmd) (evs : list Event) : Prop := ~ In c (spawned evs).

Lemma without_nil (c : Cmd) : without c [].
Proof. intros []. Qed.

Lemma without_app (c : Cmd) (a b : list Event) :
  without c a -> without c b -> without c (a ++ b).
Proof. unfold without. rewrite spawned_app, in_app_iff. tauto. Qed.

Lemma without_log (c : Cmd) (level : LogLevel) (msg : string) :
  without c [EvLog level msg].
Proof. intros []. Qed.

(** The command that creates the environment. *)
Definition create_env (conda_path : string) : Cmd :=
  mkCmd [conda_path; "create"; "-n"; env_name; "python=3.9"; "-y"] None false.

(** C10. When the listing of the environments exits with zero and its
    output has the name bitnet-cpp anywhere in it, the configurator logs
    that the environment exists and never runs the command that creates
    it; if requirements.txt may be written, the next program it runs is
    the installation of the requirements. *)
Theorem environment_found_by_substring {CB : Type} (conda_path install_dir : string)
    (enable_gpu : bool) (cb : option CB) (w : World) (out err : string)
    (after : Machine) :
  proc E (clock w) (mkCmd [conda_path; "env"; "list"] None false) (machine w)
    = Exited 0 out err after ->
  str_in env_name out = true ->
  path_join E install_dir "requirements.txt" ∉ fs_denied after ->
  let w' := snd (setup_conda_env E conda_path install_dir enable_gpu cb w) in
  let ran := spawned (trace_since w w') in
  In (EvLog INFO "Conda environment 'bitnet-cpp' already exists") (trace_since w w') /\
  ~ In (create_env conda_path) ran /\
  exists more,
    ran = mkCmd [conda_path; "env"; "list"] None false ::
          mkCmd [conda_path; "run"; "-n"; env_name; "pip"; "install"; "-r";
                 path_join E install_dir "requirements.txt"] (Some install_dir) false ::
          more.
Proof.
  intros Hproc Hin Hden. unfold setup_conda_env.
  rewrite (bind_ok _ _ _ _ _ (logger_info_eq _ _)).
  match goal with |- context [try_except ?b _ _ ?s] =>
    destruct (b s) as [rb wb] eqn:Hb end.
  assert (exists more,
            trace wb = trace w ++
              [EvLog INFO "Setting up conda environment";
               EvSpawn (mkCmd [conda_path; "env"; "list"] None false);
               EvLog INFO "Conda environment 'bitnet-cpp' already exists"] ++ more /\
            ~ In (create_env conda_path) (spawned more) /\
            exists more',
              spawned more =
              mkCmd [conda_path; "run"; "-n"; env_name; "pip"; "install"; "-r";
                     path_join E install_dir "requirements.txt"] (Some install_dir) false ::
              more') as (more & Htb & Hno & more' & Hpip).
  { rewrite (bind_ok _ _ _ _ _
               (run_checked_zero _ (logged w INFO "Setting up conda environment")
                  out err after Hproc)) in Hb.
    cbv beta iota zeta in Hb. rewrite Hin in Hb.
    rewrite (bind_ok _ _ _ _ _ (logger_info_eq _ _)) in Hb.
    rewrite (bind_ok _ _ _ _ _ (os_path_exists_eq _ _)) in Hb.
    match type of Hb with bind _ _ ?s = _ =>
      destruct (requirements_written (path_join E install_dir "requirements.txt") s Hden)
        as (w4 & evs4 & H4 & Ht4 & Hs4) end.
    rewrite (bind_ok _ _ _ _ _ H4) in Hb.
    rewrite (bind_ok _ _ _ _ _ (logger_info_eq _ _)) in Hb.
    apply bind_inv in Hb as [(res & w6 & H6 & Hb)|(e & H6 & _)].
    - apply run_checked_spawns in H6. cbv beta in Hb.
      match type of Hb with ?m _ = _ =>
        assert (steps (adds (without (create_env conda_path))) m) as Hst end.
      { host_steps_ex (without_nil (create_env conda_path))
          (without_app (create_env conda_path))
          ltac:(first [ apply without_log | intros [H|[]]; discriminate H ])
          ltac:(apply steps_walk_packages; [apply without_nil | apply without_app]). }
      apply Hst in Hb as (evs & Ht & Hevs).
      exists (evs4 ++ [EvLog INFO "Installing Python requirements"] ++
              [EvSpawn (mkCmd [conda_path; "run"; "-n"; env_name; "pip"; "install"; "-r";
                               path_join E install_dir "requirements.txt"]
                          (Some install_dir) false)] ++ evs).
      split.
      { rewrite Ht, H6. simpl. rewrite Ht4. simpl. rewrite <- !app_assoc. reflexivity. }
      rewrite !spawned_app, Hs4. simpl. split; [|eauto].
      intros [H|H]; [discriminate H|by apply Hevs].
    - apply run_checked_spawns in H6.
      exists (evs4 ++ [EvLog INFO "Installing Python requirements"] ++
              [EvSpawn (mkCmd [conda_path; "run"; "-n"; env_name; "pip"; "install"; "-r";
                               path_join E install_dir "requirements.txt"]
                          (Some install_dir) false)]).
      split.
      { rewrite H6. simpl. rewrite Ht4. simpl. rewrite <- !app_assoc. reflexivity. }
      rewrite !spawned_app, Hs4. simpl. split; [|eauto].
      intros [H|[]]. discriminate H. }
  assert (exists tail, trace (snd (match rb with
                                   | Ok a => (Ok a, wb)
                                   | Raise e =>
                                       if any_exn e
                                       then (logger_error
                                               ("Conda environment setup failed: " +:+
                                                str_of_exn e);;
                                             match e with
                                             | CalledProcessError rc _ =>
                                                 raise (InstallationError
                                                   ("Conda environment setup failed with exit code " +:+
                                                    str_of_N rc))
                                             | _ =>
                                                 raise (InstallationError
                                                   ("Conda environment setup failed: " +:+
                                                    str_of_exn e))
                                             end) wb
                                       else (Raise e, wb)
                                   end : Result bool * World)) = trace wb ++ tail /\
                       spawned tail = []) as (tail & Htail & Hstail).
  { destruct rb as [a|e].
    - exists []. by rewrite (right_id_L [] (++)).
    - exists [EvLog ERROR ("Conda environment setup failed: " +:+ str_of_exn e)].
      unfold any_exn. rewrite (bind_ok _ _ _ _ _ (logger_error_eq _ _)).
      split; [|reflexivity]. by destruct e. }
  unfold try_except. rewrite Hb. cbv zeta.
  rewrite (trace_since_app w _ (([EvLog INFO "Setting up conda environment";
               EvSpawn (mkCmd [conda_path; "env"; "list"] None false);
               EvLog INFO "Conda environment 'bitnet-cpp' already exists"] ++ more) ++ tail))
    by (by rewrite Htail, Htb, <- !app_assoc).
  split. { rewrite !in_app_iff. left. left. simpl. auto. }
  rewrite !spawned_app, Hstail, Hpip, (right_id_L [] (++)). simpl. split; [|eauto].
  intros [H|H]; [discriminate H|]. apply Hno. by rewrite Hpip.
Qed.

End EnvironmentProperties.

Lemma environment_found_by_substring_witness :
  let w' := snd (Core.setup_conda_env
                   (Demo.env 0 EmptyString "bitnet-cpp2   C:\conda\envs\bitnet-cpp2")
                   "C:\conda\Scripts\conda.exe" "C:\Users\me\BitNet" true (@None unit)
                   Demo.world1) in
  str_in "bitnet-cpp " "bitnet-cpp2   C:\conda\envs\bitnet-cpp2" = false /\
  ~ In (create_env "C:\conda\Scripts\conda.exe") (spawned (trace_since Demo.world1 w')).
Proof.
  split; [reflexivity|].
  apply (environment_found_by_substring
           (Demo.env 0 EmptyString "bitnet-cpp2   C:\conda\envs\bitnet-cpp2")
           "C:\conda\Scripts\conda.exe" "C:\Users\me\BitNet" true (@None unit)
           Demo.world1 "bitnet-cpp2   C:\conda\envs\bitnet-cpp2" EmptyString
           (machine Demo.world1)).
  - reflexivity.
  - reflexivity.
  - apply not_elem_of_empty.
Defined.

(** ** The prerequisite installers *)

Section InstallerProperties.
Import Installer Core.
Context (E : Env) {U : Type}.

Lemma liftW_eq {A} (m : W A) (w : World) (g : U) :
  liftW m (w, g) = (fst (m w), (snd (m w), g)).
Proof. apply lift_fst_eq. Qed.

(** The installer of Git exits with zero and the locator does not find
    Git afterwards: the installation is refused. *)
Theorem install_git_unverified (temp_dir : string) (cb : option (@Callback U))
    (w : World) (g : U) (w1 : World) (g1 : U) (out err : string) (after : Machine)
    (git_path : option string) (w3 : World) :
  let installer_path := path_join E temp_dir "git_installer.exe" in
  let run := mkCmd [installer_path; "/VERYSILENT"; "/NORESTART"] None false in
  download_file E
    "https://github.com/git-for-windows/git/releases/download/v2.40.0.windows.1/Git-2.40.0-64-bit.exe"
    installer_path cb (logged w INFO "Installing Git for Windows", g)
    = (Ok true, (w1, g1)) ->
  proc E (clock w1) run (machine w1) = Exited 0 out err after ->
  check_git E (mkWorld after (S (clock w1))
                 (trace w1 ++ [EvLog INFO "Running Git installer"; EvSpawn run]))
    = (Ok git_path, w3) ->
  found git_path = false ->
  install_git E temp_dir cb (w, g) =
  (Raise (InstallationError "Git installation could not be verified"), (w3, g1)).
Proof.
  intros installer_path run Hd Hp Hc Hf. unfold install_git.
  rewrite (bind_ok _ _ _ tt (logged w INFO "Installing Git for Windows", g)) by reflexivity.
  fold installer_path. rewrite (bind_ok _ _ _ _ _ Hd). cbn [negb].
  rewrite (bind_ok _ _ _ tt (logged w1 INFO "Running Git installer", g1)) by reflexivity.
  unfold try_except. fold run.
  rewrite (bind_ok _ _ _ (0%N, out, err)
             (mkWorld after (S (clock w1))
                (trace w1 ++ [EvLog INFO "Running Git installer"; EvSpawn run]), g1)).
  2:{ rewrite liftW_eq,
        (run_checked_zero E run (logged w1 INFO "Running Git installer") out err after Hp).
      simpl. by rewrite <- app_assoc. }
  rewrite (bind_ok _ _ _ git_path (w3, g1)) by (by rewrite liftW_eq, Hc).
  rewrite Hf. reflexivity.
Qed.

(** A checked run of a program that exits with another code raises
    CalledProcessError; one that cannot be launched raises OSError. *)
Lemma run_checked_nonzero (c : Cmd) (w : World) (rc : N) (out err : string)
    (after : Machine) :
  proc E (clock w) c (machine w) = Exited rc out err after -> rc <> 0%N ->
  run_checked E c w =
  (Raise (CalledProcessError rc (argv c)),
   mkWorld after (S (clock w)) (trace w ++ [EvSpawn c])).
Proof.
  destruct w as [m k tr]. simpl. intros H Hrc. unfold run_checked, spawn. host.
  rewrite H. host. by destruct (N.eqb_spec rc 0).
Qed.

Lemma run_checked_launch_failed (c : Cmd) (w : World) (msg : string) :
  proc E (clock w) c (machine w) = LaunchFailed msg ->
  run_checked E c w =
  (Raise (OSError msg), mkWorld (machine w) (S (clock w)) (trace w ++ [EvSpawn c])).
Proof.
  destruct w as [m k tr]. simpl. intros H. unfold run_checked, spawn. host.
  rewrite H. reflexivity.
Qed.

(** The installer of Miniconda exits with zero and conda.exe is not
    where it should have put it: the installation is refused.  The
    locator is not asked. *)
Theorem install_miniconda_unverified (temp_dir : string) (cb : option (@Callback U))
    (w : World) (g : U) (w1 : World) (g1 : U) (out err : string) (after : Machine) :
  let installer_path := path_join E temp_dir "miniconda_installer.exe" in
  let install_path := path_join E (home E) "miniconda3_bitnet" in
  let run := mkCmd [installer_path; "/S"; "/RegisterPython=0"; "/AddToPath=0";
                    "/D=" +:+ install_path] None false in
  download_file E "https://repo.anaconda.com/miniconda/Miniconda3-latest-Windows-x86_64.exe"
    installer_path cb (logged w INFO "Installing Miniconda", g) = (Ok true, (w1, g1)) ->
  proc E (clock w1) run (machine w1) = Exited 0 out err after ->
  fs after !! path_join3 E install_path "Scripts" "conda.exe" = None ->
  install_miniconda E temp_dir cb (w, g) =
  (Raise (InstallationError "Miniconda installation could not be verified"),
   (mkWorld after (S (clock w1))
      (trace w1 ++ [EvLog INFO ("Running Miniconda installer to " +:+ install_path);
                    EvSpawn run]), g1)).
Proof.
  intros installer_path install_path run Hd Hp Hc.
  unfold install_miniconda.
  rewrite (bind_ok _ _ _ tt (logged w INFO "Installing Miniconda", g)) by reflexivity.
  fold installer_path install_path. rewrite (bind_ok _ _ _ _ _ Hd). cbn [negb].
  rewrite (bind_ok _ _ _ tt
             (logged w1 INFO ("Running Miniconda installer to " +:+ install_path), g1))
    by reflexivity.
  unfold try_except. fold run.
  rewrite (bind_ok _ _ _ (0%N, out, err)
             (mkWorld after (S (clock w1))
                (trace w1 ++ [EvLog INFO ("Running Miniconda installer to " +:+
                                          install_path); EvSpawn run]), g1)).
  2:{ rewrite liftW_eq,
        (run_checked_zero E run
           (logged w1 INFO ("Running Miniconda installer to " +:+ install_path))
           out err after Hp).
      simpl. by rewrite <- app_assoc. }
  rewrite (bind_ok _ _ _ false
             (mkWorld after (S (clock w1))
                (trace w1 ++ [EvLog INFO ("Running Miniconda installer to " +:+
                                          install_path); EvSpawn run]), g1)).
  2:{ rewrite liftW_eq, os_path_exists_eq. simpl. rewrite Hc.
      rewrite bool_decide_false by (intros [? ?]; discriminate). reflexivity. }
  reflexivity.
Qed.

(** Miniconda is installed and verified, and [conda init] then exits
    with another code: the installer reports that the installation
    failed, with the code of [conda init]. *)
Theorem install_miniconda_init_fails (temp_dir : string) (cb : option (@Callback U))
    (w : World) (g : U) (w1 : World) (g1 : U) (out err : string) (after : Machine)
    (rc : N) (out' err' : string) (after' : Machine) :
  let installer_path := path_join E temp_dir "miniconda_installer.exe" in
  let install_path := path_join E (home E) "miniconda3_bitnet" in
  let conda_exe := path_join3 E install_path "Scripts" "conda.exe" in
  let run := mkCmd [installer_path; "/S"; "/RegisterPython=0"; "/AddToPath=0";
                    "/D=" +:+ install_path] None false in
  download_file E "https://repo.anaconda.com/miniconda/Miniconda3-latest-Windows-x86_64.exe"
    installer_path cb (logged w INFO "Installing Miniconda", g) = (Ok true, (w1, g1)) ->
  proc E (clock w1) run (machine w1) = Exited 0 out err after ->
  is_Some (fs after !! conda_exe) ->
  proc E (S (clock w1)) (mkCmd [conda_exe; "init"; "cmd.exe"] None false) after
    = Exited rc out' err' after' ->
  rc <> 0%N ->
  exists w2,
    install_miniconda E temp_dir cb (w, g) =
      (Raise (InstallationError ("Miniconda installation failed with exit code " +:+
                                 str_of_N rc)), (w2, g1)) /\
    machine w2 = after' /\
    last (trace w2) =
      Some (EvLog ERROR ("Miniconda installation failed: " +:+
                         str_of_exn (CalledProcessError rc [conda_exe; "init"; "cmd.exe"]))).
Proof.
  intros installer_path install_path conda_exe run Hd Hp Hc Hi Hrc.
  set (w2 := mkWorld after (S (clock w1))
               (trace w1 ++ [EvLog INFO ("Running Miniconda installer to " +:+
                                         install_path); EvSpawn run])).
  set (w3 := logged (logged w2 INFO "Miniconda installed successfully") INFO
               "Initializing conda").
  eexists. split; [|split].
  - unfold install_miniconda.
    rewrite (bind_ok _ _ _ tt (logged w INFO "Installing Miniconda", g)) by reflexivity.
    fold installer_path install_path. rewrite (bind_ok _ _ _ _ _ Hd). cbn [negb].
    rewrite (bind_ok _ _ _ tt
               (logged w1 INFO ("Running Miniconda installer to " +:+ install_path), g1))
      by reflexivity.
    unfold try_except. fold run conda_exe.
    rewrite (bind_ok _ _ _ (0%N, out, err) (w2, g1)).
    2:{ rewrite liftW_eq,
          (run_checked_zero E run
             (logged w1 INFO ("Running Miniconda installer to " +:+ install_path))
             out err after Hp).
        unfold w2. simpl. by rewrite <- app_assoc. }
    rewrite (bind_ok _ _ _ true (w2, g1)).
    2:{ rewrite liftW_eq, os_path_exists_eq. simpl.
        by rewrite bool_decide_true by done. }
    rewrite (bind_ok _ _ _ tt (logged w2 INFO "Miniconda installed successfully", g1))
      by reflexivity.
    rewrite (bind_ok _ _ _ tt (w3, g1)) by reflexivity.
    rewrite (bind_raise _ _ _ (CalledProcessError rc [conda_exe; "init"; "cmd.exe"])
               (mkWorld after' (S (clock w3)) (trace w3 ++
                  [EvSpawn (mkCmd [conda_exe; "init"; "cmd.exe"] None false)]), g1)).
    2:{ by rewrite liftW_eq, (run_checked_nonzero _ w3 rc out' err' after' Hi Hrc). }
    cbn [is_CalledProcessError returncode_of].
    erewrite bind_ok by (rewrite liftW_eq, logger_error_eq; reflexivity).
    reflexivity.
  - reflexivity.
  - simpl. by rewrite last_snoc.
Qed.

(** The installer of the build tools exits with zero and Visual Studio
    is not found afterwards, neither at its two places nor in the
    registry: the installation is refused. *)
Theorem install_vs_build_tools_unverified (temp_dir : string)
    (cb : option (@Callback U)) (w : World) (g : U) (w1 : World) (g1 : U)
    (out err : string) (after : Machine) (vs_path : option string) (w3 : World) :
  let installer_path := path_join E temp_dir "vs_buildtools.exe" in
  let run := mkCmd [installer_path; "--quiet"; "--norestart"; "--wait"; "--add";
                    "Microsoft.VisualStudio.Workload.VCTools"; "--includeRecommended"]
                   None false in
  download_file E "https://aka.ms/vs/17/release/vs_BuildTools.exe" installer_path cb
    (logged w INFO "Installing Visual Studio Build Tools", g) = (Ok true, (w1, g1)) ->
  proc E (clock w1) run (machine w1) = Exited 0 out err after ->
  check_visual_studio
    (mkWorld after (S (clock w1))
       (trace w1 ++ [EvLog INFO "Running Visual Studio Build Tools installer"; EvSpawn run]))
    = (Ok vs_path, w3) ->
  found vs_path = false ->
  install_vs_build_tools E temp_dir cb (w, g) =
  (Raise (InstallationError "Visual Studio Build Tools installation could not be verified"),
   (w3, g1)).
Proof.
  intros installer_path run Hd Hp Hc Hf. unfold install_vs_build_tools.
  rewrite (bind_ok _ _ _ tt (logged w INFO "Installing Visual Studio Build Tools", g))
    by reflexivity.
  fold installer_path. rewrite (bind_ok _ _ _ _ _ Hd). cbn [negb].
  rewrite (bind_ok _ _ _ tt
             (logged w1 INFO "Running Visual Studio Build Tools installer", g1))
    by reflexivity.
  unfold try_except. fold run.
  rewrite (bind_ok _ _ _ (0%N, out, err)
             (mkWorld after (S (clock w1))
                (trace w1 ++ [EvLog INFO "Running Visual Studio Build Tools installer";
                              EvSpawn run]), g1)).
  2:{ rewrite liftW_eq,
        (run_checked_zero E run
           (logged w1 INFO "Running Visual Studio Build Tools installer") out err after Hp).
      simpl. by rewrite <- app_assoc. }
  rewrite (bind_ok _ _ _ vs_path (w3, g1)) by (by rewrite liftW_eq, Hc).
  rewrite Hf. reflexivity.
Qed.

(** The installer of Git exits with a code other than zero: the failure
    is logged and reported with the code, and Git is not looked for. *)
Theorem install_git_exit_code (temp_dir : string) (cb : option (@Callback U))
    (w : World) (g : U) (w1 : World) (g1 : U) (rc : N) (out err : string)
    (after : Machine) :
  let installer_path := path_join E temp_dir "git_installer.exe" in
  let run := mkCmd [installer_path; "/VERYSILENT"; "/NORESTART"] None false in
  download_file E
    "https://github.com/git-for-windows/git/releases/download/v2.40.0.windows.1/Git-2.40.0-64-bit.exe"
    installer_path cb (logged w INFO "Installing Git for Windows", g)
    = (Ok true, (w1, g1)) ->
  proc E (clock w1) run (machine w1) = Exited rc out err after ->
  rc <> 0%N ->
  install_git E temp_dir cb (w, g) =
  (Raise (InstallationError ("Git installation failed with exit code " +:+ str_of_N rc)),
   (mkWorld after (S (clock w1))
      (trace w1 ++ [EvLog INFO "Running Git installer"; EvSpawn run;
                    EvLog ERROR ("Git installation failed: " +:+
                                 str_of_exn (CalledProcessError rc (argv run)))]), g1)).
Proof.
  intros installer_path run Hd Hp Hrc. unfold install_git.
  rewrite (bind_ok _ _ _ tt (logged w INFO "Installing Git for Windows", g)) by reflexivity.
  fold installer_path. rewrite (bind_ok _ _ _ _ _ Hd). cbn [negb].
  rewrite (bind_ok _ _ _ tt (logged w1 INFO "Running Git installer", g1)) by reflexivity.
  unfold try_except. fold run.
  rewrite (bind_raise _ _ _ (CalledProcessError rc (argv run))
             (mkWorld after (S (clock w1))
                (trace w1 ++ [EvLog INFO "Running Git installer"; EvSpawn run]), g1)).
  2:{ rewrite liftW_eq,
        (run_checked_nonzero run (logged w1 INFO "Running Git installer") rc out err
           after Hp Hrc).
      simpl. by rewrite <- app_assoc. }
  cbn [is_CalledProcessError returncode_of].
  erewrite bind_ok by (rewrite liftW_eq, logger_error_eq; reflexivity).
  unfold raise, logged, with_trace. simpl. by rewrite <- app_assoc.
Qed.

(** The installer of the build tools cannot be launched: the error of
    the operating system leaves the function as it is, neither logged
    nor turned into an InstallationError. *)
Theorem install_vs_build_tools_not_launched (temp_dir : string)
    (cb : option (@Callback U)) (w : World) (g : U) (w1 : World) (g1 : U)
    (msg : string) :
  let installer_path := path_join E temp_dir "vs_buildtools.exe" in
  let run := mkCmd [installer_path; "--quiet"; "--norestart"; "--wait"; "--add";
                    "Microsoft.VisualStudio.Workload.VCTools"; "--includeRecommended"]
                   None false in
  download_file E "https://aka.ms/vs/17/release/vs_BuildTools.exe" installer_path cb
    (logged w INFO "Installing Visual Studio Build Tools", g) = (Ok true, (w1, g1)) ->
  proc E (clock w1) run (machine w1) = LaunchFailed msg ->
  install_vs_build_tools E temp_dir cb (w, g) =
  (Raise (OSError msg),
   (mkWorld (machine w1) (S (clock w1))
      (trace w1 ++ [EvLog INFO "Running Visual Studio Build Tools installer"; EvSpawn run]),
    g1)).
Proof.
  intros installer_path run Hd Hp. unfold install_vs_build_tools.
  rewrite (bind_ok _ _ _ tt (logged w INFO "Installing Visual Studio Build Tools", g))
    by reflexivity.
  fold installer_path. rewrite (bind_ok _ _ _ _ _ Hd). cbn [negb].
  rewrite (bind_ok _ _ _ tt
             (logged w1 INFO "Running Visual Studio Build Tools installer", g1))
    by reflexivity.
  unfold try_except. fold run.
  rewrite (bind_raise _ _ _ (OSError msg)
             (mkWorld (machine w1) (S (clock w1))
                (trace w1 ++ [EvLog INFO "Running Visual Studio Build Tools installer";
                              EvSpawn run]), g1)).
  2:{ rewrite liftW_eq,
        (run_checked_launch_failed run
           (logged w1 INFO "Running Visual Studio Build Tools installer") msg Hp).
      simpl. by rewrite <- app_assoc. }
  reflexivity.
Qed.

End InstallerProperties.

Lemma install_git_unverified_witness :
  Core.install_git Demo.env0 Scenario.temp_dir (@None (@Core.Callback unit))
    (Demo.world0, tt) =
  (Raise (InstallationError "Git installation could not be verified"),
   (Scenario.git_looked_for, tt)).
Proof.
  apply (install_git_unverified Demo.env0 Scenario.temp_dir None Demo.world0 tt
           Scenario.git_downloaded tt EmptyString EmptyString
           (machine Scenario.git_downloaded) None).
  - vm_compute. reflexivity.
  - vm_compute. reflexivity.
  - vm_compute. reflexivity.
  - reflexivity.
Defined.

(** ** More on the repository provisioner *)

Section ProvisionerProperties.
Import Installer Core.
Context (E : Env) {U : Type}.

(** Whatever happens, the provisioner either returns [True] or raises
    an InstallationError whose message starts with 'Failed to clone
    BitNet repository: '; it never returns [False] and lets no other
    exception through, not even one raised by the callback. *)
Theorem clone_bitnet_outcomes (install_dir : string) (cb : option (@Callback U))
    (w : World) (g : U) :
  match fst (clone_bitnet E install_dir cb (w, g)) with
  | Ok b => b = true
  | Raise e =>
      exists cause,
        e = InstallationError ("Failed to clone BitNet repository: " +:+ str_of_exn cause)
  end.
Proof.
  destruct (clone_bitnet E install_dir cb (w, g)) as [r s'] eqn:H. simpl.
  unfold clone_bitnet in H.
  apply bind_inv in H as [([] & s1 & _ & H)|(e & H1 & _)]; cycle 1.
  { rewrite liftW_eq in H1. discriminate H1. }
  apply try_except_inv in H as [(a & H & ->)|(e & s2 & _ & H)]; cycle 1.
  { unfold any_exn in H.
    apply bind_inv in H as [([] & s3 & _ & H)|(e' & H1 & _)].
    - injection H as <- _. eauto.
    - destruct s2. rewrite liftW_eq in H1. discriminate H1. }
  apply bind_inv_ok in H as ([] & s2 & _ & H).
  apply bind_inv_ok in H as (has_git & s3 & _ & H).
  destruct has_git.
  - apply bind_inv_ok in H as ([] & s4 & _ & H).
    apply try_except_inv in H as [(a' & H & [= <-])|(e & s5 & _ & H)].
    + apply bind_inv_ok in H as ([[rc out] err] & s5 & _ & H).
      destruct (negb (rc =? 0)%N).
      * apply bind_inv_ok in H as (? & ? & _ & H). discriminate H.
      * by injection H as <- _.
    + unfold any_exn in H. apply bind_inv_ok in H as (? & ? & _ & H). discriminate H.
  - apply bind_inv_ok in H as ([] & s4 & _ & H).
    apply bind_inv_ok in H as ([] & s5 & _ & H).
    apply bind_inv_ok in H as ([] & s6 & _ & H).
    by injection H as <- _.
Qed.

(** On a directory that holds .git, a pull that exits with another code
    makes the provisioner raise; the text of the error stream comes
    after three prefixes, one for each handler it went through. *)
Theorem clone_bitnet_pull_fails (install_dir : string) (cb : option (@Callback U))
    (w : World) (g : U) (rc : N) (out err : string) (after : Machine) :
  fs (machine w) !! install_dir = Some Dir ->
  is_Some (fs (machine w) !! path_join E install_dir ".git") ->
  proc E (clock w) (mkCmd ["git"; "pull"] (Some install_dir) false) (machine w)
    = Exited rc out err after ->
  rc <> 0%N ->
  let res := clone_bitnet E install_dir cb (w, g) in
  fst res =
    Raise (InstallationError
             ("Failed to clone BitNet repository: Error pulling repository: " +:+
              "Git pull failed: " +:+ err)) /\
  spawned (trace_since w (fst (snd res))) = [mkCmd ["git"; "pull"] (Some install_dir) false].
Proof.
  destruct w as [[f0 dn fd vs] c tr]. simpl. intros Hdir Hgit Hproc Hrc.
  unfold clone_bitnet, trace_since. core. rewrite Hdir. core.
  rewrite bool_decide_true by done. core. rewrite Hproc. core.
  destruct (rc =? 0)%N eqn:Hz; [by apply N.eqb_eq in Hz|]. core.
  rewrite <- !app_assoc, drop_app_length. split; reflexivity.
Qed.

(** A fresh clone without a callback that exits with another code: the
    text of the error stream is reported as it is, after three prefixes;
    the two phrases looked for when there is a callback play no part. *)
Theorem clone_bitnet_plain_fails (install_dir : string) (w : World) (g : U) (rc : N)
    (out err : string) (after : Machine) :
  fs (machine w) !! install_dir = Some Dir ->
  fs (machine w) !! path_join E install_dir ".git" = None ->
  proc E (clock w) (mkCmd ["git"; "clone"; "--recursive"; BITNET_REPO; install_dir]
                          None false) (machine w)
    = Exited rc out err after ->
  rc <> 0%N ->
  fst (clone_bitnet E install_dir (@None (@Callback U)) (w, g)) =
  Raise (InstallationError
           ("Failed to clone BitNet repository: Error during Git clone: " +:+
            "Git clone failed: " +:+ err)).
Proof.
  destruct w as [[f0 dn fd vs] c tr]. simpl. intros Hdir Hgit Hproc Hrc.
  unfold clone_bitnet. core. rewrite Hdir. core. rewrite Hgit.
  rewrite bool_decide_false by (intros [? ?]; discriminate). core.
  rewrite Hproc. core.
  destruct (rc =? 0)%N eqn:Hz; [by apply N.eqb_eq in Hz|]. reflexivity.
Qed.

End ProvisionerProperties.

(** ** More on the configuration *)

Section ConfigurationProperties.
Import Installer.
Context (E : Env).

(** The keys of [DEFAULT_CONFIG]. *)
Definition default_keys : list string := map fst (DEFAULT_CONFIG_items E).

(** A value that is not a dictionary cannot be backfilled: the loop
    returns only if it had nothing to add, and then returns the value
    as it is. *)
Lemma backfill_other (items : list (string * JVal)) (config config' : JVal) :
  (forall d, config <> JObj d) ->
  backfill items config = Ok config' ->
  config' = config /\ Forall (fun k => contains_key config k = Ok true) (map fst items).
Proof.
  intros Hd. induction items as [|[k v] rest IH]; simpl.
  - intros [= <-]. by split.
  - destruct (contains_key config k) as [[|]|e] eqn:Hk; [|destruct config..|discriminate].
    + intros H. destruct (IH H) as [-> HF]. split; [done|]. by constructor.
    + discriminate. + discriminate. + discriminate. + discriminate. + discriminate.
    + by destruct (Hd d).
Qed.

(** When every key is there already, backfilling changes nothing. *)
Lemma backfill_full (items : list (string * JVal)) (config : JVal) :
  Forall (fun k => contains_key config k = Ok true) (map fst items) ->
  backfill items config = Ok config.
Proof.
  induction items as [|[k v] rest IH]; simpl; [done|].
  intros H. apply Forall_cons in H as [-> H]. by apply IH.
Qed.

(** What a backfilled value has, dictionary or not. *)
Lemma backfill_has_keys (items : list (string * JVal)) (config config' : JVal) :
  backfill items config = Ok config' ->
  Forall (fun k => contains_key config' k = Ok true) (map fst items).
Proof.
  destruct config as [| | | | |d].
  1-5: intros H; apply backfill_other in H as [-> H]; [done|by intros d].
  rewrite backfill_dict. intros [= <-]. apply Forall_forall. intros k Hk.
  simpl. f_equal. apply bool_decide_eq_true. rewrite lookup_union.
  apply list_elem_of_fmap in Hk as ([k' v] & -> & Hkv). simpl.
  destruct (d !! k') as [x|]; [by destruct (list_to_map items !! k'); eauto|].
  destruct (list_to_map items !! k') as [y|] eqn:Hy; [simpl; eauto|].
  apply not_elem_of_list_to_map in Hy. exfalso. apply Hy.
  apply list_elem_of_fmap. by exists (k', v).
Qed.

(** Backfilling twice is backfilling once. *)
Theorem backfill_idempotent (items : list (string * JVal)) (config config' : JVal) :
  backfill items config = Ok config' -> backfill items config' = Ok config'.
Proof.
  intros H. apply backfill_full. by eapply backfill_has_keys.
Qed.

(** Loading never raises, whatever the file holds, and what it returns
    has every key of the defaults; it is a dictionary unless the file
    holds a JSON array or string in which all those keys are found, in
    which case that array or string is returned. *)
Theorem load_config_has_defaults (w : World) :
  exists (config : JVal) (w' : World),
    load_config E w = (Ok config, w') /\
    Forall (fun k => contains_key config k = Ok true) default_keys /\
    ((exists d, config = JObj d) \/
     fs (machine w) !! CONFIG_FILE E = Some (File (Json config))).
Proof.
  assert (Forall (fun k => contains_key (JObj (DEFAULT_CONFIG E)) k = Ok true) default_keys)
    as Hdef.
  { apply (backfill_has_keys (DEFAULT_CONFIG_items E) (JObj ∅)).
    rewrite backfill_dict. by rewrite (left_id_L ∅ (∪)). }
  assert (forall w0, exists w',
            (save_config E (JObj (DEFAULT_CONFIG E));; ret (JObj (DEFAULT_CONFIG E))) w0 =
            (Ok (JObj (DEFAULT_CONFIG E)), w')) as Hsave.
  { intros w0. destruct (save_config_total E (JObj (DEFAULT_CONFIG E)) w0) as (b & w1 & Hs).
    exists w1. by rewrite (bind_ok _ _ _ _ _ Hs). }
  unfold load_config. rewrite (bind_ok _ _ _ _ _ (os_path_exists_eq _ _)).
  case_bool_decide as Hex.
  - destruct (json_load (CONFIG_FILE E) w) as [[v|e] w1] eqn:Hload.
    + assert (w1 = w /\ fs (machine w) !! CONFIG_FILE E = Some (File (Json v))) as [-> Hfile].
      { revert Hload. unfold json_load. destruct w as [[f dn fd vs] c tr]. host.
        destruct (f !! CONFIG_FILE E) as [[|[?|?]]|]; try discriminate. by intros [= -> <-]. }
      destruct (backfill (DEFAULT_CONFIG_items E) v) as [v'|e] eqn:Hb.
      * exists v', w. split.
        { erewrite bind_ok; cycle 1.
          - unfold try_except. rewrite (bind_ok _ _ _ _ _ Hload).
            unfold of_result. rewrite Hb. reflexivity.
          - reflexivity. }
        split; [by eapply backfill_has_keys|].
        destruct v as [| | | | |d]; [right..|left].
        1-5: apply backfill_other in Hb as [-> _]; [done|by intros d].
        rewrite backfill_dict in Hb. injection Hb as <-. eauto.
      * destruct (Hsave (logged w ERROR ("Failed to load config: " +:+ str_of_exn e)))
          as [w' Hs].
        exists (JObj (DEFAULT_CONFIG E)), w'. split; [|split; [done|eauto]].
        erewrite bind_ok; cycle 1.
        { unfold try_except. rewrite (bind_ok _ _ _ _ _ Hload).
          unfold of_result. rewrite Hb. reflexivity. }
        exact Hs.
    + destruct (Hsave (logged w1 ERROR ("Failed to load config: " +:+ str_of_exn e)))
        as [w' Hs].
      exists (JObj (DEFAULT_CONFIG E)), w'. split; [|split; [done|eauto]].
      erewrite bind_ok; cycle 1.
      { unfold try_except. rewrite (bind_raise _ _ _ _ _ Hload). reflexivity. }
      exact Hs.
  - destruct (Hsave w) as [w' Hs].
    exists (JObj (DEFAULT_CONFIG E)), w'. split; [|split; [done|eauto]].
    by rewrite (bind_ok _ _ _ None w).
Qed.

(** The first start: with no configuration file, loading returns the
    defaults; if the file may be written it holds them afterwards, and
    loading again returns them and changes nothing. *)
Theorem load_config_first_run (w : World) :
  fs (machine w) !! CONFIG_FILE E = None ->
  exists w',
    load_config E w = (Ok (JObj (DEFAULT_CONFIG E)), w') /\
    (CONFIG_FILE E ∉ fs_denied (machine w) ->
     fs (machine w') !! CONFIG_FILE E = Some (File (Json (JObj (DEFAULT_CONFIG E)))) /\
     load_config E w' = (Ok (JObj (DEFAULT_CONFIG E)), w')).
Proof.
  intros Hnone.
  destruct (save_config E (JObj (DEFAULT_CONFIG E)) w) as [r w'] eqn:Hs.
  exists w'.
  assert (load_config E w = (Ok (JObj (DEFAULT_CONFIG E)), w')) as Hl.
  { unfold load_config. rewrite (bind_ok _ _ _ _ _ (os_path_exists_eq _ _)), Hnone.
    rewrite bool_decide_false by (intros [? ?]; discriminate).
    rewrite (bind_ok _ _ _ None w) by reflexivity.
    destruct (save_config_total E (JObj (DEFAULT_CONFIG E)) w) as (b & w1 & Hs').
    rewrite Hs' in Hs. injection Hs as <- <-. by rewrite (bind_ok _ _ _ _ _ Hs'). }
  split; [exact Hl|]. intros Hden.
  assert (r = Ok true) as ->.
  { revert Hs. destruct w as [[f dn fd vs] c tr]. simpl in *. unfold save_config. host.
    rewrite bool_decide_false by done. rewrite Hnone. by intros [= <- _]. }
  pose proof (save_config_ok E _ _ _ Hs) as Hfile. split; [exact Hfile|].
  rewrite (load_config_dict E _ _ Hfile). by rewrite (idemp_L (∪) (DEFAULT_CONFIG E)).
Qed.


End ConfigurationProperties.

(** ** The launch script *)

Section ScriptProperties.
Import Installer Core.
Context (E : Env).

(** The text of a file written line by line. *)
Definition file_text (lines : list string) : string :=
  foldr (fun l rest => (l +:+ nl) +:+ rest) EmptyString lines.

Lemma open_w_ok (path : string) (w : World) :
  path ∉ fs_denied (machine w) ->
  fs (machine w) !! path <> Some Dir ->
  open_w path w =
  (Ok tt, mkWorld (mkMachine (<[path := File (Text EmptyString)]> (fs (machine w)))
                     (fs_denied (machine w)) (open_fds (machine w)) (vs7 (machine w)))
            (clock w) (trace w)).
Proof.
  destruct w as [[f dn fd vs] c tr]. simpl. intros Hden Hdir. unfold open_w. host.
  rewrite bool_decide_false by done.
  by destruct (f !! path) as [[|?]|].
Qed.

Lemma write_lines_content (path : string) (lines : list string) (w : World)
    (old : string) :
  fs (machine w) !! path = Some (File (Text old)) ->
  exists w',
    for_each lines (fun l => write path (l +:+ nl)) w = (Ok tt, w') /\
    fs (machine w') !! path = Some (File (Text (old +:+ file_text lines))) /\
    (forall q, q <> path -> fs (machine w') !! q = fs (machine w) !! q) /\
    trace w' = trace w.
Proof.
  revert w old. induction lines as [|l lines IH]; intros w old Hold; simpl.
  - exists w. by rewrite str_app_nil_r.
  - assert (write path (l +:+ nl) w =
            (Ok tt, mkWorld (mkMachine (<[path := File (Text (old +:+ (l +:+ nl)))]>
                                          (fs (machine w)))
                               (fs_denied (machine w)) (open_fds (machine w))
                               (vs7 (machine w))) (clock w) (trace w))) as Hw.
    { destruct w as [[f dn fd vs] c tr]. simpl in *. unfold write. host. by rewrite Hold. }
    rewrite (bind_ok _ _ _ _ _ Hw).
    match type of Hw with _ = (_, ?w1) =>
      destruct (IH w1 (old +:+ (l +:+ nl))) as (w' & Hrun & Hfile & Hrest & Htr);
        [simpl; apply lookup_insert_eq|] end.
    exists w'. split; [exact Hrun|]. split; [by rewrite Hfile, str_app_assoc|].
    split; [|exact Htr].
    intros q Hq. rewrite (Hrest q Hq). simpl. by rewrite lookup_insert_ne.
Qed.

(** The launch script is written beside the installation directory, not
    in it: at start_bitnet.bat in the directory that holds it.  When
    that path may be written, the generator returns it; the file then
    holds the lines of the script and nothing of what it held before,
    and no other file has changed. *)
Theorem create_startup_script_writes (install_dir conda_path : string) (w : World) :
  let startup_path := path_join E (path_dirname E install_dir) "start_bitnet.bat" in
  startup_path ∉ fs_denied (machine w) ->
  fs (machine w) !! startup_path <> Some Dir ->
  exists w',
    create_startup_script E install_dir conda_path w = (Ok startup_path, w') /\
    fs (machine w') !! startup_path =
      Some (File (Text (file_text (startup_script_lines E install_dir conda_path)))) /\
    (forall q, q <> startup_path -> fs (machine w') !! q = fs (machine w) !! q).
Proof.
  intros startup_path Hden Hdir. unfold create_startup_script. fold startup_path.
  rewrite (bind_ok _ _ _ _ _ (logger_info_eq _ _)). unfold try_except.
  rewrite (bind_ok _ _ _ _ _
             (open_w_ok startup_path (logged w INFO "Creating BitNet startup script")
                Hden Hdir)).
  match goal with |- context [bind _ _ ?w0] =>
    destruct (write_lines_content startup_path
                (startup_script_lines E install_dir conda_path) w0 EmptyString)
      as (w1 & Hrun & Hfile & Hrest & Htr); [simpl; apply lookup_insert_eq|] end.
  rewrite (bind_ok _ _ _ _ _ Hrun), (bind_ok _ _ _ _ _ (logger_info_eq _ _)).
  eexists. split; [reflexivity|]. simpl. split; [exact Hfile|].
  intros q Hq. rewrite (Hrest q Hq). simpl. by rewrite lookup_insert_ne.
Qed.

(** When the path of the launch script may not be written, the
    generator raises an InstallationError that carries the refusal, and
    leaves the machine as it is. *)
Theorem create_startup_script_refused (install_dir conda_path : string) (w : World) :
  let startup_path := path_join E (path_dirname E install_dir) "start_bitnet.bat" in
  startup_path ∈ fs_denied (machine w) ->
  exists w',
    create_startup_script E install_dir conda_path w =
      (Raise (InstallationError ("Failed to create startup script: Permission denied: " +:+
                                 repr_str startup_path)), w') /\
    machine w' = machine w.
Proof.
  intros startup_path Hden. destruct w as [[f dn fd vs] c tr]. simpl in *.
  unfold create_startup_script. fold startup_path. host.
  rewrite bool_decide_true by done. eexists. split; reflexivity.
Qed.

End ScriptProperties.

(** ** More on the environment configurator *)

Section ConfiguratorProperties.
Import Installer Core.
Context (E : Env) {CB : Type}.

(** Any events at all. *)
Definition anything (evs : list Event) : Prop := True.

Lemma anything_nil : anything [].
Proof. exact I. Qed.

Lemma anything_app (a b : list Event) : anything a -> anything b -> anything (a ++ b).
Proof. intros _ _. exact I. Qed.

(** The configurator either returns [True] or raises an
    InstallationError whose message starts with 'Conda environment setup
    failed'. *)
Theorem setup_conda_env_outcomes (conda_path install_dir : string) (enable_gpu : bool)
    (cb : option CB) (w : World) :
  match fst (setup_conda_env E conda_path install_dir enable_gpu cb w) with
  | Ok b => b = true
  | Raise e => exists rest,
      e = InstallationError ("Conda environment setup failed" +:+ rest)
  end.
Proof.
  destruct (setup_conda_env E conda_path install_dir enable_gpu cb w) as [r w'] eqn:H.
  simpl. unfold setup_conda_env in H.
  apply bind_inv in H as [([] & w1 & _ & H)|(e & H1 & _)]; [|discriminate H1].
  apply try_except_inv in H as [(a & H & ->)|(e & w2 & _ & H)]; cycle 1.
  { unfold any_exn in H.
    apply bind_inv in H as [([] & w3 & _ & H)|(e' & H1 & _)]; [|discriminate H1].
    destruct e; injection H as <- _; eexists; reflexivity. }
  apply bind_inv_ok in H as ([[rc out] err] & w2 & _ & H).
  apply bind_inv_ok in H as ([] & w3 & _ & H).
  apply bind_inv_ok in H as (has & w4 & _ & H).
  apply bind_inv_ok in H as ([] & w5 & _ & H).
  apply bind_inv_ok in H as ([] & w6 & _ & H).
  apply bind_inv_ok in H as (res & w7 & _ & H).
  apply bind_inv_ok in H as ([] & w8 & _ & H).
  apply bind_inv_ok in H as ([] & w9 & _ & H).
  apply bind_inv_ok in H as (w10 & w11 & _ & H).
  apply bind_inv_ok in H as (dirs & w12 & _ & H).
  apply bind_inv_ok in H as ([] & w13 & _ & H).
  apply bind_inv_ok in H as ([] & w14 & _ & H).
  by injection H as <- _.
Qed.

(** The listing of the environments exits with another code: the
    configurator raises with that code, having run nothing else. *)
Theorem setup_conda_env_listing_fails (conda_path install_dir : string)
    (enable_gpu : bool) (cb : option CB) (w : World) (rc : N) (out err : string)
    (after : Machine) :
  proc E (clock w) (mkCmd [conda_path; "env"; "list"] None false) (machine w)
    = Exited rc out err after ->
  rc <> 0%N ->
  let res := setup_conda_env E conda_path install_dir enable_gpu cb w in
  fst res = Raise (InstallationError ("Conda environment setup failed with exit code " +:+
                                      str_of_N rc)) /\
  spawned (trace_since w (snd res)) = [mkCmd [conda_path; "env"; "list"] None false].
Proof.
  intros Hproc Hrc. unfold setup_conda_env.
  rewrite (bind_ok _ _ _ _ _ (logger_info_eq _ _)). unfold try_except.
  rewrite (bind_raise _ _ _ _ _
             (run_checked_nonzero E _ (logged w INFO "Setting up conda environment")
                rc out err after Hproc Hrc)).
  unfold any_exn. rewrite (bind_ok _ _ _ _ _ (logger_error_eq _ _)).
  split; [reflexivity|]. unfold trace_since. simpl.
  by rewrite <- !app_assoc, drop_app_length.
Qed.

(** The listing exits with zero and does not have the name bitnet-cpp in
    it: the environment is created, with Python 3.9; when that succeeds
    and requirements.txt may be written, the requirements are installed
    next. *)
Theorem setup_conda_env_creates (conda_path install_dir : string) (enable_gpu : bool)
    (cb : option CB) (w : World) (out err : string) (after : Machine)
    (out' err' : string) (after' : Machine) :
  let listing := mkCmd [conda_path; "env"; "list"] None false in
  let create := mkCmd [conda_path; "create"; "-n"; "bitnet-cpp"; "python=3.9"; "-y"]
                      None false in
  let requirements_path := path_join E install_dir "requirements.txt" in
  proc E (clock w) listing (machine w) = Exited 0 out err after ->
  str_in "bitnet-cpp" out = false ->
  proc E (S (clock w)) create after = Exited 0 out' err' after' ->
  requirements_path ∉ fs_denied after' ->
  exists more,
    spawned (trace_since w (snd (setup_conda_env E conda_path install_dir enable_gpu cb w)))
    = listing :: create ::
      mkCmd [conda_path; "run"; "-n"; "bitnet-cpp"; "pip"; "install"; "-r";
             requirements_path] (Some install_dir) false :: more.
Proof.
  intros listing create requirements_path Hproc Hout Hcreate Hden.
  unfold setup_conda_env.
  rewrite (bind_ok _ _ _ _ _ (logger_info_eq _ _)).
  match goal with |- context [try_except ?b _ _ ?s] =>
    destruct (b s) as [rb wb] eqn:Hb end.
  assert (exists more,
            trace wb = trace w ++
              [EvLog INFO "Setting up conda environment"; EvSpawn listing;
               EvLog INFO "Creating conda environment 'bitnet-cpp'"; EvSpawn create] ++
              more /\
            exists more',
              spawned more =
              mkCmd [conda_path; "run"; "-n"; "bitnet-cpp"; "pip"; "install"; "-r";
                     requirements_path] (Some install_dir) false :: more')
    as (more & Htb & more' & Hpip).
  { rewrite (bind_ok _ _ _ _ _
               (run_checked_zero E listing (logged w INFO "Setting up conda environment")
                  out err after Hproc)) in Hb.
    cbv beta iota zeta in Hb. unfold env_name in Hb. rewrite Hout in Hb.
    erewrite (bind_ok (bind _ _)) in Hb; cycle 1.
    { rewrite (bind_ok _ _ _ _ _ (logger_info_eq _ _)).
      erewrite bind_ok; [reflexivity|].
      match goal with |- run_checked E ?c ?w0 = _ =>
        apply (run_checked_zero E c w0 out' err' after' Hcreate) end. }
    rewrite (bind_ok _ _ _ _ _ (os_path_exists_eq _ _)) in Hb.
    match type of Hb with bind _ _ ?s = _ =>
      destruct (requirements_written requirements_path s Hden)
        as (w4 & evs4 & H4 & Ht4 & Hs4) end.
    rewrite (bind_ok _ _ _ _ _ H4) in Hb.
    rewrite (bind_ok _ _ _ _ _ (logger_info_eq _ _)) in Hb.
    apply bind_inv in Hb as [(res & w6 & H6 & Hb)|(e & H6 & _)].
    - apply run_checked_spawns in H6. cbv beta in Hb.
      match type of Hb with ?m _ = _ =>
        assert (steps (adds anything) m) as Hst end.
      { host_steps_ex anything_nil anything_app ltac:(exact I)
          ltac:(apply steps_walk_packages; [exact anything_nil | exact anything_app]). }
      apply Hst in Hb as (evs & Ht & _).
      exists (evs4 ++ [EvLog INFO "Installing Python requirements"] ++
              [EvSpawn (mkCmd [conda_path; "run"; "-n"; "bitnet-cpp"; "pip"; "install";
                               "-r"; requirements_path] (Some install_dir) false)] ++ evs).
      split.
      { rewrite Ht, H6. simpl. rewrite Ht4. simpl. rewrite <- !app_assoc. reflexivity. }
      rewrite !spawned_app, Hs4. simpl. eauto.
    - apply run_checked_spawns in H6.
      exists (evs4 ++ [EvLog INFO "Installing Python requirements"] ++
              [EvSpawn (mkCmd [conda_path; "run"; "-n"; "bitnet-cpp"; "pip"; "install";
                               "-r"; requirements_path] (Some install_dir) false)]).
      split.
      { rewrite H6. simpl. rewrite Ht4. simpl. rewrite <- !app_assoc. reflexivity. }
      rewrite !spawned_app, Hs4. simpl. eauto. }
  assert (exists tail, trace (snd (try_except (fun _ => (rb, wb)) any_exn
             (fun e =>
                logger_error ("Conda environment setup failed: " +:+ str_of_exn e);;
                match e with
                | CalledProcessError rc _ =>
                    raise (InstallationError
                             ("Conda environment setup failed with exit code " +:+
                              str_of_N rc))
                | _ => raise (InstallationError
                                ("Conda environment setup failed: " +:+ str_of_exn e))
                end) wb : Result bool * World)) = trace wb ++ tail /\
                       spawned tail = []) as (tail & Htail & Hstail).
  { unfold try_except. destruct rb as [a|e].
    - exists []. by rewrite (right_id_L [] (++)).
    - exists [EvLog ERROR ("Conda environment setup failed: " +:+ str_of_exn e)].
      unfold any_exn. rewrite (bind_ok _ _ _ _ _ (logger_error_eq _ _)).
      split; [|reflexivity]. by destruct e. }
  unfold try_except in *. rewrite Hb.
  rewrite (trace_since_app w _ (([EvLog INFO "Setting up conda environment";
               EvSpawn listing; EvLog INFO "Creating conda environment 'bitnet-cpp'";
               EvSpawn create] ++ more) ++ tail))
    by (by rewrite Htail, Htb, <- !app_assoc).
  rewrite !spawned_app, Hstail, Hpip, (right_id_L [] (++)). simpl. eauto.
Qed.

End ConfiguratorProperties.

(** ** control_panel_tab.py: the server supervisor *)

Section ServerProperties.
Import Installer Core ControlPanelTab.
Context (E : Env).

(** The window with another status of the server. *)
Definition with_status (g : Window) (text : string) (evs : list UiEvent) : Window :=
  mkWindow (config_data g) (Gui.install_dir g) (gpu_enabled g) text (current_model g)
           (use_gpu g) (bitnet_process g) (ui g ++ evs).

(** The configuration names no installation directory that is there:
    the key is missing, or its value is empty, or it is a path that
    does not exist. *)
Definition not_installed (w : World) (g : Window) : Prop :=
  match config_data g !! "install_dir" with
  | None => True
  | Some v => truthy v = false \/ exists s, v = JStr s /\ fs (machine w) !! s = None
  end.

(** Starting the server when BitNet is not installed: an error dialog is
    shown and nothing else happens; the status of the server stays what
    it was, and no thread is started. *)
Theorem start_bitnet_server_not_installed (w : World) (g : Window) :
  not_installed w g ->
  start_bitnet_server (w, g) =
  (Ok tt, (w, with_ui g [UiDialog ShowError "Error"
                           "BitNet is not installed. Please install it first."])).
Proof.
  unfold not_installed, start_bitnet_server. intros H.
  rewrite (bind_ok _ _ _ g (w, g)) by reflexivity.
  destruct (config_data g !! "install_dir") as [v|]; simpl.
  - destruct H as [H|(s & -> & H)].
    + rewrite H. rewrite (bind_ok _ _ _ false (w, g)) by reflexivity. reflexivity.
    + destruct (truthy (JStr s)).
      * rewrite (bind_ok _ _ _ false (w, g)); [reflexivity|].
        unfold inW. rewrite lift_fst_eq. unfold os_path_exists_val, os_path_exists, gets.
        simpl. rewrite H. by rewrite bool_decide_false by (intros [? ?]; discriminate).
      * rewrite (bind_ok _ _ _ false (w, g)) by reflexivity. reflexivity.
  - rewrite (bind_ok _ _ _ false (w, g)) by reflexivity. reflexivity.
Qed.

(** The texts added to the output area, in order. *)
Definition outputs (evs : list UiEvent) : list string :=
  omap (fun ev => match ev with UiOutput t => Some t | _ => None end) evs.

Lemma outputs_app (a b : list UiEvent) : outputs (a ++ b) = outputs a ++ outputs b.
Proof. apply omap_app. Qed.

(** What reading the output of a server does: every line is shown, in
    order, and the status becomes Ready if a line has 'Server started
    at' in it, and stays what it was otherwise. *)
Theorem read_server_output_ready (lines : list string) (g : Window) :
  exists evs,
    read_server_output lines g =
      (Ok tt, with_status g (if existsb (str_in "Server started at") lines
                             then "Ready" else bitnet_status g) evs) /\
    outputs evs = lines.
Proof.
  unfold read_server_output. revert g.
  induction lines as [|line lines IH]; intros g; simpl.
  - exists []. split; [|done]. unfold with_status. destruct g. simpl.
    by rewrite (right_id_L [] (++)).
  - rewrite (bind_ok _ _ _ tt
               (if str_in "Server started at" line
                then with_status g "Ready" [UiOutput line; UiServerStatus "Ready"]
                else with_ui g [UiOutput line])).
    2:{ unfold update_output. rewrite (bind_ok _ _ _ _ _ (show_eq _ _)).
        destruct (str_in "Server started at" line); simpl; [|reflexivity].
        unfold set_bitnet_status, modify, with_status. simpl. by rewrite <- app_assoc. }
    destruct (str_in "Server started at" line) eqn:Hl; simpl.
    + destruct (IH (with_status g "Ready" [UiOutput line; UiServerStatus "Ready"]))
        as (evs & -> & Hevs).
      exists ([UiOutput line; UiServerStatus "Ready"] ++ evs). split.
      * unfold with_status. simpl. rewrite <- app_assoc.
        by destruct (existsb (str_in "Server started at") lines).
      * by rewrite outputs_app, Hevs.
    + destruct (IH (with_ui g [UiOutput line])) as (evs & -> & Hevs).
      exists ([UiOutput line] ++ evs). split.
      * unfold with_status, with_ui. simpl. by rewrite <- app_assoc.
      * by rewrite outputs_app, Hevs.
Qed.


(** The configuration has no path of the environment manager, or no
    installation directory, or an empty one: the thread runs nothing;
    it logs the failure, shows it, and sets the status to Error. *)
Theorem start_server_thread_unconfigured (w : World) (g : Window) :
  truthy_opt (config_data g !! "conda_path") = false \/
  truthy_opt (config_data g !! "install_dir") = false ->
  _start_server_thread E (w, g) =
  (Ok tt,
   (logged w ERROR
      "Error starting BitNet server: Missing conda path or installation directory.",
    with_status g "Error"
      [UiOutput ("Error: Missing conda path or installation directory." +:+ nl);
       UiServerStatus "Error"])).
Proof.
  intros H. unfold _start_server_thread, try_except.
  rewrite (bind_ok _ _ _ g (w, g)) by reflexivity.
  assert (match config_data g !! "conda_path", config_data g !! "install_dir" with
          | Some c, Some d => negb (truthy c) || negb (truthy d) = true
          | _, _ => True
          end) as Hc.
  { destruct (config_data g !! "conda_path") as [c|], (config_data g !! "install_dir")
      as [d|]; simpl in *; try done.
    destruct H as [-> | ->]; [done|]. by rewrite orb_true_r. }
  destruct (config_data g !! "conda_path") as [c|], (config_data g !! "install_dir")
    as [d|]; try rewrite Hc; unfold with_status, logged, with_trace; core; simpl;
    by rewrite <- app_assoc.
Qed.

(** The path of the environment manager in the configuration does not
    exist: the thread means to look for it elsewhere, but the function
    it calls for that does not exist, so nothing is run and the status
    becomes Error. *)
Theorem start_server_thread_conda_moved (w : World) (g : Window) (conda install_dir : string)
    :
  config_data g !! "conda_path" = Some (JStr conda) ->
  config_data g !! "install_dir" = Some (JStr install_dir) ->
  conda <> EmptyString -> install_dir <> EmptyString ->
  fs (machine w) !! conda = None ->
  _start_server_thread E (w, g) =
  (Ok tt,
   (logged w ERROR
      "Error starting BitNet server: module 'installer_core' has no attribute 'find_conda'",
    with_status g "Error"
      [UiOutput ("Error: module 'installer_core' has no attribute 'find_conda'" +:+ nl);
       UiServerStatus "Error"])).
Proof.
  intros Hc Hd Hc0 Hd0 Hfs. unfold _start_server_thread, try_except.
  rewrite (bind_ok _ _ _ g (w, g)) by reflexivity. rewrite Hc, Hd.
  assert (truthy (JStr conda) = true) as ->.
  { simpl. by destruct conda. }
  assert (truthy (JStr install_dir) = true) as ->.
  { simpl. by destruct install_dir. }
  cbn [negb orb].
  rewrite (bind_ok _ _ _ false (w, g)).
  2:{ unfold inW. rewrite lift_fst_eq. unfold os_path_exists_val, os_path_exists, gets.
      simpl. rewrite Hfs. by rewrite bool_decide_false by (intros [? ?]; discriminate). }
  unfold with_status, logged, with_trace. core. simpl. by rewrite <- app_assoc.
Qed.

End ServerProperties.

(** ** installer_gui_tabs.py: how an installation ends *)

(** The dialogs shown and the buttons enabled or disabled, in order. *)
Definition dialogs (evs : list UiEvent) : list (DialogKind * string * string) :=
  omap (fun ev => match ev with UiDialog k t m => Some (k, t, m) | _ => None end) evs.

Definition buttons (evs : list UiEvent) : list (string * bool) :=
  omap (fun ev => match ev with UiButton n b => Some (n, b) | _ => None end) evs.

Lemma dialogs_app (a b : list UiEvent) : dialogs (a ++ b) = dialogs a ++ dialogs b.
Proof. apply omap_app. Qed.

Lemma buttons_app (a b : list UiEvent) : buttons (a ++ b) = buttons a ++ buttons b.
Proof. apply omap_app. Qed.

(** What an action of the window shows *)
Section UiAdds.
Context (Q : list UiEvent -> Prop).
Hypothesis Q_nil : Q [].
Hypothesis Q_app : forall a b, Q a -> Q b -> Q (a ++ b).

Definition ui_adds (g g' : Window) : Prop :=
  exists uievs, g' = with_ui g uievs /\ Q uievs.

Lemma ui_adds_refl (g : Window) : ui_adds g g.
Proof. exists []. by rewrite with_ui_nil. Qed.

Lemma ui_adds_trans (g1 g2 g3 : Window) : ui_adds g1 g2 -> ui_adds g2 g3 -> ui_adds g1 g3.
Proof.
  intros (a & -> & Ha) (b & -> & Hb). exists (a ++ b). by rewrite with_ui_app; auto.
Qed.

Lemma steps_ui_show (ev : UiEvent) : Q [ev] -> steps ui_adds (show ev).
Proof. intros HQ g r g' H. rewrite show_eq in H. injection H as _ <-. by exists [ev]. Qed.

Lemma steps_in_ui {A} (P : list Event -> list UiEvent -> Prop) (m : UI A) :
  (forall uievs, Q uievs -> P [] uievs) ->
  steps ui_adds m -> steps (shows P) (lift_snd m).
Proof.
  intros HP Hm [w g] r [w' g'] H. apply lift_snd_inv in H as [H ->].
  apply Hm in H as (uievs & -> & HQ). exists [], uievs. simpl.
  rewrite (right_id_L [] (++)). auto.
Qed.

End UiAdds.

(** Neither a dialog nor a button. *)
Definition silent_ui (uievs : list UiEvent) : Prop :=
  dialogs uievs = [] /\ buttons uievs = [].

Definition silent (evs : list Event) (uievs : list UiEvent) : Prop := silent_ui uievs.

Lemma silent_ui_nil : silent_ui [].
Proof. by split. Qed.

Lemma silent_ui_app (a b : list UiEvent) : silent_ui a -> silent_ui b -> silent_ui (a ++ b).
Proof.
  intros [Ha1 Ha2] [Hb1 Hb2]. split.
  - by rewrite dialogs_app, Ha1, Hb1.
  - by rewrite buttons_app, Ha2, Hb2.
Qed.

Lemma silent_nil : silent [] [].
Proof. apply silent_ui_nil. Qed.

Lemma silent_app (a : list Event) (b : list UiEvent) (c : list Event) (d : list UiEvent) :
  silent a b -> silent c d -> silent (a ++ c) (b ++ d).
Proof. apply silent_ui_app. Qed.

(** Following the text of an action of the application that shows
    neither a dialog nor a button. *)
Ltac silent_ui_steps :=
  steps_with (ui_adds_refl silent_ui silent_ui_nil) (ui_adds_trans silent_ui silent_ui_app)
    ltac:(idtac;
          match goal with
          | |- steps _ (show _) => apply (steps_ui_show silent_ui); by split
          | |- steps _ (progress_config _) => apply (steps_ui_show silent_ui); by split
          | |- steps _ (status_label_config _) => apply (steps_ui_show silent_ui); by split
          end).

Ltac silent_steps extra :=
  steps_with (shows_refl silent silent_nil) (shows_trans silent silent_app)
    ltac:(first
      [ extra
      | match goal with
        | |- steps _ (lift_snd _) =>
            apply (steps_in_ui silent_ui silent); [by intros ?|]; silent_ui_steps
        | |- steps _ (lift_fst _) =>
            apply (steps_in_host silent anything); [intros ? ?; apply silent_ui_nil|];
            host_steps_ex anything_nil anything_app ltac:(exact I)
              ltac:(idtac;
                    match goal with
                    | |- steps _ (InstallerTab.call_setup_conda_env _ _ _ _) =>
                        apply steps_call_setup_conda_env
                    | |- steps _ (Core.create_startup_script _ _ _) =>
                        apply steps_create_startup_script
                    end;
                    first [ exact anything_nil | exact anything_app | intros; exact I ])
        end ]).

Section InstallationEnds.
Import Installer Core InstallerTab.
Context (E : Env).

Lemma clone_step_silent (install_dir : string) :
  steps (shows silent) (clone_step E install_dir).
Proof.
  unfold clone_step, clone_bitnet, clone_line, call, liftW, inUI, inW.
  silent_steps ltac:(idtac;
    match goal with
    | |- steps _ (lift_snd (clone_progress _ _)) =>
        unfold clone_progress;
        apply (steps_in_ui silent_ui silent); [by intros ?|]; silent_ui_steps
    end).
Qed.

Lemma environment_step_silent (install_dir : string) :
  steps (shows silent) (environment_step E install_dir).
Proof.
  unfold environment_step, inUI, inW. generalize range_41_80. intros rg.
  silent_steps fail.
Qed.

(** The third step shows the dialog of success and enables the refresh
    button when it returns, and neither a dialog nor a button when it
    raises. *)
Lemma script_step_ends (install_dir : string) (conda_path : JVal) (w : World)
    (g : Window) r (w' : World) (g' : Window) :
  script_step E install_dir conda_path (w, g) = (r, (w', g')) ->
  exists uievs,
    g' = with_ui g uievs /\
    match r with
    | Ok _ => (exists msg, dialogs uievs = [(ShowInfo, "Installation Complete", msg)]) /\
              buttons uievs = [("refresh_btn", true)]
    | Raise _ => silent_ui uievs
    end.
Proof.
  intros H. unfold script_step in H. ui_total H. ui_total H.
  apply bind_inv in H as [(path & [w3 g3] & H3 & H)|(e & H3 & ->)]; cycle 1.
  { unfold of_result in H3. injection H3 as _ <- <-. rewrite !with_ui_app.
    eexists. split; [reflexivity|]. by split. }
  unfold of_result in H3. injection H3 as _ <- <-.
  apply bind_inv in H as [(startup_path & [w4 g4] & H4 & H)|(e & H4 & ->)]; cycle 1.
  { apply inW_inv in H4 as [H4 ->]. rewrite !with_ui_app.
    eexists. split; [reflexivity|]. by split. }
  apply inW_inv in H4 as [H4 ->].
  ui_total H. ui_total H. ui_total H. ui_last H.
  rewrite !with_ui_app. eexists. split; [reflexivity|]. split; [|reflexivity].
  eexists. reflexivity.
Qed.

Lemma report_failure_ends (e : Exn) (w : World) (g : Window) r (w' : World)
    (g' : Window) :
  report_failure e (w, g) = (r, (w', g')) ->
  r = Ok tt /\
  exists uievs,
    g' = with_ui g uievs /\
    dialogs uievs =
      [(ShowError, "Installation Error",
        "An error occurred during installation:" +:+ nl +:+ nl +:+ str_of_exn e +:+
        nl +:+ nl +:+ "Please check the log for details.")] /\
    buttons uievs = [("install_btn", true); ("refresh_btn", true)].
Proof.
  intros H. unfold report_failure in H.
  apply bind_inv in H as [([] & [w1 g1] & Hx & H)|(? & Hx & _)];
    [|apply inW_inv in Hx as [Hx _]; discriminate Hx].
  apply inW_inv in Hx as [Hx ->].
  ui_total H. ui_total H. ui_total H. ui_last H.
  split; [done|]. rewrite !with_ui_app. eexists. split; [reflexivity|]. by split.
Qed.

Lemma install_bitnet_steps_ends (w : World) (g : Window) r (w' : World) (g' : Window) :
  install_bitnet_steps E (w, g) = (r, (w', g')) ->
  exists uievs,
    g' = with_ui g uievs /\
    match r with
    | Ok _ => (exists msg, dialogs uievs = [(ShowInfo, "Installation Complete", msg)]) /\
              buttons uievs = [("refresh_btn", true)]
    | Raise _ => silent_ui uievs
    end.
Proof.
  intros H. unfold install_bitnet_steps in H.
  apply bind_inv in H as [(g0 & [w1 g1] & H1 & H)|(e & H1 & _)];
    [|apply inUI_inv in H1 as [H1 _]; discriminate H1].
  apply inUI_inv in H1 as [H1 ->]. injection H1 as <- <-.
  apply bind_inv in H as [([] & [w2 g2] & H2 & H)|(e & H2 & ->)]; cycle 1.
  { apply inW_inv in H2 as [_ ->]. exists []. rewrite with_ui_nil. by split. }
  apply inW_inv in H2 as [_ ->].
  apply bind_inv in H as [([] & [w3 g3] & H3 & H)|(e & H3 & ->)]; cycle 1.
  { apply clone_step_silent in H3 as (evs & u3 & _ & Hg & Hs). simpl in Hg. eauto. }
  apply clone_step_silent in H3 as (evs3 & u3 & _ & Hg3 & Hs3). simpl in Hg3. subst g3.
  apply bind_inv in H as [(conda_path & [w4 g4] & H4 & H)|(e & H4 & ->)]; cycle 1.
  { apply environment_step_silent in H4 as (evs & u4 & _ & Hg & Hs). simpl in Hg.
    subst g'. rewrite with_ui_app. eexists. split; [reflexivity|].
    by apply silent_ui_app. }
  apply environment_step_silent in H4 as (evs4 & u4 & _ & Hg4 & Hs4). simpl in Hg4.
  subst g4.
  apply script_step_ends in H as (u5 & -> & Hu5). rewrite !with_ui_app.
  eexists. split; [reflexivity|].
  destruct Hs3 as [Hd3 Hb3], Hs4 as [Hd4 Hb4].
  destruct r as [[]|e].
  - destruct Hu5 as [[msg Hd5] Hb5]. split.
    + exists msg. by rewrite !dialogs_app, Hd3, Hd4, Hd5.
    + by rewrite !buttons_app, Hb3, Hb4, Hb5.
  - apply silent_ui_app; [done|]. by apply silent_ui_app.
Qed.

(** The installation thread lets no exception through and ends with
    exactly one dialog.  When the three steps return it is the dialog of
    success, and the only button enabled again is the refresh button:
    the install button stays disabled.  When a step raises it is the
    dialog of failure with the text of the exception, and both buttons
    are enabled again. *)
Theorem install_thread_ends (w : World) (g : Window) :
  let res := _install_bitnet_thread E (w, g) in
  let shown := ui_since g (snd (snd res)) in
  fst res = Ok tt /\
  match fst (install_bitnet_steps E (w, g)) with
  | Ok _ =>
      (exists msg, dialogs shown = [(ShowInfo, "Installation Complete", msg)]) /\
      buttons shown = [("refresh_btn", true)]
  | Raise e =>
      dialogs shown =
        [(ShowError, "Installation Error",
          "An error occurred during installation:" +:+ nl +:+ nl +:+ str_of_exn e +:+
          nl +:+ nl +:+ "Please check the log for details.")] /\
      buttons shown = [("install_btn", true); ("refresh_btn", true)]
  end.
Proof.
  unfold _install_bitnet_thread.
  destruct (install_bitnet_steps E (w, g)) as [r [w1 g1]] eqn:Hs.
  destruct (install_bitnet_steps_ends _ _ _ _ _ Hs) as (u1 & -> & Hu1).
  destruct r as [[]|e]; simpl.
  - rewrite (try_except_ok _ _ _ _ _ _ Hs). simpl.
    rewrite (ui_since_app g _ u1) by reflexivity. by split.
  - rewrite (try_except_raise _ _ _ _ _ _ Hs). unfold any_exn.
    destruct (report_failure e (w1, with_ui g u1)) as [r2 [w2 g2]] eqn:Hr.
    destruct (report_failure_ends _ _ _ _ _ _ Hr) as (-> & u2 & -> & Hd2 & Hb2).
    simpl. rewrite with_ui_app, (ui_since_app g _ (u1 ++ u2)) by reflexivity.
    destruct Hu1 as [Hd1 Hb1].
    rewrite dialogs_app, buttons_app, Hd1, Hb1, Hd2, Hb2. by split.
Qed.

(** The configuration has no path of the environment manager: the
    repository is cloned all the same, and only then the installation
    stops, on the missing key, with the bar at 40; no command of the
    environment manager is run. *)
Theorem install_without_conda_path (w : World) (g : Window) (w2 : World) (g2 : Window) :
  config_data g !! "conda_path" = None ->
  fs (machine w) !! Gui.install_dir g = Some Dir ->
  clone_step E (Gui.install_dir g) (w, g) = (Ok tt, (w2, g2)) ->
  install_bitnet_steps E (w, g) =
  (Raise (KeyError "conda_path"),
   (w2, with_ui g2 [UiStatusLabel "Setting up conda environment..."; UiProgress 40])).
Proof.
  intros Hc Hdir Hclone.
  assert (config_data g2 = config_data g) as Hg2.
  { apply clone_step_silent in Hclone as (evs & u & _ & Hg & _). simpl in Hg. by subst g2. }
  unfold install_bitnet_steps.
  rewrite (bind_ok _ _ _ g (w, g)) by reflexivity.
  rewrite (bind_ok _ _ _ tt (w, g))
    by (unfold inW; by rewrite lift_fst_eq, (os_makedirs_dir _ _ Hdir)).
  rewrite (bind_ok _ _ _ _ _ Hclone).
  erewrite bind_raise; [reflexivity|].
  unfold environment_step.
  rewrite (bind_ok _ _ _ tt (w2, with_ui g2 [UiStatusLabel "Setting up conda environment..."]))
    by reflexivity.
  rewrite (bind_ok _ _ _ tt
             (w2, with_ui (with_ui g2 [UiStatusLabel "Setting up conda environment..."])
                    [UiProgress 40])) by reflexivity.
  rewrite (bind_ok _ _ _ (with_ui (with_ui g2 [UiStatusLabel "Setting up conda environment..."])
                    [UiProgress 40])
             (w2, with_ui (with_ui g2 [UiStatusLabel "Setting up conda environment..."])
                    [UiProgress 40])) by reflexivity.
  simpl config_data. rewrite Hg2, Hc, with_ui_app. reflexivity.
Qed.

(** The rescaling of the clone's percentages is exact on 0..100: the
    float computation of the callback sets the bar to 10 plus the
    integer part of three tenths of the percentage, a value between 10
    and 40 that does not decrease when the percentage grows; the
    callback does not raise. *)
Theorem clone_progress_exact (percent : Z) (g : Window) :
  0 <= percent <= 100 ->
  clone_progress percent 100 g =
    (Ok tt, with_ui g [UiProgress (10 + 30 * percent / 100);
                       UiStatusLabel ("Cloning BitNet repository... " +:+
                                      str_of_Z percent +:+ "/100 objects")]) /\
  10 <= 10 + 30 * percent / 100 <= 40 /\
  (forall q, percent <= q -> 10 + 30 * percent / 100 <= 10 + 30 * q / 100).
Proof.
  intros Hp. split; [|split].
  - rewrite (clone_progress_at percent (10 + 30 * percent / 100) g
               (clone_slice_exact percent Hp)).
    reflexivity.
  - assert (0 <= 30 * percent / 100) by (apply Z.div_pos; lia).
    assert (30 * percent / 100 <= 30) by (apply Z.div_le_upper_bound; lia). lia.
  - intros q Hq. assert (30 * percent / 100 <= 30 * q / 100)
      by (apply Z.div_le_mono; lia). lia.
Qed.

End InstallationEnds.

Lemma install_miniconda_unverified_witness :
  fst (Core.install_miniconda Demo.env0 Scenario.temp_dir (@None (@Core.Callback unit))
         (Demo.world0, tt)) =
  Raise (InstallationError "Miniconda installation could not be verified").
Proof.
  rewrite (install_miniconda_unverified Demo.env0 Scenario.temp_dir None Demo.world0 tt
             Scenario.conda_downloaded tt EmptyString EmptyString
             (machine Scenario.conda_downloaded)).
  - reflexivity.
  - vm_compute. reflexivity.
  - vm_compute. reflexivity.
  - vm_compute. reflexivity.
Defined.

Lemma install_miniconda_init_fails_witness :
  exists w2,
    Core.install_miniconda (Scenario.with_proc Scenario.init_fails) Scenario.temp_dir
      (@None (@Core.Callback unit)) (Demo.world0, tt) =
    (Raise (InstallationError "Miniconda installation failed with exit code 1"), (w2, tt)) /\
    is_Some (fs (machine w2) !! Scenario.conda_exe).
Proof.
  destruct (install_miniconda_init_fails (Scenario.with_proc Scenario.init_fails)
              Scenario.temp_dir None Demo.world0 tt Scenario.conda_downloaded tt
              EmptyString EmptyString
              (Demo.with_node Scenario.conda_exe (File (Text "MZ"))
                 (machine Scenario.conda_downloaded))
              1%N EmptyString EmptyString
              (Demo.with_node Scenario.conda_exe (File (Text "MZ"))
                 (machine Scenario.conda_downloaded)))
    as (w2 & H & Hm & _).
  - vm_compute. reflexivity.
  - vm_compute. reflexivity.
  - vm_compute. eauto.
  - vm_compute. reflexivity.
  - discriminate.
  - exists w2. split; [exact H|]. rewrite Hm. vm_compute. eauto.
Defined.

Lemma install_vs_build_tools_unverified_witness :
  Core.install_vs_build_tools Demo.env0 Scenario.temp_dir (@None (@Core.Callback unit))
    (Demo.world0, tt) =
  (Raise (InstallationError "Visual Studio Build Tools installation could not be verified"),
   (Scenario.vs_looked_for, tt)).
Proof.
  apply (install_vs_build_tools_unverified Demo.env0 Scenario.temp_dir None Demo.world0 tt
           Scenario.vs_downloaded tt EmptyString EmptyString
           (machine Scenario.vs_downloaded) None).
  - vm_compute. reflexivity.
  - vm_compute. reflexivity.
  - vm_compute. reflexivity.
  - reflexivity.
Defined.

Lemma install_git_exit_code_witness :
  fst (Core.install_git (Scenario.with_proc (Scenario.exit_with 3)) Scenario.temp_dir
         (@None (@Core.Callback unit)) (Demo.world0, tt)) =
  Raise (InstallationError "Git installation failed with exit code 3").
Proof.
  rewrite (install_git_exit_code (Scenario.with_proc (Scenario.exit_with 3))
             Scenario.temp_dir None Demo.world0 tt Scenario.git_downloaded tt 3
             EmptyString EmptyString (machine Scenario.git_downloaded)).
  - reflexivity.
  - vm_compute. reflexivity.
  - reflexivity.
  - discriminate.
Defined.

Lemma install_vs_build_tools_not_launched_witness :
  fst (Core.install_vs_build_tools (Scenario.with_proc Scenario.cannot_launch)
         Scenario.temp_dir (@None (@Core.Callback unit)) (Demo.world0, tt)) =
  Raise (OSError "[WinError 193] %1 is not a valid Win32 application").
Proof.
  rewrite (install_vs_build_tools_not_launched (Scenario.with_proc Scenario.cannot_launch)
             Scenario.temp_dir None Demo.world0 tt Scenario.vs_downloaded tt
             "[WinError 193] %1 is not a valid Win32 application").
  - reflexivity.
  - vm_compute. reflexivity.
  - reflexivity.
Defined.

Lemma clone_bitnet_pull_fails_witness :
  fst (Core.clone_bitnet
         (Scenario.with_proc (Scenario.fails_with 1 "fatal: unable to access the remote"))
         "C:\Users\me\BitNet" (Some Demo.quiet) (Demo.world2, tt)) =
  Raise (InstallationError
           "Failed to clone BitNet repository: Error pulling repository: Git pull failed: fatal: unable to access the remote").
Proof.
  apply (clone_bitnet_pull_fails
           (Scenario.with_proc (Scenario.fails_with 1 "fatal: unable to access the remote"))
           "C:\Users\me\BitNet" (Some Demo.quiet) Demo.world2 tt 1 EmptyString
           "fatal: unable to access the remote" (machine Demo.world2)).
  - vm_compute. reflexivity.
  - vm_compute. eauto.
  - vm_compute. reflexivity.
  - discriminate.
Defined.

Lemma clone_bitnet_plain_fails_witness :
  fst (Core.clone_bitnet
         (Scenario.with_proc
            (Scenario.fails_with 128 "fatal: could not create work tree dir 'BitNet'"))
         "C:\Users\me\BitNet" (@None (@Core.Callback unit)) (Demo.world1, tt)) =
  Raise (InstallationError
           "Failed to clone BitNet repository: Error during Git clone: Git clone failed: fatal: could not create work tree dir 'BitNet'").
Proof.
  apply (clone_bitnet_plain_fails
           (Scenario.with_proc
              (Scenario.fails_with 128 "fatal: could not create work tree dir 'BitNet'"))
           "C:\Users\me\BitNet" Demo.world1 tt 128 EmptyString
           "fatal: could not create work tree dir 'BitNet'" (machine Demo.world1)).
  - vm_compute. reflexivity.
  - vm_compute. reflexivity.
  - vm_compute. reflexivity.
  - discriminate.
Defined.

Lemma backfill_idempotent_witness :
  Installer.backfill (Installer.DEFAULT_CONFIG_items Demo.env0)
    (JObj (Demo.config1 ∪ Installer.DEFAULT_CONFIG Demo.env0)) =
  Ok (JObj (Demo.config1 ∪ Installer.DEFAULT_CONFIG Demo.env0)).
Proof.
  apply (backfill_idempotent (Installer.DEFAULT_CONFIG_items Demo.env0) (JObj Demo.config1)).
  vm_compute. reflexivity.
Defined.

Lemma load_config_first_run_witness :
  exists w',
    Installer.load_config Demo.env0 Demo.world0 =
      (Ok (JObj (Installer.DEFAULT_CONFIG Demo.env0)), w') /\
    Installer.load_config Demo.env0 w' = (Ok (JObj (Installer.DEFAULT_CONFIG Demo.env0)), w').
Proof.
  destruct (load_config_first_run Demo.env0 Demo.world0) as (w' & H1 & H2).
  - vm_compute. reflexivity.
  - exists w'. split; [exact H1|]. apply H2. apply not_elem_of_empty.
Defined.

Lemma create_startup_script_writes_witness :
  exists w',
    Core.create_startup_script Demo.env0 "C:\Users\me\BitNet" "C:\conda\Scripts\conda.exe"
      Demo.world1 = (Ok "C:\Users\me\start_bitnet.bat", w') /\
    fs (machine w') !! "C:\Users\me\BitNet\start_bitnet.bat" = None.
Proof.
  destruct (create_startup_script_writes Demo.env0 "C:\Users\me\BitNet"
              "C:\conda\Scripts\conda.exe" Demo.world1) as (w' & H & _ & Hrest).
  - apply not_elem_of_empty.
  - vm_compute. discriminate.
  - exists w'. split; [exact H|]. rewrite Hrest; [|discriminate]. vm_compute. reflexivity.
Defined.

Lemma create_startup_script_refused_witness :
  fst (Core.create_startup_script Demo.env0 "C:\locked\BitNet" "C:\conda\Scripts\conda.exe"
         (mkWorld (mkMachine ∅ {[ "C:\locked\start_bitnet.bat" ]} ∅ None) O [])) =
  Raise (InstallationError
           "Failed to create startup script: Permission denied: 'C:\\locked\\start_bitnet.bat'").
Proof.
  destruct (create_startup_script_refused Demo.env0 "C:\locked\BitNet"
              "C:\conda\Scripts\conda.exe"
              (mkWorld (mkMachine ∅ {[ "C:\locked\start_bitnet.bat" ]} ∅ None) O []))
    as (w' & H & _).
  - vm_compute. set_solver.
  - rewrite H. vm_compute. reflexivity.
Defined.

Lemma setup_conda_env_listing_fails_witness :
  fst (Core.setup_conda_env (Scenario.with_proc (Scenario.exit_with 2))
         "C:\conda\Scripts\conda.exe" "C:\Users\me\BitNet" true (@None unit) Demo.world1) =
  Raise (InstallationError "Conda environment setup failed with exit code 2").
Proof.
  apply (setup_conda_env_listing_fails (Scenario.with_proc (Scenario.exit_with 2))
           "C:\conda\Scripts\conda.exe" "C:\Users\me\BitNet" true (@None unit)
           Demo.world1 2 EmptyString EmptyString (machine Demo.world1)).
  - reflexivity.
  - discriminate.
Defined.

Lemma setup_conda_env_creates_witness :
  exists more,
    spawned (trace_since Demo.world1
               (snd (Core.setup_conda_env Demo.env3 "C:\conda\Scripts\conda.exe"
                       "C:\Users\me\BitNet" true (@None unit) Demo.world1))) =
    mkCmd ["C:\conda\Scripts\conda.exe"; "env"; "list"] None false ::
    mkCmd ["C:\conda\Scripts\conda.exe"; "create"; "-n"; "bitnet-cpp"; "python=3.9"; "-y"]
          None false ::
    mkCmd ["C:\conda\Scripts\conda.exe"; "run"; "-n"; "bitnet-cpp"; "pip"; "install"; "-r";
           "C:\Users\me\BitNet\requirements.txt"] (Some "C:\Users\me\BitNet") false ::
    more.
Proof.
  apply (setup_conda_env_creates Demo.env3 "C:\conda\Scripts\conda.exe"
           "C:\Users\me\BitNet" true (@None unit) Demo.world1 "base  C:\conda" EmptyString
           (machine Demo.world1) EmptyString EmptyString (machine Demo.world1)).
  - reflexivity.
  - reflexivity.
  - reflexivity.
  - apply not_elem_of_empty.
Defined.

Lemma start_bitnet_server_not_installed_witness :
  bitnet_status (snd (snd (ControlPanelTab.start_bitnet_server (Demo.world1, Demo.window1))))
    = "Not Running".
Proof.
  rewrite (start_bitnet_server_not_installed Demo.world1 Demo.window1).
  - reflexivity.
  - exact I.
Defined.

Lemma start_server_thread_unconfigured_witness :
  bitnet_status (snd (snd (ControlPanelTab._start_server_thread Demo.env0
                             (Demo.world1, Demo.window1)))) = "Error".
Proof.
  rewrite (start_server_thread_unconfigured Demo.env0 Demo.world1 Demo.window1).
  - reflexivity.
  - right. reflexivity.
Defined.

Lemma start_server_thread_conda_moved_witness :
  spawned (trace (fst (snd (ControlPanelTab._start_server_thread Demo.env0
                              (Demo.world1, Scenario.window2))))) = [] /\
  bitnet_status (snd (snd (ControlPanelTab._start_server_thread Demo.env0
                             (Demo.world1, Scenario.window2)))) = "Error".
Proof.
  rewrite (start_server_thread_conda_moved Demo.env0 Demo.world1 Scenario.window2
             "C:\conda\Scripts\conda.exe" "C:\Users\me\BitNet").
  - split; reflexivity.
  - reflexivity.
  - reflexivity.
  - discriminate.
  - discriminate.
  - reflexivity.
Defined.

Lemma install_without_conda_path_witness :
  fst (InstallerTab.install_bitnet_steps Demo.env3 (Demo.world1, Demo.window0)) =
    Raise (KeyError "conda_path") /\
  spawned (trace (fst (snd (InstallerTab.install_bitnet_steps Demo.env3
                              (Demo.world1, Demo.window0))))) =
    [mkCmd ["git"; "clone"; "--recursive"; "--progress"; Installer.BITNET_REPO;
            "C:\Users\me\BitNet"] None false].
Proof.
  rewrite (install_without_conda_path Demo.env3 Demo.world1 Demo.window0
             (fst Scenario.cloned0) (snd Scenario.cloned0)).
  - split; reflexivity.
  - reflexivity.
  - reflexivity.
  - vm_compute. reflexivity.
Defined.

Lemma clone_progress_exact_witness :
  InstallerTab.clone_progress 55 100 Demo.window0 =
  (Ok tt, with_ui Demo.window0
            [UiProgress 26; UiStatusLabel "Cloning BitNet repository... 55/100 objects"]).
Proof.
  apply (clone_progress_exact 55 Demo.window0). lia.
Defined.

(** ** installer_gui_tabs.py: the prerequisite panel *)

Ltac tab :=
  cbv beta iota zeta delta
    [bind ret raise get gets modify of_result try_except any_exn when
     lift_fst lift_snd fst snd negb andb
     emit logger_debug logger_info logger_warning logger_error
     Prerequisites.inHost Prerequisites.inWindow Prerequisites.inPanel
     Prerequisites.label_config Prerequisites.set_git_installed
     Prerequisites.set_conda_installed Prerequisites.set_vs_installed
     Prerequisites._update_status Prerequisites._update_install_button
     Prerequisites.git_installed Prerequisites.conda_installed
     Prerequisites.vs_installed Prerequisites.labels Prerequisites.is_not_None
     show progress_config status_label_config button_config set_config
     config_data Gui.install_dir gpu_enabled bitnet_status current_model use_gpu
     bitnet_process ui machine clock trace].

Section PanelProperties.
Import Installer Core Prerequisites.
Context (E : Env).

(** The configuration once the path a locator found is stored in it. *)
Definition stored (key : string) (found : option string) (config : gmap string JVal)
  : gmap string JVal :=
  match found with
  | Some path => <[key := JStr path]> config
  | None => config
  end.

(** When the three locators return, the thread that checks the
    prerequisites sets each flag to whether its tool was found, stores
    the paths found in the configuration, disables the button of each
    tool found and enables that of each tool missing, and last enables
    the install button exactly when all three were found. *)
Theorem check_prerequisites_thread_found (w w1 w2 w3 : World) (g : Window) (p : Panel)
    (git_path conda_path vs_path : option string) :
  check_git E w = (Ok git_path, w1) ->
  check_conda E w1 = (Ok conda_path, w2) ->
  check_visual_studio w2 = (Ok vs_path, w3) ->
  exists (w' : World) (g' : Window) (p' : Panel),
    _check_prerequisites_thread E (w, (g, p)) = (Ok tt, (w', (g', p'))) /\
    git_installed p' = is_not_None git_path /\
    conda_installed p' = is_not_None conda_path /\
    vs_installed p' = is_not_None vs_path /\
    config_data g' =
      stored "vs_path" vs_path
        (stored "conda_path" conda_path (stored "git_path" git_path (config_data g))) /\
    buttons (ui_since g g') =
      [("git_btn", negb (is_not_None git_path));
       ("conda_btn", negb (is_not_None conda_path));
       ("vs_btn", negb (is_not_None vs_path));
       ("install_btn",
        is_not_None git_path && is_not_None conda_path && is_not_None vs_path)].
Proof.
  intros Hgit Hconda Hvs. destruct g as [cfg dir gpu st model ug proc u].
  destruct p as [gi ci vi lb].
  unfold _check_prerequisites_thread, ui_since. tab. rewrite Hgit.
  destruct git_path as [gp|]; tab; rewrite Hconda;
    destruct conda_path as [cp|]; tab; rewrite Hvs;
    destruct vs_path as [vp|]; tab;
    (eexists _, _, _; split; [reflexivity|]; simpl;
     rewrite <- ?app_assoc, drop_app_length; by repeat split).
Qed.

(** The server announces no length, or the length 0: the callback of the
    installation thread divides by it, so its first call raises, the
    download is given up and nothing is installed.  The thread reports
    that the installer could not be downloaded and enables the button of
    Git again; no file is written and no program is run. *)
Theorem install_git_thread_unknown_length (w : World) (g : Window) (p : Panel)
    (header : option string) (reads : list ReadEv) :
  let git_url :=
    "https://github.com/git-for-windows/git/releases/download/v2.40.0.windows.1/Git-2.40.0-64-bit.exe" in
  let installer_path :=
    path_join E (path_join E (APP_DATA E) "temp") "git_installer.exe" in
  fs (machine w) !! path_dirname E installer_path = Some Dir ->
  urlopen E (clock w) git_url = Response header reads ->
  content_length header = Ok 0 ->
  exists (w' : World) (g' : Window),
    _install_git_thread E (w, (g, p)) = (Ok tt, (w', (g', p))) /\
    machine w' = machine w /\
    trace_since w w' =
      [EvLog INFO "Installing Git for Windows";
       EvLog INFO ("Downloading " +:+ git_url +:+ " to " +:+ installer_path);
       EvUrl git_url;
       EvCallback 0 0;
       EvLog ERROR "Download failed: division by zero";
       EvLog ERROR "Error installing Git: Failed to download Git installer"] /\
    ui_since g g' =
      [UiStatusLabel "Error installing Git: Failed to download Git installer";
       UiButton "git_btn" true].
Proof.
  intros git_url installer_path Hdir Hurl Hlen.
  destruct w as [[f0 dn fd vs] c tr]. destruct g as [cfg dir gpu st model ug proc u].
  simpl in Hdir, Hurl.
  unfold _install_git_thread, Core.install_git, download_file, as_callback,
    progress_callback, trace_since, ui_since.
  fold git_url installer_path. core. tab. rewrite Hdir. core. tab.
  rewrite Hurl. core. tab. rewrite Hlen. core. tab.
  eexists _, _. split; [reflexivity|]. simpl.
  rewrite <- ?app_assoc, !drop_app_length. by repeat split.
Qed.

End PanelProperties.

Lemma check_prerequisites_thread_found_witness :
  exists w' g' p',
    Prerequisites._check_prerequisites_thread PanelScenario.env_found
      (PanelScenario.world_vs, (Demo.window0, PanelScenario.panel0)) =
      (Ok tt, (w', (g', p'))) /\
    config_data g' !! "git_path" = Some (JStr "C:\tools\git.exe") /\
    buttons (ui_since Demo.window0 g') =
      [("git_btn", false); ("conda_btn", false); ("vs_btn", false); ("install_btn", true)].
Proof.
  destruct (check_prerequisites_thread_found PanelScenario.env_found
              PanelScenario.world_vs PanelScenario.git_checked
              PanelScenario.conda_checked PanelScenario.vs_checked
              Demo.window0 PanelScenario.panel0
              (Some "C:\tools\git.exe") (Some "C:\tools\conda.exe")
              (Some "C:\Program Files\Microsoft Visual Studio\2022"))
    as (w' & g' & p' & H & _ & _ & _ & Hc & Hb).
  - vm_compute. reflexivity.
  - vm_compute. reflexivity.
  - vm_compute. reflexivity.
  - exists w', g', p'. split; [exact H|]. split; [|exact Hb].
    rewrite Hc. vm_compute. reflexivity.
Defined.

Lemma install_git_thread_unknown_length_witness :
  exists w' g',
    Prerequisites._install_git_thread PanelScenario.env_no_length
      (PanelScenario.world_temp, (Demo.window0, PanelScenario.panel0)) =
      (Ok tt, (w', (g', PanelScenario.panel0))) /\
    ui_since Demo.window0 g' =
      [UiStatusLabel "Error installing Git: Failed to download Git installer";
       UiButton "git_btn" true].
Proof.
  destruct (install_git_thread_unknown_length PanelScenario.env_no_length
              PanelScenario.world_temp Demo.window0 PanelScenario.panel0 None
              [Chunk "MZ"; Chunk "PE"]) as (w' & g' & H & _ & _ & Hu).
  - vm_compute. reflexivity.
  - reflexivity.
  - reflexivity.
  - exists w', g'. split; [exact H|exact Hu].
Defined.
